(** * social-capital: the loan data-cleaning pipeline

    A shallow embedding of [src/data_cleaning.py], and of the two row
    filters of the older [src/data-cleaning.py], with the properties of
    the cleaning stages.

    The Python code works on pandas data frames.  Here a frame is an
    ordered list of typed columns and an ordered list of rows; a row
    carries its index label and a finite map from column names to cells.
    An exception is a value of the error monad [result], and a statement
    that updates the frame in place hands the new frame on.

    - One cell [NA] stands for the missing value as the CSV reader and
      pandas' own operations give it, [NaN] and [NaT].  The model has no
      [None] of its own: it would differ from [NaN] in one place only,
      the type of a column assigned from a Python list that holds
      nothing else.
    - The column types are kept because the [.str] accessor exists for
      [object] columns only, and a comparison with a string depends on
      the type of the column.
    - Floats are IEEE-754 numbers as specified in [Floats.SpecFloat]:
      [float(s)] rounds the decimal numeral to binary64, and
      [astype('float32')] rounds that to binary32.
    - Strings are sequences of code points below 256; the [str] methods
      are written out for that alphabet.
    - Reading the CSV files is not part of the model, and the functions
      of [src.feature_engineering], which is not at hand, are parameters
      of the pipeline. *)

From Stdlib Require Import ZArith QArith List Ascii String Floats.SpecFloat.
From stdpp Require Import base option list gmap strings fin_maps sorting.
Import ListNotations.
Local Open Scope string_scope.
Local Open Scope list_scope.
Local Open Scope Z_scope.

(* ===================================================================== *)
(** * Python strings *)
(* ===================================================================== *)

Module Py.

Definition code (c : ascii) : Z := Z.of_nat (nat_of_ascii c).

Definition chars (s : string) : list ascii := list_ascii_of_string s.
Definition str (l : list ascii) : string := string_of_list_ascii l.

(** [c.isspace()] on the code points below 256. *)
Definition isspace (c : ascii) : bool :=
  let n := code c in
  ((9 <=? n) && (n <=? 13)) || ((28 <=? n) && (n <=? 32))
  || (n =? 133) || (n =? 160).

(** The whitespace [float] strips from both ends: the ASCII whitespace
    and, above 127, the Unicode spaces.  The separators 28 to 31 are
    whitespace for [str.strip] and [str.isspace] but not for [float]. *)
Definition isspace_float (c : ascii) : bool :=
  let n := code c in
  ((9 <=? n) && (n <=? 13)) || (n =? 32) || (n =? 133) || (n =? 160).

(** The decimal digits, which is what [\d] and [float] accept. *)
Definition isdecimal (c : ascii) : bool :=
  let n := code c in (48 <=? n) && (n <=? 57).

(** [c.isdigit()]: the decimal digits and the superscripts 1, 2, 3. *)
Definition isdigit (c : ascii) : bool :=
  let n := code c in
  isdecimal c || (n =? 178) || (n =? 179) || (n =? 185).

Fixpoint lstrip_by (p : ascii -> bool) (l : list ascii) : list ascii :=
  match l with
  | c :: l' => if p c then lstrip_by p l' else l
  | [] => []
  end.

Definition rstrip_by (p : ascii -> bool) (l : list ascii) : list ascii :=
  rev (lstrip_by p (rev l)).

(** [s.strip()] *)
Definition strip (s : string) : string :=
  str (rstrip_by isspace (lstrip_by isspace (chars s))).

(** [s.rstrip(cs)] *)
Definition rstrip (cs : string) (s : string) : string :=
  str (rstrip_by (fun c => existsb (Ascii.eqb c) (chars cs)) (chars s)).

(** [s.rjust(width, fill)] *)
Definition rjust (width : nat) (fill : ascii) (s : string) : string :=
  str (repeat fill (width - String.length s) ++ chars s).

Definition is_lower_ascii (c : ascii) : bool :=
  let n := code c in (97 <=? n) && (n <=? 122).

Definition is_upper_ascii (c : ascii) : bool :=
  let n := code c in (65 <=? n) && (n <=? 90).

Definition shift_char (d : Z) (c : ascii) : ascii :=
  ascii_of_nat (Z.to_nat (code c + d)).

(** [c.upper()].  The sharp s becomes two letters; the upper-case forms of
    the micro sign (181) and of y with diaeresis (255) lie outside the
    alphabet of the model and are left in place: like every other
    character above 127 they are no letter of an ASCII literal. *)
Definition upper_char (c : ascii) : list ascii :=
  let n := code c in
  if is_lower_ascii c then [shift_char (-32) c]
  else if n =? 223 then ["S"%char; "S"%char]
  else if (224 <=? n) && (n <=? 254) && negb (n =? 247) then [shift_char (-32) c]
  else [c].

Definition upper (s : string) : string := str (flat_map upper_char (chars s)).

Definition lower_char (c : ascii) : ascii :=
  if is_upper_ascii c then shift_char 32 c else c.

Definition digit_val (c : ascii) : Z := code c - 48.

(** Value of a run of decimal digits, most significant first. *)
Definition digits_val (l : list ascii) : Z :=
  fold_left (fun acc c => 10 * acc + digit_val c) l 0.

Fixpoint span (p : ascii -> bool) (l : list ascii) : list ascii * list ascii :=
  match l with
  | c :: l' =>
      if p c then let '(a, b) := span p l' in (c :: a, b) else ([], l)
  | [] => ([], [])
  end.

(** The leftmost non-empty run of decimal digits: what
    [re.search('(\d+)', s).group(1)] returns. *)
Fixpoint first_digit_run (l : list ascii) : option (list ascii) :=
  match l with
  | [] => None
  | c :: l' =>
      if isdecimal c then Some (fst (span isdecimal l)) else first_digit_run l'
  end.

(** ** [float(s)]

    The result is the binary64 number nearest to the decimal numeral
    (ties to even), computed by the IEEE-754 operations of
    [Floats.SpecFloat]. *)

Definition f64_of_Z (z : Z) : spec_float := binary_normalize 53 1024 z 0 false.

(** [mant * 10 ^ e10], correctly rounded to binary64. *)
Definition f64_of_decimal (neg : bool) (mant : Z) (e10 : Z) : spec_float :=
  match mant with
  | Zpos m =>
      if 0 <=? e10
      then binary_normalize 53 1024 (cond_Zopp neg (Zpos m * 10 ^ e10)) 0 neg
      else SFdiv 53 1024 (S754_finite neg m 0)
                         (S754_finite false (Z.to_pos (10 ^ (- e10))) 0)
  | _ => S754_zero neg
  end.

(** The cast of a binary64 number to binary32 ([astype('float32')]). *)
Definition f32_of_f64 (x : spec_float) : spec_float :=
  match x with
  | S754_finite s m e => binary_normalize 24 128 (cond_Zopp s (Zpos m)) e s
  | _ => x
  end.

(** Underscores of a numeric literal: allowed only between two digits.
    [prev] is the previous character of the input. *)
Fixpoint drop_underscores (prev : option ascii) (l : list ascii)
  : option (list ascii) :=
  match l with
  | [] => match prev with
          | Some "_"%char => None
          | _ => Some []
          end
  | c :: l' =>
      if Ascii.eqb c "_" then
        match prev with
        | Some p => if isdecimal p then drop_underscores (Some c) l' else None
        | None => None
        end
      else
        match prev with
        | Some "_"%char =>
            if isdecimal c then cons c <$> drop_underscores (Some c) l' else None
        | _ => cons c <$> drop_underscores (Some c) l'
        end
  end.

Definition split_sign (l : list ascii) : bool * list ascii :=
  match l with
  | "-"%char :: l' => (true, l')
  | "+"%char :: l' => (false, l')
  | _ => (false, l)
  end.

(** The optional exponent part: [None] when what follows the mantissa is
    not a well-formed exponent reaching the end of the string. *)
Definition parse_exponent (l : list ascii) : option Z :=
  match l with
  | [] => Some 0
  | c :: l' =>
      if Ascii.eqb (lower_char c) "e" then
        let '(neg, ds) := split_sign l' in
        match ds with
        | [] => None
        | _ => if forallb isdecimal ds
               then Some (cond_Zopp neg (digits_val ds)) else None
        end
      else None
  end.

Definition parse_number (neg : bool) (l : list ascii) : option spec_float :=
  let '(ip, r1) := span isdecimal l in
  let '(fp, r2) :=
    match r1 with
    | "."%char :: r => span isdecimal r
    | _ => ([], r1)
    end in
  match ip ++ fp with
  | [] => None
  | ds =>
      e ← parse_exponent r2;
      Some (f64_of_decimal neg (digits_val ds) (e - Z.of_nat (length fp)))
  end.

(** A signed value: an infinity, a nan or a number. *)
Definition float_body (l : list ascii) : option spec_float :=
  let '(neg, r) := split_sign l in
  let low := str (map lower_char r) in
  if (low =? "inf")%string || (low =? "infinity")%string
  then Some (S754_infinity neg)
  else if (low =? "nan")%string then Some S754_nan
  else parse_number neg r.

(** [float(s)]; [None] stands for [ValueError]. *)
Definition float (s : string) : option spec_float :=
  let body := rstrip_by isspace_float (lstrip_by isspace_float (chars s)) in
  l ← drop_underscores None body;
  float_body l.

End Py.

(* ===================================================================== *)
(** * The numerals of [float] *)
(* ===================================================================== *)

Module Numeral.

(** The grammar of the argument of [float], as the Python documentation
    gives it, written down independently of the parser above: what it
    means for the rest of a rate to be numeric, and which number it
    denotes. *)

Definition digits (l : list ascii) : Prop :=
  Forall (fun c => Py.isdecimal c = true) l.

Definition spaces (l : list ascii) : Prop :=
  Forall (fun c => Py.isspace_float c = true) l.

(** [sign ::= "+" | "-"], optional. *)
Inductive sign_text : list ascii -> bool -> Prop :=
| sign_absent : sign_text [] false
| sign_plus : sign_text ["+"%char] false
| sign_minus : sign_text ["-"%char] true.

(** [exponent ::= ("e" | "E") [sign] digitpart], optional. *)
Inductive exponent_text : list ascii -> Z -> Prop :=
| exponent_absent : exponent_text [] 0
| exponent_present c sg neg ds :
    c = "e"%char \/ c = "E"%char -> sign_text sg neg -> ds <> [] -> digits ds ->
    exponent_text (c :: sg ++ ds) (cond_Zopp neg (Py.digits_val ds)).

(** [number ::= [digitpart] "." digitpart | digitpart ["."]], with the
    digits before and after the point. *)
Inductive number_text : list ascii -> list ascii -> list ascii -> Prop :=
| number_whole ip : ip <> [] -> digits ip -> number_text ip ip []
| number_point ip fp :
    ip ++ fp <> [] -> digits ip -> digits fp ->
    number_text (ip ++ "."%char :: fp) ip fp.

(** [absfloatvalue ::= floatnumber | infinity | nan], in any letter
    case, and the binary64 number it denotes. *)
Inductive abs_text (neg : bool) : list ascii -> spec_float -> Prop :=
| abs_number t ip fp ex e :
    number_text t ip fp -> exponent_text ex e ->
    abs_text neg (t ++ ex)
      (Py.f64_of_decimal neg (Py.digits_val (ip ++ fp)) (e - Z.of_nat (length fp)))
| abs_infinity t :
    map Py.lower_char t = Py.chars "inf" \/ map Py.lower_char t = Py.chars "infinity" ->
    abs_text neg t (S754_infinity neg)
| abs_nan t :
    map Py.lower_char t = Py.chars "nan" -> abs_text neg t S754_nan.

(** [floatvalue ::= [sign] absfloatvalue] *)
Inductive float_value : list ascii -> spec_float -> Prop :=
| float_value_intro sg neg t f :
    sign_text sg neg -> abs_text neg t f -> float_value (sg ++ t) f.

(** [digitpart ::= digit (["_"] digit)*]: an underscore may stand
    between two digits.  [underscored l k]: [k] is [l] without its
    underscores, each of which stands between two digits. *)
Inductive underscored : list ascii -> list ascii -> Prop :=
| underscored_nil : underscored [] []
| underscored_char c l k :
    c <> "_"%char -> underscored l k -> underscored (c :: l) (c :: k)
| underscored_between d d' l k :
    Py.isdecimal d = true -> Py.isdecimal d' = true ->
    underscored (d' :: l) (d' :: k) ->
    underscored (d :: "_"%char :: d' :: l) (d :: d' :: k).

(** The strings [float] accepts and their values: a [floatvalue] with
    whitespace around it. *)
Definition float_text (s : string) (f : spec_float) : Prop :=
  exists ws1 body text ws2,
    Py.chars s = ws1 ++ body ++ ws2 /\ spaces ws1 /\ spaces ws2
    /\ underscored body text /\ float_value text f.

Definition numeric (s : string) : Prop := exists f, float_text s f.

End Numeral.

(* ===================================================================== *)
(** * pandas: cells, series and frames *)
(* ===================================================================== *)

Module Pd.

(** The exceptions the program can raise. *)
Inductive exn := KeyError | AttributeError | TypeError | ValueError | IndexError.

Inductive result (A : Type) : Type :=
| Ok (a : A)
| Raise (e : exn).
Arguments Ok {A} a.
Arguments Raise {A} e.

#[export] Instance result_ret : MRet result := @Ok.
#[export] Instance result_bind : MBind result :=
  fun A B f x => match x with Ok a => f a | Raise e => Raise e end.

(** A cell of a frame.  [NA] is the missing value ([NaN] and [NaT]
    alike); [Flt] holds a number that is not [NaN]; [Date] is a
    [Timestamp] at midnight. *)
Inductive cell :=
| NA
| Str (s : string)
| Int (z : Z)
| Flt (f : spec_float)
| Date (y m d : Z)
| Bool (b : bool).

Inductive dtype := object | int64 | uint8 | float64 | float32 | datetime64 | bool_.

Record Row := { label : cell; cells : gmap string cell }.

Record Series := { dtype_of : dtype; values : list cell }.

Record DataFrame := { columns : list (string * dtype); rows : list Row }.

Definition isna (c : cell) : bool :=
  match c with NA => true | _ => false end.

Definition is_str (c : cell) : bool :=
  match c with Str _ => true | _ => false end.

(** The value a row has in a column. *)
Definition cell_at (r : Row) (col : string) : cell := default NA (cells r !! col).

Definition set_cell (col : string) (v : cell) (r : Row) : Row :=
  {| label := label r; cells := <[col := v]> (cells r) |}.

Definition del_cell (col : string) (r : Row) : Row :=
  {| label := label r; cells := delete col (cells r) |}.

Fixpoint lookup_col (col : string) (cols : list (string * dtype)) : option dtype :=
  match cols with
  | [] => None
  | (c, t) :: cols' => if String.eqb c col then Some t else lookup_col col cols'
  end.

(** The column list after [df[col] = ...]: the type of an existing column
    is replaced, a new column goes last. *)
Fixpoint set_dtype (col : string) (t : dtype) (cols : list (string * dtype))
  : list (string * dtype) :=
  match cols with
  | [] => [(col, t)]
  | (c, t') :: cols' =>
      if String.eqb c col then (c, t) :: cols' else (c, t') :: set_dtype col t cols'
  end.

Definition del_col (col : string) (cols : list (string * dtype))
  : list (string * dtype) :=
  List.filter (fun p => negb (String.eqb (fst p) col)) cols.

(** The type pandas infers for a Python list.  A missing value in the
    list is [NaN]: a list of nothing but [None], which pandas types
    [object], has no counterpart here. *)
Definition infer_dtype (l : list cell) : dtype :=
  match l with
  | [] => float64
  | _ =>
      if existsb is_str l then object
      else if forallb (fun c => match c with Int _ => true | _ => false end) l
      then int64
      else if forallb (fun c => match c with Bool _ => true | _ => false end) l
      then bool_
      else if forallb (fun c => match c with Int _ | Flt _ | NA => true
                                        | _ => false end) l
      then float64
      else if forallb (fun c => match c with Date _ _ _ | NA => true
                                        | _ => false end) l
      then datetime64
      else object
  end.

Definition series_of_list (l : list cell) : Series :=
  {| dtype_of := infer_dtype l; values := l |}.

(** [df[col]] *)
Definition getitem (df : DataFrame) (col : string) : result Series :=
  match lookup_col col (columns df) with
  | Some t => Ok {| dtype_of := t; values := map (fun r => cell_at r col) (rows df) |}
  | None => Raise KeyError
  end.

(** [df[col] = s], for a series or list with one value per row. *)
Definition setitem (df : DataFrame) (col : string) (s : Series) : result DataFrame :=
  if (length (values s) =? length (rows df))%nat
  then Ok {| columns := set_dtype col (dtype_of s) (columns df);
             rows := zip_with (set_cell col) (values s) (rows df) |}
  else Raise ValueError.

(** Rows selected by a boolean mask that has one entry per row. *)
Fixpoint select (mask : list bool) (rs : list Row) : list Row :=
  match mask, rs with
  | b :: mask', r :: rs' => if b then r :: select mask' rs' else select mask' rs'
  | _, _ => []
  end.

(** The frame with the rows a mask selects. *)
Definition take_rows (df : DataFrame) (mask : list bool) : DataFrame :=
  {| columns := columns df; rows := select mask (rows df) |}.

(** A mask is positional here, as a boolean array is: computed from a
    column of the frame it has one entry per row.  The two ways of
    indexing with it differ in how they refuse a mask of another
    length. *)

(** [df.loc[mask, :]]: the rows of the mask and, for the slice, every
    column; a mask of the wrong length is an [IndexError]. *)
Definition loc (df : DataFrame) (mask : list bool) : result DataFrame :=
  if (length mask =? length (rows df))%nat then Ok (take_rows df mask)
  else Raise IndexError.

(** [df[mask]]: the rows of the mask; a mask of the wrong length is a
    [ValueError]. *)
Definition getitem_mask (df : DataFrame) (mask : list bool) : result DataFrame :=
  if (length mask =? length (rows df))%nat then Ok (take_rows df mask)
  else Raise ValueError.

(** [df.drop(col, axis=1)] *)
Definition drop (df : DataFrame) (col : string) : result DataFrame :=
  match lookup_col col (columns df) with
  | Some _ => Ok {| columns := del_col col (columns df);
                    rows := map (del_cell col) (rows df) |}
  | None => Raise KeyError
  end.

(** [df.dropna(subset=[col])] *)
Definition dropna (df : DataFrame) (col : string) : result DataFrame :=
  s ← getitem df col;
  Ok (take_rows df (map (fun c => negb (isna c)) (values s))).

(** Can a column of type [t] hold the value [v] as it is? *)
Definition can_hold (t : dtype) (v : cell) : bool :=
  match t, v with
  | object, _ => true
  | (float64 | float32), (Int _ | Flt _ | NA) => true
  | (int64 | uint8), Int _ => true
  | datetime64, (Date _ _ _ | NA) => true
  | bool_, Bool _ => true
  | _, _ => false
  end.

(** [s.fillna(value)]: every missing value is replaced.  A column that
    cannot hold the value (timestamps filled with a number) becomes an
    [object] column when there is something to fill.  The value is stored
    as it is given: in a float column the cell [Int z] stands for the
    float of the same value, which [py_eq] identifies with it.  This is
    exact for the fill value of the program, -99, and for every value
    the column can hold without rounding or parsing. *)
Definition fillna (s : Series) (value : cell) : Series :=
  {| dtype_of := if existsb isna (values s) && negb (can_hold (dtype_of s) value)
                 then object else dtype_of s;
     values := map (fun c => if isna c then value else c) (values s) |}.

(** ** Comparisons *)

(** Is the float the integer [z]? *)
Definition float_is_int (f : spec_float) (z : Z) : bool :=
  match f with
  | S754_zero _ => z =? 0
  | S754_finite s m e =>
      if 0 <=? e then z =? cond_Zopp s (Zpos m * 2 ^ e)
      else z * 2 ^ (- e) =? cond_Zopp s (Zpos m)
  | _ => false
  end.

(** Python's [==] on the values of cells; a missing value equals nothing. *)
Definition py_eq (a b : cell) : bool :=
  match a, b with
  | Str s, Str t => String.eqb s t
  | Int x, Int y => x =? y
  | Bool x, Bool y => Bool.eqb x y
  | Bool x, Int y | Int y, Bool x => y =? (if x then 1 else 0)
  | Flt f, Flt g => SFeqb f g
  | Flt f, Int z | Int z, Flt f => float_is_int f z
  | Date y m d, Date y' m' d' => (y =? y') && (m =? m') && (d =? d')
  | _, _ => false
  end.

(** [s == v] *)
Definition eq_scalar (s : Series) (v : cell) : list bool :=
  map (fun c => py_eq c v) (values s).

(** [s.isin(vs)] *)
Definition isin (s : Series) (vs : list cell) : list bool :=
  map (fun c => existsb (py_eq c) vs) (values s).

(** [m1 | m2] *)
Definition or_mask (m1 m2 : list bool) : list bool := zip_with orb m1 m2.

Definition date_leb (a b : Z * Z * Z) : bool :=
  let '(y, m, d) := a in
  let '(y', m', d') := b in
  (y <? y') || ((y =? y') && ((m <? m') || ((m =? m') && (d <=? d')))).

(** A date written [YYYY-MM-DD]. *)
Definition parse_iso_date (s : string) : option (Z * Z * Z) :=
  match Py.chars s with
  | [y1; y2; y3; y4; "-"%char; m1; m2; "-"%char; d1; d2] =>
      if forallb Py.isdecimal [y1; y2; y3; y4; m1; m2; d1; d2]
      then Some (Py.digits_val [y1; y2; y3; y4],
                 Py.digits_val [m1; m2], Py.digits_val [d1; d2])
      else None
  | _ => None
  end.

(** [c >= b] in a column of timestamps, [b] a date: a missing date
    compares false. *)
Definition ge_date (b : Z * Z * Z) (c : cell) : bool :=
  match c with
  | Date y m d => date_leb b (y, m, d)
  | _ => false
  end.

(** [c >= bound] between Python objects, the bound a string: strings
    compare in lexicographic order, a missing value compares false, and
    a number, a boolean or a timestamp cannot be compared with a
    string. *)
Definition ge_str (c : cell) (bound : string) : result bool :=
  match c with
  | NA => Ok false
  | Str s => Ok (String.leb bound s)
  | _ => Raise TypeError
  end.

(** [s >= bound] for a bound given as a string.  A column of timestamps
    reads the bound as a date; an [object] column compares value by
    value; a numeric or boolean column cannot be compared with a string,
    whatever it holds. *)
Definition ge_scalar (s : Series) (bound : string) : result (list bool) :=
  match dtype_of s with
  | datetime64 =>
      match parse_iso_date bound with
      | Some b => Ok (map (ge_date b) (values s))
      | None => Raise TypeError
      end
  | object => mapM (fun c => ge_str c bound) (values s)
  | _ => Raise TypeError
  end.

(** ** The [.str] accessor *)

Definition is_number (c : cell) : bool :=
  match c with Int _ | Flt _ => true | _ => false end.

Definition is_timestamp (c : cell) : bool :=
  match c with Date _ _ _ => true | _ => false end.

Definition is_bool (c : cell) : bool :=
  match c with Bool _ => true | _ => false end.

(** What [.str] accepts in an [object] column.  pandas infers the kind
    of the values that are not missing and refuses a column that holds
    numbers only, timestamps only or booleans only; strings, strings
    mixed with other values, and a column without any value pass. *)
Definition holds_strings (l : list cell) : bool :=
  match List.filter (fun c => negb (isna c)) l with
  | [] => true
  | l' => negb (forallb is_number l' || forallb is_timestamp l' || forallb is_bool l')
  end.

(** [s.str]: only an [object] column has it, and only with the values
    above. *)
Definition str_accessor (s : Series) : result (list cell) :=
  match dtype_of s with
  | object => if holds_strings (values s) then Ok (values s) else Raise AttributeError
  | _ => Raise AttributeError
  end.

(** A string method applied to one cell: what is not a string becomes
    missing. *)
Definition str_map (f : string -> cell) (c : cell) : cell :=
  match c with
  | Str s => f s
  | _ => NA
  end.

(** [s.str.upper()] *)
Definition str_upper (s : Series) : result Series :=
  vs ← str_accessor s;
  Ok {| dtype_of := object; values := map (str_map (fun x => Str (Py.upper x))) vs |}.

(** [s.str.rstrip(cs)] *)
Definition str_rstrip (s : Series) (cs : string) : result Series :=
  vs ← str_accessor s;
  Ok {| dtype_of := object; values := map (str_map (fun x => Str (Py.rstrip cs x))) vs |}.

Definition extract_digits (x : string) : cell :=
  match Py.first_digit_run (Py.chars x) with
  | Some ds => Str (Py.str ds)
  | None => NA
  end.

(** [s.str.extract('(\d+)', expand=True)]: the one column of the frame
    that [extract] returns, the first run of digits of each string. *)
Definition str_extract_digits (s : Series) : result Series :=
  vs ← str_accessor s;
  Ok {| dtype_of := object; values := map (str_map extract_digits) vs |}.

(** ** Casts *)

(** The binary32 cell of a binary64 number; [NaN] is the missing value. *)
Definition float32_cell (f : spec_float) : cell :=
  match f with
  | S754_nan => NA
  | _ => Flt (Py.f32_of_f64 f)
  end.

Definition to_float32 (c : cell) : result cell :=
  match c with
  | NA => Ok NA
  | Str s =>
      match Py.float s with
      | Some f => Ok (float32_cell f)
      | None => Raise ValueError
      end
  | Int z => Ok (Flt (Py.f32_of_f64 (Py.f64_of_Z z)))
  | Flt f => Ok (Flt (Py.f32_of_f64 f))
  | Bool b => Ok (Flt (Py.f32_of_f64 (Py.f64_of_Z (if b then 1 else 0))))
  | Date _ _ _ => Raise TypeError
  end.

(** [s.astype('float32')] *)
Definition astype_float32 (s : Series) : result Series :=
  vs ← mapM to_float32 (values s);
  Ok {| dtype_of := float32; values := vs |}.

(** The cast of one value to [uint8].  Integers wrap around; a missing
    value cannot be cast.  The program applies this cast to a column it
    has just filled with the integers 36 and 60; the cast of strings and
    floats is not part of the model. *)
Definition to_uint8 (c : cell) : result cell :=
  match c with
  | Int z => Ok (Int (z mod 256))
  | Bool b => Ok (Int (if b then 1 else 0))
  | NA => Raise ValueError
  | _ => Raise TypeError
  end.

(** [s.astype('uint8')] *)
Definition astype_uint8 (s : Series) : result Series :=
  vs ← mapM to_uint8 (values s);
  Ok {| dtype_of := uint8; values := vs |}.

(** The type of the values [s.map(f)] collects, for an [f] whose
    missing results are [NaT], as those of [convert_date] are:
    timestamps and [NaT] make a column of timestamps, and no value at
    all leaves an [object] column. *)
Definition mapped_dtype (l : list cell) : dtype :=
  match l with
  | [] => object
  | _ => if forallb (fun c => is_timestamp c || isna c) l then datetime64
         else infer_dtype l
  end.

(** [s.map(f)]: [f] is applied to every value, missing ones included. *)
Definition series_map (f : cell -> result cell) (s : Series) : result Series :=
  vs ← mapM f (values s);
  Ok {| dtype_of := mapped_dtype vs; values := vs |}.

(** ** Dates *)

Inductive directive := D_y | D_Y | D_b | D_lit (c : ascii).

(** The directives of a [strptime] format; the program uses [%y], [%Y]
    and [%b]. *)
Fixpoint compile_format (l : list ascii) : option (list directive) :=
  match l with
  | [] => Some []
  | c :: l' =>
      if Ascii.eqb c "%" then
        match l' with
        | d :: l'' =>
            if Ascii.eqb d "y" then cons D_y <$> compile_format l''
            else if Ascii.eqb d "Y" then cons D_Y <$> compile_format l''
            else if Ascii.eqb d "b" then cons D_b <$> compile_format l''
            else if Ascii.eqb d "%" then cons (D_lit d) <$> compile_format l''
            else None
        | [] => None
        end
      else cons (D_lit c) <$> compile_format l'
  end.

Definition month_names : list string :=
  ["jan"; "feb"; "mar"; "apr"; "may"; "jun";
   "jul"; "aug"; "sep"; "oct"; "nov"; "dec"].

Fixpoint index_of (x : string) (l : list string) (i : Z) : option Z :=
  match l with
  | [] => None
  | y :: l' => if String.eqb x y then Some i else index_of x l' (i + 1)
  end.

(** The match of the directives against the text, case-insensitive and
    anchored at both ends.  A two-digit year up to 68 is in 2000-2068,
    from 69 on in 1969-1999. *)
Fixpoint match_directives (ds : list directive) (l : list ascii) (y m : Z)
  : option (Z * Z) :=
  match ds with
  | [] => match l with [] => Some (y, m) | _ => None end
  | D_y :: ds' =>
      match l with
      | a :: b :: r =>
          if Py.isdecimal a && Py.isdecimal b then
            let v := Py.digits_val [a; b] in
            match_directives ds' r (if v <=? 68 then 2000 + v else 1900 + v) m
          else None
      | _ => None
      end
  | D_Y :: ds' =>
      match l with
      | a :: b :: c :: d :: r =>
          if forallb Py.isdecimal [a; b; c; d]
          then match_directives ds' r (Py.digits_val [a; b; c; d]) m
          else None
      | _ => None
      end
  | D_b :: ds' =>
      match l with
      | a :: b :: c :: r =>
          match index_of (Py.str (map Py.lower_char [a; b; c])) month_names 1 with
          | Some i => match_directives ds' r y i
          | None => None
          end
      | _ => None
      end
  | D_lit c :: ds' =>
      match l with
      | a :: r =>
          if Ascii.eqb (Py.lower_char a) (Py.lower_char c)
          then match_directives ds' r y m else None
      | [] => None
      end
  end.

(** First days of a month that a [Timestamp] of nanosecond resolution
    can hold, the only resolution of the pandas versions the program was
    written for; [to_datetime] refuses a date outside.  (A pandas that
    also has coarser resolutions returns such a date.) *)
Definition in_bounds (y m : Z) : bool :=
  date_leb (1677, 10, 1) (y, m, 1) && date_leb (y, m, 1) (2262, 4, 1).

Definition nat_strings : list string :=
  ["NaT"; "nat"; "NAT"; "nan"; "NaN"; "NAN"].

(** [pd.to_datetime(s, format=fmt)] on one string.  The strings pandas
    reads as [NaT] give a missing value whatever the format; the day
    defaults to the first of the month, the year to 1900; a date outside
    the range of [Timestamp] raises.  The words [now] and [today] are
    matched against the format like any other text and raise, as in the
    pandas versions the program was written for.  (Later versions read
    them as the present moment whatever the format.) *)
Definition to_datetime (s : string) (fmt : string) : result cell :=
  if existsb (String.eqb s) nat_strings then Ok NA
  else
    match compile_format (Py.chars fmt) with
    | None => Raise ValueError
    | Some ds =>
        match match_directives ds (Py.chars s) 1900 1 with
        | Some (y, m) => if in_bounds y m then Ok (Date y m 1) else Raise ValueError
        | None => Raise ValueError
        end
    end.

(** ** Sorting and the index *)

(** The value of a number, for comparisons: exact, with the infinities
    of the floats below and above every rational. *)
Definition num_key (c : cell) : Z * Q :=
  match c with
  | Int z => (0, inject_Z z)
  | Bool b => (0, inject_Z (if b then 1 else 0))
  | Flt (S754_finite s m e) => (0, (inject_Z (cond_Zopp s (Zpos m)) * Qpower 2 e)%Q)
  | Flt (S754_infinity s) => (if s then -1 else 1, 0%Q)
  | _ => (0, 0%Q)
  end.

Definition num_leb (a b : cell) : bool :=
  let '(i, x) := num_key a in
  let '(j, y) := num_key b in
  (i <? j) || ((i =? j) && Qle_bool x y).

(** The kind of a sort key: timestamps, strings, numbers, and last the
    missing values. *)
Definition key_kind (c : cell) : Z :=
  match c with
  | Date _ _ _ => 0
  | Str _ => 1
  | Int _ | Flt _ | Bool _ => 2
  | NA => 3
  end.

(** Ascending order of the keys of one kind, missing values last:
    timestamps by date, strings in lexicographic order, numbers by
    value. *)
Definition key_leb (a b : cell) : bool :=
  match a, b with
  | Date y m d, Date y' m' d' => date_leb (y, m, d) (y', m', d')
  | Str s, Str t => String.leb s t
  | (Int _ | Flt _ | Bool _), (Int _ | Flt _ | Bool _) => num_leb a b
  | _, _ => key_kind a <=? key_kind b
  end.

(** Keys that can be compared with each other: apart from the missing
    ones, all timestamps, all strings or all numbers. *)
Definition sortable (l : list cell) : bool :=
  let l' := List.filter (fun c => negb (isna c)) l in
  forallb is_timestamp l' || forallb is_str l'
  || forallb (fun c => is_number c || is_bool c) l'.

Fixpoint insert_by {A} (leb : A -> A -> bool) (x : A) (l : list A) : list A :=
  match l with
  | [] => [x]
  | y :: l' => if leb x y then x :: l else y :: insert_by leb x l'
  end.

(** A stable sort: rows with equal keys keep their order. *)
Definition stable_sort {A} (leb : A -> A -> bool) (l : list A) : list A :=
  fold_right (insert_by leb) [] l.

(** [df.sort_values(by=col)]: ascending, missing values last.  Keys of
    different kinds cannot be compared ([TypeError]).  pandas leaves the
    order of rows with equal keys to its sorting routine; here they keep
    their order, and no property below depends on it. *)
Definition sort_values (df : DataFrame) (col : string) : result DataFrame :=
  match lookup_col col (columns df) with
  | Some _ =>
      if sortable (map (fun r => cell_at r col) (rows df)) then
        Ok {| columns := columns df;
              rows := stable_sort
                        (fun r1 r2 => key_leb (cell_at r1 col) (cell_at r2 col))
                        (rows df) |}
      else Raise TypeError
  | None => Raise KeyError
  end.

Definition index_eqb (a b : cell) : bool :=
  (isna a && isna b) || py_eq a b.

Fixpoint has_duplicates (l : list cell) : bool :=
  match l with
  | [] => false
  | x :: l' => existsb (index_eqb x) l' || has_duplicates l'
  end.

(** [df.set_index(key, verify_integrity=...)]: the column becomes the
    index and leaves the columns.  Duplicates are looked for only when
    [verify_integrity] is set; pandas' default is [False]. *)
Definition set_index (df : DataFrame) (key : string) (verify_integrity : bool)
  : result DataFrame :=
  s ← getitem df key;
  if verify_integrity && has_duplicates (values s) then Raise ValueError
  else Ok {| columns := del_col key (columns df);
             rows := map (fun r => {| label := cell_at r key;
                                      cells := delete key (cells r) |}) (rows df) |}.

End Pd.

(* ===================================================================== *)
(** * [src/data_cleaning.py] *)
(* ===================================================================== *)

Module DataCleaning.
Import Pd.

(** A [for] loop that updates the frame once per element. *)
Fixpoint for_each {A} (body : DataFrame -> A -> result DataFrame)
  (df : DataFrame) (l : list A) : result DataFrame :=
  match l with
  | [] => Ok df
  | x :: l' => df' ← body df x; for_each body df' l'
  end.

Definition drop_loans_not_complete (df : DataFrame) : result DataFrame :=
  s ← getitem df "loan_status";
  let mask := isin s [Str "Charged Off"; Str "Fully Paid"] in
  loc df mask.

Definition drop_loan_status (df : DataFrame) : result DataFrame :=
  drop df "loan_status".

Definition drop_joint_applicant_loans (df : DataFrame) : result DataFrame :=
  s ← getitem df "application_type";
  u ← str_upper s;
  let mask := eq_scalar u (Str "INDIVIDUAL") in
  loc df mask.

Definition rate_cols : list string := ["int_rate"; "revol_util"].

(** [df[col] = df[col].str.rstrip('%').astype('float32')] *)
Definition fix_rate_col (df : DataFrame) (col : string) : result DataFrame :=
  s ← getitem df col;
  t ← str_rstrip s "%";
  f ← astype_float32 t;
  setitem df col f.

Definition fix_rate_cols (df : DataFrame) : result DataFrame :=
  for_each fix_rate_col df rate_cols.

(** [36 if row.strip() == '36 months' else 60]; only a string has
    [strip]. *)
Definition term_of (row : cell) : result cell :=
  match row with
  | Str x => Ok (Int (if String.eqb (Py.strip x) "36 months" then 36 else 60))
  | _ => Raise AttributeError
  end.

Definition clean_loan_term_col (df : DataFrame) : result DataFrame :=
  s ← getitem df "term";
  l ← mapM term_of (values s);
  df ← setitem df "term" (series_of_list l);
  s ← getitem df "term";
  u ← astype_uint8 s;
  setitem df "term" u.

Definition only_include_36_month_loans (df : DataFrame) : result DataFrame :=
  s ← getitem df "term";
  let mask := eq_scalar s (Int 36) in
  loc df mask.

(** [0 if row == '< 1 year' else row] *)
Definition lt1_to_zero (row : cell) : cell :=
  if py_eq row (Str "< 1 year") then Int 0 else row.

Definition clean_employment_length (df : DataFrame) : result DataFrame :=
  s ← getitem df "emp_length";
  df ← setitem df "emp_length" (series_of_list (map lt1_to_zero (values s)));
  s ← getitem df "emp_length";
  e ← str_extract_digits s;
  f ← astype_float32 e;
  setitem df "emp_length" f.

(** [convert_date]: indexing [col_date[0]] needs a non-empty string; the
    bare [except] sends every failure of the first format to the
    second. *)
Definition convert_date (col_date : cell) : result cell :=
  match col_date with
  | Str x =>
      match Py.chars x with
      | [] => Raise IndexError
      | c0 :: _ =>
          if Py.isdigit c0 then
            to_datetime (Py.rjust 6 "0" x) "%y-%b"
          else
            match to_datetime x "%b-%y" with
            | Ok d => Ok d
            | Raise _ => to_datetime x "%b-%Y"
            end
      end
  | _ => Raise TypeError
  end.

(** [df[col] = df[col].map(f)] *)
Definition map_col (df : DataFrame) (col : string) (f : cell -> result cell)
  : result DataFrame :=
  s ← getitem df col;
  s' ← series_map f s;
  setitem df col s'.

Definition fix_date_cols (df : DataFrame) : result DataFrame :=
  df ← dropna df "issue_d";
  df ← map_col df "issue_d" convert_date;
  df ← map_col df "earliest_cr_line" convert_date;
  df ← dropna df "last_pymnt_d";
  map_col df "last_pymnt_d" convert_date.

Definition fill_na_col (value : cell) (df : DataFrame) (col : string)
  : result DataFrame :=
  s ← getitem df col;
  setitem df col (fillna s value).

Definition fill_nas (df : DataFrame) (value : cell) : result DataFrame :=
  for_each (fill_na_col value) df (map fst (columns df)).

Definition drop_cols : list string :=
  ["zip_code"; "total_rec_prncp"; "total_rec_int"; "earliest_cr_line"; "term";
   "last_pymnt_d"; "total_pymnt_inv"; "application_type"].

Definition drop_unnecessary_cols (df : DataFrame) : result DataFrame :=
  for_each drop df drop_cols.

Definition exclude_loans_before_2010 (df : DataFrame) : result DataFrame :=
  s ← getitem df "issue_d";
  mask ← ge_scalar s "2010-01-01";
  loc df mask.

(** The functions the pipeline takes from [src.feature_engineering], a
    module outside the sources at hand. *)
Record feature_engineering := {
  create_missing_data_boolean_columns : DataFrame -> result DataFrame;
  add_supplemental_rate_data : DataFrame -> result DataFrame;
  create_rate_difference_cols : DataFrame -> result DataFrame;
  create_months_since_earliest_cl_col : DataFrame -> result DataFrame;
  change_data_types : DataFrame -> result DataFrame;
  create_dummy_cols : DataFrame -> result DataFrame
}.

Section Pipeline.
Variable fe : feature_engineering.

(** The stages before [id] becomes the index: the body of the pipeline
    without its last statement. *)
Definition prepare_table (df : DataFrame) : result DataFrame :=
  df ← drop_loan_status df;
  df ← drop_joint_applicant_loans df;
  df ← fix_rate_cols df;
  df ← dropna df "issue_d";
  df ← fix_date_cols df;
  df ← sort_values df "issue_d";
  df ← exclude_loans_before_2010 df;
  df ← clean_loan_term_col df;
  df ← only_include_36_month_loans df;
  df ← clean_employment_length df;
  df ← create_missing_data_boolean_columns fe df;
  df ← fill_nas df (Int (-99));
  df ← add_supplemental_rate_data fe df;
  df ← create_rate_difference_cols fe df;
  df ← create_months_since_earliest_cl_col fe df;
  df ← change_data_types fe df;
  df ← create_dummy_cols fe df;
  drop_unnecessary_cols df.

(** [df.set_index('id', inplace=True)] passes no [verify_integrity]. *)
Definition clean_and_prepare_raw_data_for_model (df : DataFrame)
  : result DataFrame :=
  df ← drop_loan_status df;
  df ← drop_joint_applicant_loans df;
  df ← fix_rate_cols df;
  df ← dropna df "issue_d";
  df ← fix_date_cols df;
  df ← sort_values df "issue_d";
  df ← exclude_loans_before_2010 df;
  df ← clean_loan_term_col df;
  df ← only_include_36_month_loans df;
  df ← clean_employment_length df;
  df ← create_missing_data_boolean_columns fe df;
  df ← fill_nas df (Int (-99));
  df ← add_supplemental_rate_data fe df;
  df ← create_rate_difference_cols fe df;
  df ← create_months_since_earliest_cl_col fe df;
  df ← change_data_types fe df;
  df ← create_dummy_cols fe df;
  df ← drop_unnecessary_cols df;
  set_index df "id" false.

End Pipeline.

End DataCleaning.

(* ===================================================================== *)
(** * [src/data-cleaning.py]: the row filters *)
(* ===================================================================== *)

Module DataCleaningOld.
Import Pd.

Definition drop_loans_not_complete (df : DataFrame) : result DataFrame :=
  s1 ← getitem df "loan_status";
  s2 ← getitem df "loan_status";
  getitem_mask df (or_mask (eq_scalar s1 (Str "Charged Off"))
                           (eq_scalar s2 (Str "Fully Paid"))).

Definition drop_joint_applicant_loans (df : DataFrame) : result DataFrame :=
  s ← getitem df "application_type";
  u ← str_upper s;
  getitem_mask df (eq_scalar u (Str "INDIVIDUAL")).

(** [exclude_recent_loans]: the row filter is commented out in the
    source; what is left drops the [issue_d] column and does not look at
    [min_age_months]. *)
Definition exclude_recent_loans (df : DataFrame) (min_age_months : Z)
  : result DataFrame :=
  drop df "issue_d".

(** [df[df['issue_d'] >= '2010-01-01']] *)
Definition exclude_loans_before_2010 (df : DataFrame) : result DataFrame :=
  s ← getitem df "issue_d";
  mask ← ge_scalar s "2010-01-01";
  getitem_mask df mask.

End DataCleaningOld.

(* ===================================================================== *)
(** * Per-value views of the column stages, and the vocabulary of the
      statements *)
(* ===================================================================== *)

Module Props.
Import Pd DataCleaning.

(** What [fix_rate_cols] computes for one cell of a rate column:
    [rstrip('%')] under [.str], then the cast to [float32]. *)
Definition rate_coercion (c : cell) : result cell :=
  to_float32 (str_map (fun x => Str (Py.rstrip "%" x)) c).

(** What [clean_loan_term_col] computes for one cell of [term]: the
    conditional expression, then the cast to [uint8]. *)
Definition term_coercion (c : cell) : result cell :=
  v ← term_of c; to_uint8 v.

(** What [clean_employment_length] computes for one cell of [emp_length],
    in a column that has the [.str] accessor. *)
Definition employment_length_coercion (c : cell) : result cell :=
  to_float32 (str_map extract_digits (lt1_to_zero c)).

(** [f] is a binary32 number at most half a unit in the last place away
    from the fraction [num / den]. *)
Definition f32_nearest (f : spec_float) (num den : Z) : Prop :=
  match f with
  | S754_finite false m e =>
      bounded 24 128 m e = true /\ e < 0 /\ 0 < den
      /\ 2 * Z.abs (den * Zpos m - num * 2 ^ (- e)) <= den
  | _ => False
  end.

(** The binary32 number of an integer, through [float]. *)
Definition f32_of_Z (z : Z) : spec_float := Py.f32_of_f64 (Py.f64_of_Z z).

Definition col_names (df : DataFrame) : list string := map fst (columns df).

Definition col_values (df : DataFrame) (col : string) : list cell :=
  map (fun r => cell_at r col) (rows df).

(** ** Rows of the raw table *)

Definition status_complete (r : Row) : Prop :=
  cell_at r "loan_status" = Str "Charged Off"
  \/ cell_at r "loan_status" = Str "Fully Paid".

Definition applicant_individual (r : Row) : Prop :=
  exists x, cell_at r "application_type" = Str x /\ Py.upper x = "INDIVIDUAL".

Definition term_is_36 (r : Row) : Prop :=
  exists x, cell_at r "term" = Str x /\ Py.strip x = "36 months".

Definition issued_from_2010 (r : Row) : Prop :=
  exists y m d, convert_date (cell_at r "issue_d") = Ok (Date y m d)
                /\ date_leb (2010, 1, 1) (y, m, d) = true.

(** The three filters of the pipeline, on a row of the raw table. *)
Definition individual_36_months_from_2010 (r : Row) : Prop :=
  applicant_individual r /\ term_is_36 r /\ issued_from_2010 r.

(** The same with the completion status. *)
Definition complete_individual_36_months_from_2010 (r : Row) : Prop :=
  status_complete r /\ individual_36_months_from_2010 r.

(** The label [l] is the [id] of the row [r]: the value itself, or the
    sentinel the imputation stage puts in place of a missing one. *)
Definition id_carried (r : Row) (l : cell) : Prop :=
  l = cell_at r "id" \/ (cell_at r "id" = NA /\ l = Int (-99)).

(** Every row of the pipeline's result stems from a row of the raw table
    with the same [id] that satisfies [P]. *)
Definition result_rows_stem_from (fe : feature_engineering) (P : Row -> Prop) : Prop :=
  forall df out, clean_and_prepare_raw_data_for_model fe df = Ok out ->
  forall r', r' ∈ rows out ->
  exists r, r ∈ rows df /\ id_carried r (label r') /\ P r.

(** A collaborator stage hands on the [id]s it was given: every row of its
    result has the [id] of a row of its argument. *)
Definition keeps_ids (f : DataFrame -> result DataFrame) : Prop :=
  forall df out, f df = Ok out ->
  forall r', r' ∈ rows out ->
  exists r, r ∈ rows df /\ cell_at r' "id" = cell_at r "id".

Definition all_keep_ids (fe : feature_engineering) : Prop :=
  keeps_ids (create_missing_data_boolean_columns fe)
  /\ keeps_ids (add_supplemental_rate_data fe)
  /\ keeps_ids (create_rate_difference_cols fe)
  /\ keeps_ids (create_months_since_earliest_cl_col fe)
  /\ keeps_ids (change_data_types fe)
  /\ keeps_ids (create_dummy_cols fe).

(** The table with every [loan_status] overwritten. *)
Definition with_status (x : string) (df : DataFrame) : DataFrame :=
  {| columns := columns df;
     rows := map (set_cell "loan_status" (Str x)) (rows df) |}.

(** The pipeline raises whenever the table it is about to index has two
    rows with the same [id]. *)
Definition raises_on_duplicate_ids (fe : feature_engineering) : Prop :=
  forall df final, prepare_table fe df = Ok final ->
  ~ NoDup (col_values final "id") ->
  exists e, clean_and_prepare_raw_data_for_model fe df = Raise e.

(** ** The date stage *)

(** The date stage in the order the specification gives: both row drops
    first, the three coercions after them. *)
Definition fix_date_cols_drops_first (df : DataFrame) : result DataFrame :=
  df ← dropna df "issue_d";
  df ← dropna df "last_pymnt_d";
  df ← map_col df "issue_d" convert_date;
  df ← map_col df "earliest_cr_line" convert_date;
  map_col df "last_pymnt_d" convert_date.

Definition dates_present (r : Row) : bool :=
  negb (isna (cell_at r "issue_d")) && negb (isna (cell_at r "last_pymnt_d")).

Definition date_cols : list string := ["issue_d"; "earliest_cr_line"; "last_pymnt_d"].

(** [r'] is [r] with its three date columns coerced. *)
Definition dates_coerced (r r' : Row) : Prop :=
  label r' = label r
  /\ (forall col, col ∈ date_cols -> convert_date (cell_at r col) = Ok (cell_at r' col))
  /\ (forall col, col ∉ date_cols -> cell_at r' col = cell_at r col).

(** The masks of the row filters, row by row. *)
Definition is_individual (r : Row) : bool :=
  py_eq (str_map (fun x => Str (Py.upper x)) (cell_at r "application_type"))
        (Str "INDIVIDUAL").

Definition is_36_months (r : Row) : bool := py_eq (cell_at r "term") (Int 36).

Definition from_2010 (r : Row) : bool := ge_date (2010, 1, 1) (cell_at r "issue_d").

(** The row test of [exclude_loans_before_2010], by the type of the
    [issue_d] column. *)
Definition kept_from_2010 (t : dtype) (r : Row) : bool :=
  match t with
  | datetime64 => from_2010 r
  | object =>
      match cell_at r "issue_d" with
      | Str x => String.leb "2010-01-01" x
      | _ => false
      end
  | _ => false
  end.

Definition is_complete (r : Row) : bool :=
  existsb (py_eq (cell_at r "loan_status")) [Str "Charged Off"; Str "Fully Paid"].

(** ** Imputation *)

Definition fill_cell (value c : cell) : cell := if isna c then value else c.

(** [r'] is [r] with the missing values of the columns [cols] replaced. *)
Definition filled (cols : list string) (value : cell) (r r' : Row) : Prop :=
  label r' = label r
  /\ forall col, cell_at r' col =
       if bool_decide (col ∈ cols) && isna (cell_at r col) then value
       else cell_at r col.

End Props.

(* ===================================================================== *)
(** * Example tables *)
(* ===================================================================== *)

Module Examples.
Import Pd DataCleaning.

(** Collaborators for running the pipeline on concrete tables: every
    stage of [src.feature_engineering] leaves the table as it is.  On the
    tables below no value is missing when the flag stage runs, so that
    stage has no column to add. *)
Definition plain_features : feature_engineering :=
  {| create_missing_data_boolean_columns := Ok;
     add_supplemental_rate_data := Ok;
     create_rate_difference_cols := Ok;
     create_months_since_earliest_cl_col := Ok;
     change_data_types := Ok;
     create_dummy_cols := Ok |}.

Definition mk_row (i : Z) (l : list (string * cell)) : Row :=
  {| label := Int i; cells := list_to_map l |}.

(** The columns of a raw table, as read from the CSV files. *)
Definition raw_columns : list (string * dtype) :=
  [("id", int64); ("loan_status", object); ("application_type", object);
   ("int_rate", object); ("revol_util", object); ("issue_d", object);
   ("earliest_cr_line", object); ("last_pymnt_d", object); ("term", object);
   ("emp_length", object); ("zip_code", object); ("total_rec_prncp", float64);
   ("total_rec_int", float64); ("total_pymnt_inv", float64)].

Definition raw_row (i id : Z) (status app rate issue term emp : string) : Row :=
  mk_row i
    [("id", Int id); ("loan_status", Str status); ("application_type", Str app);
     ("int_rate", Str rate); ("revol_util", Str "54.2%"); ("issue_d", Str issue);
     ("earliest_cr_line", Str "Aug-1999"); ("last_pymnt_d", Str "Jan-17");
     ("term", Str term); ("emp_length", Str emp); ("zip_code", Str "940xx");
     ("total_rec_prncp", Flt (Py.f64_of_Z 5000));
     ("total_rec_int", Flt (Py.f64_of_Z 800));
     ("total_pymnt_inv", Flt (Py.f64_of_Z 5800))].

(** One loan that is still running. *)
Definition raw_current : DataFrame :=
  {| columns := raw_columns;
     rows := [raw_row 0 1001 "Current" "Individual" "16.37%" "Dec-15"
                      " 36 months" "3 years"] |}.

Definition raw_five_loans : DataFrame :=
  {| columns := raw_columns;
     rows := [raw_row 0 1001 "Fully Paid" "Individual" "16.37%" "Dec-15"
                      " 36 months" "3 years";
              raw_row 1 1002 "Charged Off" "INDIVIDUAL" "7.9%" "Mar-2012"
                      " 36 months" "10+ years";
              raw_row 2 1003 "Fully Paid" "Joint App" "9.1%" "Jan-16"
                      " 36 months" "2 years";
              raw_row 3 1004 "Fully Paid" "Individual" "11.5%" "9-Jun"
                      " 36 months" "5 years";
              raw_row 4 1005 "Fully Paid" "Individual" "12.0%" "Feb-14"
                      " 60 months" "5 years"] |}.

(** Two files read one after the other can carry the same [id]. *)
Definition raw_same_id : DataFrame :=
  {| columns := raw_columns;
     rows := [raw_row 0 1001 "Fully Paid" "Individual" "16.37%" "Dec-15"
                      " 36 months" "3 years";
              raw_row 0 1001 "Fully Paid" "Individual" "9.1%" "Jan-16"
                      " 36 months" "2 years"] |}.

(** A loan without payment whose earliest credit line is unknown. *)
Definition raw_no_payment : DataFrame :=
  {| columns := [("issue_d", object); ("earliest_cr_line", object);
                 ("last_pymnt_d", object)];
     rows := [mk_row 0 [("issue_d", Str "Dec-15"); ("earliest_cr_line", NA);
                        ("last_pymnt_d", NA)]] |}.

Definition raw_dates : DataFrame :=
  {| columns := [("issue_d", object); ("earliest_cr_line", object);
                 ("last_pymnt_d", object)];
     rows := [mk_row 0 [("issue_d", Str "Dec-15"); ("earliest_cr_line", Str "Aug-1999");
                        ("last_pymnt_d", Str "Jan-17")];
              mk_row 1 [("issue_d", NA); ("earliest_cr_line", NA);
                        ("last_pymnt_d", Str "Jan-17")];
              mk_row 2 [("issue_d", Str "Jan-16"); ("earliest_cr_line", Str "5-Dec");
                        ("last_pymnt_d", NA)]] |}.

(** Employment lengths as the CSV files give them. *)
Definition emp_frame : DataFrame :=
  {| columns := [("emp_length", object)];
     rows := [mk_row 0 [("emp_length", Str "< 1 year")];
              mk_row 1 [("emp_length", Str "3 years")];
              mk_row 2 [("emp_length", Str "10+ years")];
              mk_row 3 [("emp_length", NA)]] |}.

(** Every borrower employed for less than a year. *)
Definition emp_frame_all_lt1 : DataFrame :=
  {| columns := [("emp_length", object)];
     rows := [mk_row 0 [("emp_length", Str "< 1 year")];
              mk_row 1 [("emp_length", Str "< 1 year")]] |}.

Definition term_frame : DataFrame :=
  {| columns := [("term", object)];
     rows := [mk_row 0 [("term", Str " 36 months")];
              mk_row 1 [("term", Str " 60 months")];
              mk_row 2 [("term", Str "three years")]] |}.

Definition rate_frame : DataFrame :=
  {| columns := [("int_rate", object); ("revol_util", object)];
     rows := [mk_row 0 [("int_rate", Str "16.37%"); ("revol_util", Str "54.2%")];
              mk_row 1 [("int_rate", Str "7.9%"); ("revol_util", NA)]] |}.

Definition rate_frame_bad : DataFrame :=
  {| columns := [("int_rate", object); ("revol_util", object)];
     rows := [mk_row 0 [("int_rate", Str "16.37%"); ("revol_util", Str "54.2%")];
              mk_row 1 [("int_rate", Str "7.9%"); ("revol_util", Str "unknown%")]] |}.

(** Application types given as codes. *)
Definition type_codes : DataFrame :=
  {| columns := [("loan_status", object); ("application_type", object)];
     rows := [mk_row 0 [("loan_status", Str "Fully Paid"); ("application_type", Int 1)];
              mk_row 1 [("loan_status", Str "Current"); ("application_type", Int 2)]] |}.

(** A code among the application types. *)
Definition mixed_types : DataFrame :=
  {| columns := [("loan_status", object); ("application_type", object)];
     rows := [mk_row 0 [("loan_status", Str "Current");
                        ("application_type", Str "Individual")];
              mk_row 1 [("loan_status", Str "Fully Paid");
                        ("application_type", Int 5)]] |}.

(** An [object] column that holds numbers only. *)
Definition rate_frame_numbers : DataFrame :=
  {| columns := [("int_rate", object); ("revol_util", object)];
     rows := [mk_row 0 [("int_rate", Int 16); ("revol_util", Str "54.2%")];
              mk_row 1 [("int_rate", Int 8); ("revol_util", NA)]] |}.

Definition sparse_frame : DataFrame :=
  {| columns := [("id", int64); ("emp_length", float32); ("zip_code", object)];
     rows := [mk_row 0 [("id", Int 1); ("emp_length", NA); ("zip_code", Str "940xx")];
              mk_row 1 [("id", Int 2); ("emp_length", Flt (Props.f32_of_Z 3));
                        ("zip_code", NA)]] |}.

End Examples.

(* ===================================================================== *)
(** * Vocabulary of the further properties *)
(* ===================================================================== *)

Module More.
Import Pd DataCleaning Props.

(** The term filter of the pipeline, read off the raw [term]. *)
Definition is_36_raw (r : Row) : bool :=
  match cell_at r "term" with
  | Str x => String.eqb (Py.strip x) "36 months"
  | _ => false
  end.

(** The order [sort_values] puts the rows in. *)
Definition by_date (col : string) (r1 r2 : Row) : Prop :=
  Is_true (key_leb (cell_at r1 col) (cell_at r2 col)).

(** Dates as the CSV files write them. *)
Definition month_abbr : list string :=
  ["Jan"; "Feb"; "Mar"; "Apr"; "May"; "Jun";
   "Jul"; "Aug"; "Sep"; "Oct"; "Nov"; "Dec"].

Definition digit_char (d : Z) : ascii := ascii_of_nat (Z.to_nat (48 + d)).

(** Two and four decimal digits. *)
Definition show2 (n : Z) : string :=
  String (digit_char (n / 10)) (String (digit_char (n mod 10)) "").

Definition show4 (n : Z) : string := (show2 (n / 100) ++ show2 (n mod 100))%string.

(** The year a two-digit year stands for. *)
Definition pivot (yy : Z) : Z := if yy <=? 68 then 2000 + yy else 1900 + yy.

(** [Mon-YY], [YY-Mon], [Y-Mon] and [Mon-YYYY] for month number [i]. *)
Definition mon_yy (i yy : Z) : string :=
  (nth (Z.to_nat (i - 1)) month_abbr "" ++ "-" ++ show2 yy)%string.

Definition yy_mon (i yy : Z) : string :=
  (show2 yy ++ "-" ++ nth (Z.to_nat (i - 1)) month_abbr "")%string.

Definition y_mon (i y : Z) : string :=
  (String (digit_char y) "-" ++ nth (Z.to_nat (i - 1)) month_abbr "")%string.

Definition mon_yyyy (i y : Z) : string :=
  (nth (Z.to_nat (i - 1)) month_abbr "" ++ "-" ++ show4 y)%string.

(** The integers from [lo], [n] of them. *)
Definition Zrange (lo : Z) (n : nat) : list Z := map (fun k => lo + Z.of_nat k) (seq 0 n).

(** The checks behind the round trips of [convert_date], as booleans. *)
Definition is_date (c : result cell) (y m : Z) : bool :=
  match c with
  | Ok (Date y' m' d') => (y' =? y) && (m' =? m) && (d' =? 1)
  | _ => false
  end.

Definition check_two_digit (i yy : Z) : bool :=
  is_date (convert_date (Str (mon_yy i yy))) (pivot yy) i
  && is_date (convert_date (Str (yy_mon i yy))) (pivot yy) i.

Definition check_one_digit (i y : Z) : bool :=
  is_date (convert_date (Str (y_mon i y))) (2000 + y) i.

Definition check_four_digit (i y : Z) : bool :=
  is_date (convert_date (Str (mon_yyyy i y))) y i.

(** The words that some versions of pandas read as the present moment. *)
Definition names_the_present (x : string) : bool :=
  existsb (String.eqb (Py.str (map Py.lower_char (Py.chars x)))) ["now"; "today"].

(** Do the first three characters spell a month, in any letter case? *)
Definition starts_with_month (l : list ascii) : bool :=
  match l with
  | a :: b :: c :: _ =>
      existsb (String.eqb (Py.str (map Py.lower_char [a; b; c]))) month_names
  | _ => false
  end.


(** Loans after the date stage, not yet in the order of their dates. *)
Definition dated_loans : DataFrame :=
  {| columns := [("id", int64); ("issue_d", datetime64); ("term", object);
                 ("emp_length", object)];
     rows := [Examples.mk_row 0 [("id", Int 1001); ("issue_d", Date 2015 12 1);
                                 ("term", Str " 36 months");
                                 ("emp_length", Str "3 years")];
              Examples.mk_row 1 [("id", Int 1002); ("issue_d", Date 2009 6 1);
                                 ("term", Str " 36 months");
                                 ("emp_length", Str "5 years")];
              Examples.mk_row 2 [("id", Int 1003); ("issue_d", Date 2012 3 1);
                                 ("term", Str " 36 months");
                                 ("emp_length", Str "10+ years")];
              Examples.mk_row 3 [("id", Int 1004); ("issue_d", Date 2014 2 1);
                                 ("term", Str " 60 months");
                                 ("emp_length", Str "2 years")]] |}.

End More.

(* ===================================================================== *)
(** * Properties *)
(* ===================================================================== *)

Import Numeral Pd DataCleaning Props Examples More.

(** ** The error monad *)

Lemma bind_Ok {A B} (m : result A) (k : A -> result B) (b : B) :
  m ≫= k = Ok b -> exists a, m = Ok a /\ k a = Ok b.
Proof. destruct m as [a|e]; simpl; [eauto | discriminate]. Qed.

(** Splits off the first statement of a sequence that succeeded. *)
Tactic Notation "bind_inv" hyp(H) "as" ident(x) ident(Hx) :=
  apply bind_Ok in H as (x & Hx & H).

Lemma mapM_Ok {A B} (f : A -> result B) (l : list A) (k : list B) :
  mapM f l = Ok k -> Forall2 (fun x y => f x = Ok y) l k.
Proof.
  revert k. induction l as [|x l IH]; intros k H; simpl in H.
  - injection H as <-. constructor.
  - apply bind_Ok in H as (y & Hy & H).
    apply bind_Ok in H as (k' & Hk' & H).
    injection H as <-. constructor; auto.
Qed.

Lemma mapM_total {A B} (f : A -> result B) (l : list A) :
  Forall (fun x => exists y, f x = Ok y) l -> exists k, mapM f l = Ok k.
Proof.
  induction 1 as [|x l [y Hy] _ [k Hk]]; simpl.
  - by eexists.
  - rewrite Hy; simpl. rewrite Hk; simpl. by eexists.
Qed.

(** When a loop over the values stops, it stops with the error of one of
    the values. *)
Lemma mapM_Raise {A B} (f : A -> result B) (l : list A) (e : exn) :
  mapM f l = Raise e -> exists x, x ∈ l /\ f x = Raise e.
Proof.
  induction l as [|x l IH]; simpl; [discriminate|].
  destruct (f x) as [y|e'] eqn:Hx; simpl.
  - destruct (mapM f l) as [k|e'']; simpl; [discriminate|].
    intros [= ->]. destruct IH as (x' & ? & ?); [done|].
    exists x'. split; [by right | done].
  - intros [= ->]. exists x. split; [by left | done].
Qed.

Lemma mapM_some_Raise {A B} (f : A -> result B) (l : list A) (x : A) (e : exn) :
  x ∈ l -> f x = Raise e -> exists e', mapM f l = Raise e'.
Proof.
  induction 1 as [x l | x y l _ IH]; intros Hx; simpl.
  - rewrite Hx. by eexists.
  - destruct (f y); simpl; [|by eexists].
    destruct (IH Hx) as [e' ->]. by eexists.
Qed.

(** ** Lists related element by element *)

Lemma Forall2_fmap_self {A B} (f : A -> B) (l : list A) :
  Forall2 (fun x y => y = f x) l (map f l).
Proof. induction l; simpl; constructor; auto. Qed.

Lemma Forall2_map_l {A A' B} (R : A' -> B -> Prop) (g : A -> A')
  (l : list A) (k : list B) :
  Forall2 R (map g l) k -> Forall2 (fun x y => R (g x) y) l k.
Proof.
  revert k. induction l as [|x l IH]; intros k H; inversion H; subst;
    constructor; auto.
Qed.

Lemma Forall2_member_r {A B} (R : A -> B -> Prop) (l : list A) (k : list B) (y : B) :
  Forall2 R l k -> y ∈ k -> exists x, x ∈ l /\ R x y.
Proof.
  induction 1 as [|x y' l k Hxy _ IH]; intros Hy.
  - by apply elem_of_nil in Hy.
  - apply elem_of_cons in Hy as [->|Hy].
    + exists x. split; [by left | done].
    + destruct (IH Hy) as (x' & ? & ?). exists x'. split; [by right | done].
Qed.

Lemma Forall2_compose {A B C} (R : A -> B -> Prop) (S : B -> C -> Prop)
  (l : list A) (k : list B) (m : list C) :
  Forall2 R l k -> Forall2 S k m ->
  Forall2 (fun x z => exists y, R x y /\ S y z) l m.
Proof.
  intros H. revert m. induction H as [|x y l k Hxy _ IH]; intros m Hm.
  - inversion Hm. constructor.
  - inversion Hm as [|? z ? m' Hyz Hm']; subst. constructor; eauto.
Qed.

Lemma Forall2_filter {A B} (R : A -> B -> Prop) (p : A -> bool) (q : B -> bool)
  (l : list A) (k : list B) :
  Forall2 R l k -> (forall x y, R x y -> p x = q y) ->
  Forall2 R (List.filter p l) (List.filter q k).
Proof.
  intros H Hpq. induction H as [|x y l k Hxy _ IH]; simpl; [constructor|].
  rewrite <- (Hpq x y Hxy). destruct (p x); [constructor|]; auto.
Qed.

Lemma filter_filter_andb {A} (p q : A -> bool) (l : list A) :
  List.filter q (List.filter p l) = List.filter (fun x => p x && q x) l.
Proof.
  induction l as [|x l IH]; simpl; [done|].
  destruct (p x); simpl; [destruct (q x)|]; by rewrite ?IH.
Qed.

Lemma elem_of_List_filter {A} (p : A -> bool) (l : list A) (x : A) :
  x ∈ List.filter p l <-> x ∈ l /\ p x = true.
Proof. rewrite !list_elem_of_In. apply filter_In. Qed.

(** ** Rows *)

Lemma cell_at_set_cell_eq col v r : cell_at (set_cell col v r) col = v.
Proof. unfold cell_at, set_cell; simpl. by rewrite lookup_insert_eq. Qed.

Lemma cell_at_set_cell_ne col col' v r :
  col <> col' -> cell_at (set_cell col v r) col' = cell_at r col'.
Proof. intros. unfold cell_at, set_cell; simpl. by rewrite lookup_insert_ne. Qed.

Lemma cell_at_del_cell_ne col col' r :
  col <> col' -> cell_at (del_cell col r) col' = cell_at r col'.
Proof. intros. unfold cell_at, del_cell; simpl. by rewrite lookup_delete_ne. Qed.

(** ** Columns *)

Lemma lookup_col_Some col cols t :
  lookup_col col cols = Some t -> col ∈ map fst cols.
Proof.
  induction cols as [|[c t'] cols IH]; simpl; [discriminate|].
  destruct (String.eqb_spec c col) as [->|]; [left|right; auto].
Qed.

Lemma lookup_col_member col cols :
  col ∈ map fst cols -> exists t, lookup_col col cols = Some t.
Proof.
  induction cols as [|[c t'] cols IH]; simpl; intros H.
  - by apply elem_of_nil in H.
  - destruct (String.eqb_spec c col) as [->|Hne]; [by eexists|].
    apply elem_of_cons in H as [->|H]; [done | auto].
Qed.

Lemma lookup_col_set_dtype_eq col t cols :
  lookup_col col (set_dtype col t cols) = Some t.
Proof.
  induction cols as [|[c t'] cols IH]; simpl.
  - by rewrite String.eqb_refl.
  - destruct (String.eqb_spec c col) as [->|Hne]; simpl.
    + by rewrite String.eqb_refl.
    + by destruct (String.eqb_spec c col).
Qed.

Lemma lookup_col_set_dtype_ne col col' t cols :
  col <> col' -> lookup_col col' (set_dtype col t cols) = lookup_col col' cols.
Proof.
  intros Hne. induction cols as [|[c t'] cols IH]; simpl.
  - by destruct (String.eqb_spec col col').
  - destruct (String.eqb_spec c col) as [->|Hc]; simpl.
    + by destruct (String.eqb_spec col col').
    + by rewrite IH.
Qed.

(** Assigning to a column that exists leaves the column names alone. *)
Lemma names_set_dtype col t cols :
  col ∈ map fst cols -> map fst (set_dtype col t cols) = map fst cols.
Proof.
  induction cols as [|[c t'] cols IH]; simpl; intros H.
  - by apply elem_of_nil in H.
  - destruct (String.eqb_spec c col) as [->|Hne]; simpl; [done|].
    apply elem_of_cons in H as [->|H]; [done|]. by rewrite IH.
Qed.

Lemma getitem_Ok df col s :
  getitem df col = Ok s ->
  lookup_col col (columns df) = Some (dtype_of s) /\ values s = col_values df col.
Proof.
  unfold getitem. destruct (lookup_col col (columns df)); [|discriminate].
  by intros [= <-].
Qed.

Lemma getitem_member df col :
  col ∈ col_names df ->
  exists t, getitem df col = Ok {| dtype_of := t; values := col_values df col |}.
Proof.
  intros H. apply lookup_col_member in H as [t Ht].
  exists t. unfold getitem. by rewrite Ht.
Qed.

Lemma setitem_Ok df col s out :
  setitem df col s = Ok out ->
  length (values s) = length (rows df)
  /\ columns out = set_dtype col (dtype_of s) (columns df)
  /\ rows out = zip_with (set_cell col) (values s) (rows df).
Proof.
  unfold setitem.
  destruct (Nat.eqb_spec (length (values s)) (length (rows df))); [|discriminate].
  by intros [= <-].
Qed.

Lemma setitem_same_length df col s :
  length (values s) = length (rows df) ->
  setitem df col s =
    Ok {| columns := set_dtype col (dtype_of s) (columns df);
          rows := zip_with (set_cell col) (values s) (rows df) |}.
Proof. intros H. unfold setitem. by rewrite H, Nat.eqb_refl. Qed.

(** The rows after an assignment, when the new values are related to the
    rows one by one. *)
Lemma zip_with_set_cell (R : Row -> cell -> Prop) col (rs : list Row) (vs : list cell) :
  Forall2 R rs vs ->
  Forall2 (fun r r' => exists v, R r v /\ r' = set_cell col v r)
          rs (zip_with (set_cell col) vs rs).
Proof. induction 1; simpl; constructor; eauto. Qed.

(** ** Row selection *)

Lemma loc_Ok df mask out :
  loc df mask = Ok out -> length mask = length (rows df) /\ out = take_rows df mask.
Proof.
  unfold loc. destruct (Nat.eqb_spec (length mask) (length (rows df))); [|discriminate].
  by intros [= <-].
Qed.

Lemma loc_same_length df mask :
  length mask = length (rows df) -> loc df mask = Ok (take_rows df mask).
Proof. intros H. unfold loc. by rewrite H, Nat.eqb_refl. Qed.

Lemma getitem_mask_same_length df mask :
  length mask = length (rows df) -> getitem_mask df mask = Ok (take_rows df mask).
Proof. intros H. unfold getitem_mask. by rewrite H, Nat.eqb_refl. Qed.

Lemma length_col_values df col : length (col_values df col) = length (rows df).
Proof. unfold col_values. apply length_map. Qed.

Lemma select_map (p : Row -> bool) (rs : list Row) :
  select (map p rs) rs = List.filter p rs.
Proof. induction rs as [|r rs IH]; simpl; [done|]. by rewrite IH. Qed.

Lemma select_Forall2 (R : Row -> bool -> Prop) (p : Row -> bool) rs mask :
  Forall2 R rs mask -> (forall r b, R r b -> b = p r) ->
  select mask rs = List.filter p rs.
Proof.
  intros H HR. induction H as [|r b rs mask Hrb _ IH]; simpl; [done|].
  rewrite (HR r b Hrb), IH. done.
Qed.

(** ** Stages that assign a column *)

Lemma assign_rows (R : Row -> cell -> Prop) df col s out :
  Forall2 R (rows df) (values s) -> setitem df col s = Ok out ->
  Forall2 (fun r r' => exists v, R r v /\ r' = set_cell col v r) (rows df) (rows out).
Proof.
  intros HR H. apply setitem_Ok in H as (_ & _ & ->).
  by apply zip_with_set_cell.
Qed.

(** The values computed from a column, one row at a time. *)
Lemma column_mapM {B} (f : cell -> result B) df col s (vs : list B) :
  getitem df col = Ok s -> mapM f (values s) = Ok vs ->
  Forall2 (fun r v => f (cell_at r col) = Ok v) (rows df) vs.
Proof.
  intros Hs Hvs. apply getitem_Ok in Hs as [_ Hs]. rewrite Hs in Hvs.
  apply mapM_Ok in Hvs. unfold col_values in Hvs.
  by apply Forall2_map_l in Hvs.
Qed.

Lemma str_accessor_Ok s vs : str_accessor s = Ok vs -> dtype_of s = object /\ vs = values s.
Proof.
  unfold str_accessor. destruct (dtype_of s); try discriminate.
  destruct (holds_strings (values s)); [|discriminate]. by intros [= <-].
Qed.

Lemma map_col_rows df col f out :
  map_col df col f = Ok out ->
  Forall2 (fun r r' => exists v, f (cell_at r col) = Ok v /\ r' = set_cell col v r)
          (rows df) (rows out).
Proof.
  unfold map_col. intros H.
  bind_inv H as s Hs. bind_inv H as s' Hs'.
  unfold series_map in Hs'. bind_inv Hs' as vs Hvs. injection Hs' as <-.
  eapply assign_rows; [|exact H].
  simpl. eapply column_mapM; eauto.
Qed.

Lemma fix_rate_col_rows df col out :
  fix_rate_col df col = Ok out ->
  Forall2 (fun r r' => exists v, rate_coercion (cell_at r col) = Ok v
                                 /\ r' = set_cell col v r)
          (rows df) (rows out).
Proof.
  unfold fix_rate_col. intros H.
  bind_inv H as s Hs. bind_inv H as t Ht. bind_inv H as f Hf.
  unfold str_rstrip in Ht. bind_inv Ht as vs Hvs. injection Ht as <-.
  apply str_accessor_Ok in Hvs as [_ ->].
  unfold astype_float32 in Hf. bind_inv Hf as ws Hws. injection Hf as <-.
  simpl in Hws.
  eapply assign_rows; [|exact H]. simpl.
  apply getitem_Ok in Hs as [_ Hs]. rewrite Hs in Hws.
  apply mapM_Ok in Hws. unfold col_values in Hws.
  rewrite map_map in Hws. by apply Forall2_map_l in Hws.
Qed.

Lemma clean_loan_term_col_rows df out :
  clean_loan_term_col df = Ok out ->
  Forall2 (fun r r' => exists v, term_coercion (cell_at r "term") = Ok v
                                 /\ label r' = label r
                                 /\ cell_at r' "term" = v
                                 /\ forall col, col <> "term" ->
                                      cell_at r' col = cell_at r col)
          (rows df) (rows out).
Proof.
  unfold clean_loan_term_col. intros H.
  bind_inv H as s Hs. bind_inv H as l Hl. bind_inv H as df1 Hdf1.
  bind_inv H as s1 Hs1. bind_inv H as u Hu.
  pose proof (column_mapM _ _ _ _ _ Hs Hl) as H1.
  eapply (assign_rows _ _ _ (series_of_list l)) in Hdf1; [|exact H1].
  unfold astype_uint8 in Hu. bind_inv Hu as ws Hws. injection Hu as <-.
  pose proof (column_mapM _ _ _ _ _ Hs1 Hws) as H2.
  eapply (assign_rows _ _ _ {| dtype_of := uint8; values := ws |}) in H; [|exact H2].
  pose proof (Forall2_compose _ _ _ _ _ Hdf1 H) as H3.
  eapply Forall2_impl; [exact H3|]. simpl.
  intros r r' (r1 & (v & Hv & ->) & (w & Hw & ->)).
  rewrite cell_at_set_cell_eq in Hw.
  exists w. split; [|split; [done|split]].
  - unfold term_coercion. rewrite Hv. done.
  - apply cell_at_set_cell_eq.
  - intros col Hne. rewrite !cell_at_set_cell_ne by done. done.
Qed.

Lemma clean_employment_length_rows df out :
  clean_employment_length df = Ok out ->
  Forall2 (fun r r' => exists v, employment_length_coercion (cell_at r "emp_length") = Ok v
                                 /\ label r' = label r
                                 /\ cell_at r' "emp_length" = v
                                 /\ forall col, col <> "emp_length" ->
                                      cell_at r' col = cell_at r col)
          (rows df) (rows out).
Proof.
  unfold clean_employment_length. intros H.
  bind_inv H as s Hs. bind_inv H as df1 Hdf1. bind_inv H as s1 Hs1.
  bind_inv H as e He. bind_inv H as f Hf.
  apply getitem_Ok in Hs as [_ Hs].
  assert (H1 : Forall2 (fun r v => v = lt1_to_zero (cell_at r "emp_length"))
                 (rows df) (values (series_of_list (map lt1_to_zero (values s))))).
  { simpl. rewrite Hs. unfold col_values. rewrite map_map.
    apply Forall2_fmap_self with (f := fun r => lt1_to_zero (cell_at r "emp_length")). }
  eapply assign_rows in Hdf1; [|exact H1].
  unfold str_extract_digits in He. bind_inv He as vs Hvs. injection He as <-.
  apply str_accessor_Ok in Hvs as [_ ->].
  unfold astype_float32 in Hf. bind_inv Hf as ws Hws. injection Hf as <-.
  simpl in Hws.
  assert (H2 : Forall2 (fun r v => to_float32 (str_map extract_digits (cell_at r "emp_length")) = Ok v)
                 (rows df1) ws).
  { apply getitem_Ok in Hs1 as [_ Hs1]. rewrite Hs1 in Hws.
    apply mapM_Ok in Hws. unfold col_values in Hws.
    rewrite map_map in Hws. by apply Forall2_map_l in Hws. }
  eapply (assign_rows _ _ _ {| dtype_of := float32; values := ws |}) in H; [|exact H2].
  pose proof (Forall2_compose _ _ _ _ _ Hdf1 H) as H3.
  eapply Forall2_impl; [exact H3|]. simpl.
  intros r r' (r1 & (v & -> & ->) & (w & Hw & ->)).
  rewrite cell_at_set_cell_eq in Hw.
  exists w. split; [done|split; [done|split]].
  - apply cell_at_set_cell_eq.
  - intros col Hne. rewrite !cell_at_set_cell_ne by done. done.
Qed.

(** ** Stages that select rows *)

Lemma dropna_rows df col out :
  dropna df col = Ok out ->
  columns out = columns df
  /\ rows out = List.filter (fun r => negb (isna (cell_at r col))) (rows df).
Proof.
  unfold dropna. intros H. bind_inv H as s Hs. injection H as <-.
  apply getitem_Ok in Hs as [_ ->]. simpl. split; [done|].
  unfold col_values. rewrite map_map. apply select_map.
Qed.

Lemma str_upper_values s u :
  str_upper s = Ok u ->
  values u = map (str_map (fun x => Str (Py.upper x))) (values s).
Proof.
  unfold str_upper. intros H. bind_inv H as vs Hvs. injection H as <-.
  by apply str_accessor_Ok in Hvs as [_ ->].
Qed.

Lemma drop_joint_applicant_loans_rows df out :
  DataCleaning.drop_joint_applicant_loans df = Ok out ->
  columns out = columns df /\ rows out = List.filter is_individual (rows df).
Proof.
  unfold DataCleaning.drop_joint_applicant_loans. intros H.
  bind_inv H as s Hs. bind_inv H as u Hu. apply loc_Ok in H as [_ ->].
  apply str_upper_values in Hu.
  apply getitem_Ok in Hs as [_ Hs]. simpl. split; [done|].
  unfold eq_scalar. rewrite Hu, Hs. unfold col_values.
  rewrite !map_map. apply select_map.
Qed.

Lemma is_individual_spec r : is_individual r = true -> applicant_individual r.
Proof.
  unfold is_individual, applicant_individual.
  destruct (cell_at r "application_type") as [|x| | | |]; simpl; try discriminate.
  intros H. apply String.eqb_eq in H. eauto.
Qed.

Lemma only_include_36_month_loans_rows df out :
  only_include_36_month_loans df = Ok out ->
  columns out = columns df /\ rows out = List.filter is_36_months (rows df).
Proof.
  unfold only_include_36_month_loans. intros H. bind_inv H as s Hs.
  apply loc_Ok in H as [_ ->].
  apply getitem_Ok in Hs as [_ Hs]. simpl. split; [done|].
  unfold eq_scalar. rewrite Hs. unfold col_values. rewrite map_map. apply select_map.
Qed.

Lemma exclude_loans_before_2010_rows df out :
  exclude_loans_before_2010 df = Ok out ->
  columns out = columns df
  /\ exists t, lookup_col "issue_d" (columns df) = Some t
       /\ rows out = List.filter (kept_from_2010 t) (rows df).
Proof.
  unfold exclude_loans_before_2010. intros H.
  bind_inv H as s Hs. bind_inv H as mask Hmask. apply loc_Ok in H as [_ ->].
  simpl. split; [done|].
  pose proof Hs as Hg. apply getitem_Ok in Hg as [Ht Hv].
  exists (dtype_of s). split; [done|].
  unfold ge_scalar in Hmask. destruct (dtype_of s) eqn:Hd; try discriminate.
  - pose proof (column_mapM _ _ _ _ _ Hs Hmask) as H1.
    apply (select_Forall2 _ _ _ _ H1).
    intros r b Hrb. unfold kept_from_2010.
    destruct (cell_at r "issue_d"); simpl in Hrb; try discriminate;
      by injection Hrb.
  - change (parse_iso_date "2010-01-01") with (Some (2010, 1, 1)) in Hmask.
    injection Hmask as <-. rewrite Hv. unfold col_values. rewrite map_map.
    apply select_map.
Qed.

(** ** The stable sort *)

Lemma insert_by_Permutation {A} (leb : A -> A -> bool) x l :
  insert_by leb x l ≡ₚ x :: l.
Proof.
  induction l as [|y l IH]; simpl; [done|].
  destruct (leb x y); [done|]. rewrite IH. apply Permutation_swap.
Qed.

Lemma stable_sort_Permutation {A} (leb : A -> A -> bool) l :
  stable_sort leb l ≡ₚ l.
Proof.
  induction l as [|x l IH]; simpl; [done|].
  rewrite insert_by_Permutation. by constructor.
Qed.

Lemma insert_by_sorted {A} (leb : A -> A -> bool) x l :
  (forall a b c, leb a b = true -> leb b c = true -> leb a c = true) ->
  (forall a b, leb a b = true \/ leb b a = true) ->
  StronglySorted (fun a b => Is_true (leb a b)) l ->
  StronglySorted (fun a b => Is_true (leb a b)) (insert_by leb x l).
Proof.
  intros Htrans Htotal. induction 1 as [|y l Hl IH Hy]; simpl.
  - repeat constructor.
  - destruct (leb x y) eqn:Hxy.
    + constructor; [by constructor|]. constructor; [by rewrite Hxy|].
      eapply Forall_impl; [exact Hy|]. simpl. intros z Hz.
      apply Is_true_true. apply Is_true_true in Hz. by eapply Htrans.
    + constructor; [exact IH|].
      assert (Hyx : leb y x = true) by (destruct (Htotal x y); congruence).
      rewrite (insert_by_Permutation leb x l).
      constructor; [by rewrite Hyx | exact Hy].
Qed.

Lemma stable_sort_sorted {A} (leb : A -> A -> bool) l :
  (forall a b c, leb a b = true -> leb b c = true -> leb a c = true) ->
  (forall a b, leb a b = true \/ leb b a = true) ->
  StronglySorted (fun a b => Is_true (leb a b)) (stable_sort leb l).
Proof.
  intros Htrans Htotal. induction l as [|x l IH]; simpl; [constructor|].
  by apply insert_by_sorted.
Qed.

Lemma sort_values_rows df col out :
  sort_values df col = Ok out ->
  columns out = columns df /\ rows out ≡ₚ rows df.
Proof.
  unfold sort_values. destruct (lookup_col col (columns df)); [|discriminate].
  destruct (sortable _); [|discriminate].
  intros [= <-]. simpl. split; [done|]. apply stable_sort_Permutation.
Qed.

(** ** Stages that loop over columns *)

Lemma drop_rows df col out :
  drop df col = Ok out ->
  columns out = del_col col (columns df)
  /\ rows out = map (del_cell col) (rows df).
Proof.
  unfold drop. destruct (lookup_col col (columns df)); [|discriminate].
  by intros [= <-].
Qed.

Lemma for_each_drop_rows (l : list string) : forall df out,
  for_each drop df l = Ok out ->
  Forall2 (fun r r' => label r' = label r
                       /\ forall col, col ∉ l -> cell_at r' col = cell_at r col)
          (rows df) (rows out).
Proof.
  induction l as [|c l IH]; intros df out H; simpl in H.
  - injection H as <-. apply Forall_Forall2_diag, Forall_forall. auto.
  - bind_inv H as df1 Hdf1. apply drop_rows in Hdf1 as [_ Hrows].
    apply IH in H. rewrite Hrows in H. apply Forall2_map_l in H.
    eapply Forall2_impl; [exact H|]. simpl.
    intros r r' [Hl Hc]. split; [done|].
    intros col Hcol. apply not_elem_of_cons in Hcol as [Hne Hcol].
    rewrite Hc by done. by apply cell_at_del_cell_ne.
Qed.

Lemma fix_rate_cols_rows df out :
  fix_rate_cols df = Ok out ->
  Forall2 (fun r r' => label r' = label r
                       /\ (forall col, col ∈ rate_cols ->
                             rate_coercion (cell_at r col) = Ok (cell_at r' col))
                       /\ (forall col, col ∉ rate_cols -> cell_at r' col = cell_at r col))
          (rows df) (rows out).
Proof.
  unfold fix_rate_cols, rate_cols. simpl. intros H.
  bind_inv H as df1 H1. bind_inv H as df2 H2. injection H as <-.
  apply fix_rate_col_rows in H1, H2.
  pose proof (Forall2_compose _ _ _ _ _ H1 H2) as H3.
  eapply Forall2_impl; [exact H3|]. simpl.
  intros r r' (r1 & (v & Hv & ->) & (w & Hw & ->)).
  rewrite cell_at_set_cell_ne in Hw by done.
  split; [done|split].
  - intros col Hcol. repeat (apply elem_of_cons in Hcol as [->|Hcol]).
    + rewrite cell_at_set_cell_ne, cell_at_set_cell_eq by done. done.
    + by rewrite cell_at_set_cell_eq.
    + by apply elem_of_nil in Hcol.
  - intros col Hcol. apply not_elem_of_cons in Hcol as [Hne1 Hcol].
    apply not_elem_of_cons in Hcol as [Hne2 _].
    rewrite !cell_at_set_cell_ne by done. done.
Qed.

Lemma zip_with_map_self {A B C} (f : B -> A -> C) (g : A -> B) (l : list A) :
  zip_with f (map g l) l = map (fun x => f (g x) x) l.
Proof. induction l; simpl; [done|]. by f_equal. Qed.

Lemma fill_na_col_spec value df col :
  col ∈ col_names df ->
  exists cols', map fst cols' = col_names df
    /\ fill_na_col value df col =
        Ok {| columns := cols';
              rows := map (fun r => set_cell col (fill_cell value (cell_at r col)) r)
                          (rows df) |}.
Proof.
  intros Hcol. pose proof Hcol as Hin. apply lookup_col_member in Hcol as [t Ht].
  unfold fill_na_col, getitem. rewrite Ht. simpl.
  rewrite setitem_same_length by (simpl; by rewrite !length_map).
  eexists. split; [|simpl; do 2 f_equal].
  - simpl. by apply names_set_dtype.
  - change (fun c => if isna c then value else c) with (fill_cell value).
    rewrite map_map.
    apply (zip_with_map_self (set_cell col) (fun r => fill_cell value (cell_at r col))).
Qed.

Lemma filled_step value col cols r :
  forall r'', filled cols value
                (set_cell col (fill_cell value (cell_at r col)) r) r'' ->
  filled (col :: cols) value r r''.
Proof.
  intros r'' [Hl Hc]. split; [done|].
  intros c. rewrite Hc. clear Hc Hl.
  destruct (decide (c = col)) as [->|Hne].
  - rewrite cell_at_set_cell_eq.
    rewrite (bool_decide_eq_true_2 (col ∈ col :: cols)) by (by left).
    unfold fill_cell. simpl.
    destruct (bool_decide (col ∈ cols)); simpl; [|done].
    destruct (isna (cell_at r col)) eqn:Hna; simpl; [|by rewrite Hna].
    by destruct (isna value).
  - rewrite cell_at_set_cell_ne by done.
    assert (bool_decide (c ∈ col :: cols) = bool_decide (c ∈ cols)) as ->; [|done].
    apply bool_decide_ext. rewrite elem_of_cons.
    split; [intros [Heq|Hin]; [done | exact Hin] | intros Hin; by right].
Qed.

Lemma for_each_fill_spec value (cols : list string) : forall df,
  (forall c, c ∈ cols -> c ∈ col_names df) ->
  exists out, for_each (fill_na_col value) df cols = Ok out
              /\ col_names out = col_names df
              /\ Forall2 (filled cols value) (rows df) (rows out).
Proof.
  induction cols as [|col cols IH]; intros df Hcols; simpl.
  - exists df. split; [done|split; [done|]].
    apply Forall_Forall2_diag, Forall_forall. intros r _. split; [done|].
    intros c. by rewrite bool_decide_eq_false_2 by apply not_elem_of_nil.
  - destruct (fill_na_col_spec value df col) as (cols' & Hnames & ->);
      [apply Hcols; by left|]. simpl.
    match goal with
    | |- context [for_each _ ?d cols] =>
        destruct (IH d) as (out & Hout & Hc & Hr)
    end.
    { intros c Hc. unfold col_names. simpl. rewrite Hnames.
      apply Hcols. by right. }
    exists out. split; [exact Hout|split].
    + rewrite Hc. unfold col_names. simpl. exact Hnames.
    + simpl in Hr. apply Forall2_map_l in Hr.
      eapply Forall2_impl; [exact Hr|]. simpl.
      intros r r''. apply filled_step.
Qed.

Lemma fill_nas_spec df value :
  exists out, fill_nas df value = Ok out
              /\ col_names out = col_names df
              /\ Forall2 (filled (col_names df) value) (rows df) (rows out).
Proof. unfold fill_nas. by apply for_each_fill_spec. Qed.

Lemma set_index_rows df key vi out :
  set_index df key vi = Ok out ->
  rows out = map (fun r => {| label := cell_at r key; cells := delete key (cells r) |})
                 (rows df).
Proof.
  unfold set_index. intros H. bind_inv H as s Hs.
  destruct (vi && has_duplicates (values s)); [discriminate|]. by injection H as <-.
Qed.

(** ** Reading back an assigned column *)

Lemma col_values_zip_with col (vs : list cell) : forall rs : list Row,
  length vs = length rs ->
  map (fun r => cell_at r col) (zip_with (set_cell col) vs rs) = vs.
Proof.
  induction vs as [|v vs IH]; intros [|r rs] Hlen; simpl in *; try done.
  rewrite cell_at_set_cell_eq. f_equal. apply IH. by injection Hlen.
Qed.

Lemma getitem_setitem df col s out :
  setitem df col s = Ok out ->
  getitem out col = Ok {| dtype_of := dtype_of s; values := values s |}.
Proof.
  intros H. apply setitem_Ok in H as (Hlen & Hc & Hr).
  unfold getitem. rewrite Hc, lookup_col_set_dtype_eq, Hr.
  by rewrite col_values_zip_with.
Qed.

Lemma mapM_length {A B} (f : A -> result B) l k :
  mapM f l = Ok k -> length k = length l.
Proof. intros H. apply mapM_Ok in H. symmetry. by eapply Forall2_length. Qed.

(** ** The loan term *)

Lemma term_coercion_Str x :
  term_coercion (Str x) =
    Ok (Int (if String.eqb (Py.strip x) "36 months" then 36 else 60)).
Proof. unfold term_coercion. simpl. by destruct (String.eqb _ _). Qed.

Lemma term_coercion_Ok c v :
  term_coercion c = Ok v ->
  exists x, c = Str x
            /\ v = Int (if String.eqb (Py.strip x) "36 months" then 36 else 60).
Proof.
  destruct c as [|x| | | |]; try discriminate.
  rewrite term_coercion_Str. intros [= <-]. eauto.
Qed.

Lemma clean_loan_term_col_dtype df out :
  clean_loan_term_col df = Ok out -> lookup_col "term" (columns out) = Some uint8.
Proof.
  unfold clean_loan_term_col. intros H.
  bind_inv H as s Hs. bind_inv H as l Hl. bind_inv H as df1 Hdf1.
  bind_inv H as s1 Hs1. bind_inv H as u Hu.
  unfold astype_uint8 in Hu. bind_inv Hu as ws Hws. injection Hu as <-.
  apply setitem_Ok in H as (_ & -> & _). apply lookup_col_set_dtype_eq.
Qed.

Lemma clean_loan_term_col_total df :
  "term" ∈ col_names df ->
  Forall (fun r => is_str (cell_at r "term") = true) (rows df) ->
  exists out, clean_loan_term_col df = Ok out.
Proof.
  intros Hcol Hstr. unfold clean_loan_term_col.
  destruct (getitem_member _ _ Hcol) as [t ->]. simpl.
  destruct (mapM_total term_of (col_values df "term")) as [l Hl].
  { unfold col_values. apply Forall_fmap. eapply Forall_impl; [exact Hstr|].
    simpl. intros r Hr. destruct (cell_at r "term"); try discriminate. by eexists. }
  rewrite Hl. simpl.
  pose proof (mapM_length _ _ _ Hl) as Hlen.
  unfold col_values in Hlen. rewrite length_map in Hlen.
  set (df1 := {| columns := set_dtype "term" (infer_dtype l) (columns df);
                 rows := zip_with (set_cell "term") l (rows df) |}).
  assert (Hset : setitem df "term" (series_of_list l) = Ok df1)
    by (by apply setitem_same_length).
  rewrite Hset. simpl.
  rewrite (getitem_setitem _ _ _ _ Hset). simpl.
  destruct (mapM_total to_uint8 l) as [ws Hws].
  { apply mapM_Ok in Hl. unfold col_values in Hl.
    apply Forall2_map_l in Hl.
    apply Forall_forall. intros v Hv.
    destruct (Forall2_member_r _ _ _ _ Hl Hv) as (r & _ & Hr).
    destruct (cell_at r "term"); try discriminate.
    injection Hr as <-. by eexists. }
  unfold astype_uint8. simpl. rewrite Hws. simpl.
  rewrite setitem_same_length; [by eexists|]. simpl.
  rewrite length_zip_with, (mapM_length _ _ _ Hws). lia.
Qed.

(** C5. For every string, [term_coercion] (the conditional expression of
    [clean_loan_term_col] followed by its cast to [uint8]) gives 36 when
    the stripped string is ["36 months"] and 60 otherwise, malformed
    strings included; the value is 36 or 60 and fits eight unsigned bits.
    [clean_loan_term_col] returns on every table whose [term] column holds
    strings, stores exactly these values and types the column [uint8]. *)
Theorem term_coercion_36_or_60 :
  (forall x, term_coercion (Str x) =
               Ok (Int (if String.eqb (Py.strip x) "36 months" then 36 else 60)))
  /\ (forall x, exists z, term_coercion (Str x) = Ok (Int z)
                          /\ (z = 36 \/ z = 60) /\ 0 <= z < 2 ^ 8)
  /\ term_coercion (Str "36 months") = Ok (Int 36)
  /\ term_coercion (Str " 36 months") = Ok (Int 36)
  /\ term_coercion (Str "60 months") = Ok (Int 60)
  /\ term_coercion (Str "3 years") = Ok (Int 60)
  /\ (forall df, "term" ∈ col_names df ->
        Forall (fun r => is_str (cell_at r "term") = true) (rows df) ->
        exists out, clean_loan_term_col df = Ok out)
  /\ (forall df out, clean_loan_term_col df = Ok out ->
        lookup_col "term" (columns out) = Some uint8
        /\ Forall2 (fun r r' =>
                      exists x, cell_at r "term" = Str x
                        /\ cell_at r' "term" =
                             Int (if String.eqb (Py.strip x) "36 months"
                                  then 36 else 60))
                   (rows df) (rows out)).
Proof.
  split; [exact term_coercion_Str|].
  split.
  { intros x. rewrite term_coercion_Str.
    destruct (String.eqb _ _); eexists; (split; [reflexivity|]); lia. }
  do 4 (split; [by vm_compute|]).
  split; [exact clean_loan_term_col_total|].
  intros df out H. split; [by eapply clean_loan_term_col_dtype|].
  apply clean_loan_term_col_rows in H.
  eapply Forall2_impl; [exact H|]. simpl.
  intros r r' (v & Hv & _ & Hr' & _).
  apply term_coercion_Ok in Hv as (x & Hx & ->). eauto.
Qed.

Lemma term_coercion_36_or_60_witness :
  exists out, clean_loan_term_col term_frame = Ok out
              /\ lookup_col "term" (columns out) = Some uint8
              /\ col_values out "term" = [Int 36; Int 60; Int 60].
Proof.
  destruct term_coercion_36_or_60 as (_ & _ & _ & _ & _ & _ & Htotal & Hcol).
  destruct (Htotal term_frame) as [out Hout].
  - vm_compute. by left.
  - vm_compute. repeat constructor.
  - exists out. split; [exact Hout|].
    split; [exact (proj1 (Hcol _ _ Hout))|].
    revert Hout. vm_compute. by intros [= <-].
Defined.

(** ** Dates *)

(** C6. ["5-Dec"] and ["Dec-05"] both give December 2005: the first
    starts with a digit and is padded to ["05-Dec"] before it is read as
    [%y-%b], the second is read as [%b-%y] directly.  ["Dec-2015"] gives
    December 2015: [%b-%y] fails on it and [%b-%Y] is tried next. *)
Theorem convert_date_shapes :
  convert_date (Str "5-Dec") = Ok (Date 2005 12 1)
  /\ convert_date (Str "Dec-05") = Ok (Date 2005 12 1)
  /\ convert_date (Str "Dec-2015") = Ok (Date 2015 12 1)
  /\ Py.rjust 6 "0" "5-Dec" = "05-Dec"
  /\ to_datetime "05-Dec" "%y-%b" = Ok (Date 2005 12 1)
  /\ to_datetime "Dec-05" "%b-%y" = Ok (Date 2005 12 1)
  /\ to_datetime "Dec-2015" "%b-%y" = Raise ValueError
  /\ to_datetime "Dec-2015" "%b-%Y" = Ok (Date 2015 12 1).
Proof. repeat split; by vm_compute. Qed.

(** A coerced date is a timestamp or missing. *)
Lemma to_datetime_Ok x fmt v :
  to_datetime x fmt = Ok v -> v = NA \/ exists y m, v = Date y m 1.
Proof.
  unfold to_datetime. destruct (existsb _ _); [intros [= <-]; by left|].
  destruct (compile_format _); [|discriminate].
  destruct (match_directives _ _ _ _) as [[y m]|]; [|discriminate].
  destruct (in_bounds y m); [|discriminate]. intros [= <-]. right. eauto.
Qed.

Lemma convert_date_Ok c v :
  convert_date c = Ok v -> v = NA \/ exists y m, v = Date y m 1.
Proof.
  destruct c as [|x| | | |]; try discriminate. simpl.
  destruct (Py.chars x) as [|c0 l]; [discriminate|].
  destruct (Py.isdigit c0); [apply to_datetime_Ok|].
  destruct (to_datetime x "%b-%y") eqn:H1.
  - intros [= <-]. by eapply to_datetime_Ok.
  - apply to_datetime_Ok.
Qed.

(** ** The two versions of the row filters *)

Lemma zip_with_map_map {A B C D} (f : B -> C -> D) (g : A -> B) (h : A -> C) l :
  zip_with f (map g l) (map h l) = map (fun x => f (g x) (h x)) l.
Proof. induction l; simpl; [done|]. by f_equal. Qed.

Lemma isin_two s a b :
  isin s [a; b] = or_mask (eq_scalar s a) (eq_scalar s b).
Proof.
  unfold isin, or_mask, eq_scalar. rewrite zip_with_map_map.
  apply map_ext. intros c. simpl. by rewrite orb_false_r.
Qed.

Lemma getitem_length df col s :
  getitem df col = Ok s -> length (values s) = length (rows df).
Proof. intros H. apply getitem_Ok in H as [_ ->]. apply length_col_values. Qed.

Lemma drop_loans_not_complete_rows df out :
  DataCleaning.drop_loans_not_complete df = Ok out ->
  columns out = columns df /\ rows out = List.filter is_complete (rows df).
Proof.
  unfold DataCleaning.drop_loans_not_complete. intros H.
  bind_inv H as s Hs. apply loc_Ok in H as [_ ->].
  apply getitem_Ok in Hs as [_ Hs]. simpl. split; [done|].
  unfold isin. rewrite Hs. unfold col_values. rewrite map_map. apply select_map.
Qed.

(** The mask of either status filter has one entry per row. *)
Lemma status_mask_length df s :
  getitem df "loan_status" = Ok s ->
  length (isin s [Str "Charged Off"; Str "Fully Paid"]) = length (rows df).
Proof. intros H. unfold isin. rewrite length_map. by eapply getitem_length. Qed.

(** So has the mask of either applicant filter. *)
Lemma applicant_mask_length df s u :
  getitem df "application_type" = Ok s -> str_upper s = Ok u ->
  length (eq_scalar u (Str "INDIVIDUAL")) = length (rows df).
Proof.
  intros Hs Hu. unfold eq_scalar. rewrite length_map.
  rewrite (str_upper_values _ _ Hu), length_map. by eapply getitem_length.
Qed.

(** C9. The two source files define the same completion-status filter and
    the same applicant-type filter: on every table the [isin] mask with
    [.loc] and the disjunction of two equalities with [df[...]] give the
    same result (the same rows, or the same error), and so do the two
    versions of [drop_joint_applicant_loans].  The two ways of indexing
    differ on a mask that does not fit the table; the masks of the
    filters are computed from a column of the table and always fit, so
    that neither way of indexing raises.  The rows selected are, in
    their order, those whose status is ["Charged Off"] or ["Fully Paid"],
    and those whose type in upper case is ["INDIVIDUAL"]. *)
Theorem row_filters_agree (df : DataFrame) :
  DataCleaning.drop_loans_not_complete df = DataCleaningOld.drop_loans_not_complete df
  /\ DataCleaning.drop_joint_applicant_loans df
     = DataCleaningOld.drop_joint_applicant_loans df
  /\ (forall out, DataCleaningOld.drop_loans_not_complete df = Ok out ->
        columns out = columns df /\ rows out = List.filter is_complete (rows df))
  /\ (forall out, DataCleaningOld.drop_joint_applicant_loans df = Ok out ->
        columns out = columns df /\ rows out = List.filter is_individual (rows df))
  /\ (forall e, DataCleaningOld.drop_loans_not_complete df = Raise e -> e = KeyError)
  /\ (forall e, DataCleaningOld.drop_joint_applicant_loans df = Raise e ->
        e = KeyError \/ e = AttributeError).
Proof.
  assert (H1 : DataCleaning.drop_loans_not_complete df
               = DataCleaningOld.drop_loans_not_complete df).
  { unfold DataCleaning.drop_loans_not_complete,
      DataCleaningOld.drop_loans_not_complete.
    destruct (getitem df "loan_status") as [s|e] eqn:Hs; simpl; [|done].
    rewrite <- isin_two.
    rewrite loc_same_length, getitem_mask_same_length;
      [done | by apply status_mask_length ..]. }
  assert (H2 : DataCleaning.drop_joint_applicant_loans df
               = DataCleaningOld.drop_joint_applicant_loans df).
  { unfold DataCleaning.drop_joint_applicant_loans,
      DataCleaningOld.drop_joint_applicant_loans.
    destruct (getitem df "application_type") as [s|e] eqn:Hs; simpl; [|done].
    destruct (str_upper s) as [u|e] eqn:Hu; simpl; [|done].
    rewrite loc_same_length, getitem_mask_same_length;
      [done | by eapply applicant_mask_length ..]. }
  split; [exact H1|]. split; [exact H2|].
  split; [intros out; rewrite <- H1; apply drop_loans_not_complete_rows|].
  split; [intros out; rewrite <- H2; apply drop_joint_applicant_loans_rows|].
  split.
  - intros e. rewrite <- H1. unfold DataCleaning.drop_loans_not_complete.
    destruct (getitem df "loan_status") as [s|e'] eqn:Hs; simpl.
    + rewrite loc_same_length by (by apply status_mask_length). discriminate.
    + intros [= <-]. unfold getitem in Hs.
      destruct (lookup_col "loan_status" (columns df)); [discriminate|].
      by injection Hs.
  - intros e. rewrite <- H2. unfold DataCleaning.drop_joint_applicant_loans.
    destruct (getitem df "application_type") as [s|e'] eqn:Hs; simpl.
    + destruct (str_upper s) as [u|e''] eqn:Hu; simpl.
      * rewrite loc_same_length by (by eapply applicant_mask_length). discriminate.
      * intros [= <-]. right. unfold str_upper, str_accessor in Hu.
        destruct (dtype_of s); try (by injection Hu).
        destruct (holds_strings (values s)); [discriminate | by injection Hu].
    + intros [= <-]. left. unfold getitem in Hs.
      destruct (lookup_col "application_type" (columns df)); [discriminate|].
      by injection Hs.
Qed.

(** ** Imputation *)

Lemma filled_not_missing cols value r r' col :
  filled cols value r r' -> value <> NA -> col ∈ cols -> cell_at r' col <> NA.
Proof.
  intros [_ H] Hv Hcol. rewrite H, bool_decide_eq_true_2 by done. simpl.
  destruct (cell_at r col); simpl; done.
Qed.

Lemma filled_missing cols value r r' col :
  filled cols value r r' -> col ∈ cols -> cell_at r col = NA -> cell_at r' col = value.
Proof.
  intros [_ H] Hcol Hna. rewrite H, bool_decide_eq_true_2, Hna by done. done.
Qed.

Lemma filled_present cols value r r' col :
  filled cols value r r' -> cell_at r col <> NA -> cell_at r' col = cell_at r col.
Proof.
  intros [_ H] Hna. rewrite H.
  destruct (cell_at r col); try done; by rewrite andb_false_r.
Qed.

Lemma filled_changed cols value r r' col :
  filled cols value r r' -> cell_at r' col <> cell_at r col ->
  col ∈ cols /\ cell_at r col = NA /\ cell_at r' col = value.
Proof.
  intros [_ H] Hne. rewrite H in Hne |- *.
  destruct (bool_decide_reflect (col ∈ cols)) as [Hin|Hin]; simpl in *; [|done].
  destruct (cell_at r col); simpl in *; done.
Qed.

(** C7. Imputation with the sentinel -99 always returns, and in its
    result no column of the table holds a missing value: every value that
    was missing is -99. *)
Theorem fill_nas_leaves_no_missing (df : DataFrame) :
  exists out, fill_nas df (Int (-99)) = Ok out
    /\ col_names out = col_names df
    /\ (forall col r', col ∈ col_names out -> r' ∈ rows out -> cell_at r' col <> NA)
    /\ Forall2 (fun r r' => forall col, col ∈ col_names df -> cell_at r col = NA ->
                              cell_at r' col = Int (-99))
               (rows df) (rows out).
Proof.
  destruct (fill_nas_spec df (Int (-99))) as (out & Hout & Hcols & Hrows).
  exists out. split; [done|]. rewrite Hcols.
  split; [done|split].
  - intros col r' Hcol Hr'.
    destruct (Forall2_member_r _ _ _ _ Hrows Hr') as (r & _ & Hf).
    by eapply filled_not_missing.
  - eapply Forall2_impl; [exact Hrows|]. simpl.
    intros r r' Hf col Hcol Hna. by eapply filled_missing.
Qed.

Lemma fill_nas_leaves_no_missing_witness :
  exists out, fill_nas sparse_frame (Int (-99)) = Ok out
    /\ forall r', r' ∈ rows out -> cell_at r' "emp_length" <> NA.
Proof.
  destruct (fill_nas_leaves_no_missing sparse_frame) as (out & Hout & Hn & Hna & _).
  exists out. split; [exact Hout|].
  intros r'. apply Hna. rewrite Hn. vm_compute. right. by left.
Defined.

(** C10. Imputation changes missing entries only: it always returns, the
    result has the columns of the table, no more and no fewer, and the
    same rows in the same order with the same labels; a value that is not
    missing is unchanged, and a value that differs from before was a
    missing value of one of the table's columns. *)
Theorem fill_nas_changes_only_missing (df : DataFrame) (value : cell) :
  exists out, fill_nas df value = Ok out
    /\ col_names out = col_names df
    /\ length (rows out) = length (rows df)
    /\ Forall2 (fun r r' =>
                  label r' = label r
                  /\ (forall col, cell_at r col <> NA -> cell_at r' col = cell_at r col)
                  /\ (forall col, cell_at r' col <> cell_at r col ->
                        col ∈ col_names df /\ cell_at r col = NA
                        /\ cell_at r' col = value))
               (rows df) (rows out).
Proof.
  destruct (fill_nas_spec df value) as (out & Hout & Hcols & Hrows).
  exists out. split; [done|split; [done|split]].
  - symmetry. by eapply Forall2_length.
  - eapply Forall2_impl; [exact Hrows|]. simpl.
    intros r r' Hf. split; [apply Hf|split].
    + intros col. by eapply filled_present.
    + intros col. by eapply filled_changed.
Qed.

Lemma fill_nas_changes_only_missing_witness :
  exists out, fill_nas sparse_frame (Int (-99)) = Ok out
    /\ col_names out = col_names sparse_frame
    /\ col_values out "id" = [Int 1; Int 2]
    /\ col_values out "zip_code" = [Str "940xx"; Int (-99)].
Proof.
  destruct (fill_nas_changes_only_missing sparse_frame (Int (-99)))
    as (out & Hout & Hcols & _).
  exists out. split; [exact Hout|split; [exact Hcols|]].
  revert Hout. vm_compute. by intros [= <-].
Defined.

(** ** Numerals made of digits *)

(** Case analysis on the 256 characters. *)
Ltac ascii_cases c :=
  destruct c as [[] [] [] [] [] [] [] []]; vm_compute; try reflexivity;
  try discriminate.

Lemma isdecimal_not_space c : Py.isdecimal c = true -> Py.isspace_float c = false.
Proof. ascii_cases c. Qed.

Lemma isdecimal_not_underscore c : Py.isdecimal c = true -> Ascii.eqb c "_" = false.
Proof. ascii_cases c. Qed.

Lemma isdecimal_split_sign c l :
  Py.isdecimal c = true -> Py.split_sign (c :: l) = (false, c :: l).
Proof. revert l. ascii_cases c. Qed.

Lemma isdecimal_lower c : Py.isdecimal c = true -> Py.lower_char c = c.
Proof. ascii_cases c. Qed.

Lemma isdecimal_not_i_n c :
  Py.isdecimal c = true -> Ascii.eqb c "i" = false /\ Ascii.eqb c "n" = false.
Proof. ascii_cases c; intros; split; reflexivity. Qed.

Lemma isdecimal_digit_val c : Py.isdecimal c = true -> 0 <= Py.digit_val c.
Proof. ascii_cases c. Qed.

Lemma lstrip_by_head p c l : p c = false -> Py.lstrip_by p (c :: l) = c :: l.
Proof. intros H. simpl. by rewrite H. Qed.

Lemma strip_digits ds :
  Forall (fun c => Py.isdecimal c = true) ds ->
  Py.rstrip_by Py.isspace_float (Py.lstrip_by Py.isspace_float ds) = ds.
Proof.
  intros H.
  assert (Hl : forall l, Forall (fun c => Py.isdecimal c = true) l ->
                 Py.lstrip_by Py.isspace_float l = l).
  { intros [|c l] Hc; [done|]. apply lstrip_by_head, isdecimal_not_space.
    by apply Forall_cons in Hc as [Hc _]. }
  rewrite Hl by done. unfold Py.rstrip_by.
  rewrite Hl; [apply rev_involutive|].
  apply Forall_forall. intros c Hc. rewrite Forall_forall in H. apply H.
  apply list_elem_of_In. apply list_elem_of_In, in_rev in Hc. done.
Qed.

Lemma drop_underscores_digits ds : forall prev,
  Forall (fun c => Py.isdecimal c = true) ds ->
  match prev with Some p => Py.isdecimal p = true | None => True end ->
  Py.drop_underscores prev ds = Some ds.
Proof.
  induction ds as [|c ds IH]; intros prev Hds Hprev.
  - destruct prev as [p|]; [|done]. simpl. revert Hprev. ascii_cases p.
  - apply Forall_cons in Hds as [Hc Hds]. simpl.
    rewrite (isdecimal_not_underscore _ Hc).
    assert (Hrec : cons c <$> Py.drop_underscores (Some c) ds = Some (c :: ds))
      by (by rewrite IH).
    destruct prev as [p|]; [|exact Hrec].
    revert Hprev Hrec. generalize (Py.drop_underscores (Some c) ds).
    intros o. destruct p as [[] [] [] [] [] [] [] []]; simpl; try discriminate;
      intros _ Hrec; exact Hrec.
Qed.

Lemma span_all p l : Forall (fun c => p c = true) l -> Py.span p l = (l, []).
Proof.
  induction 1 as [|c l Hc _ IH]; simpl; [done|]. by rewrite Hc, IH.
Qed.

Lemma span_Forall p l : Forall (fun c => p c = true) (fst (Py.span p l)).
Proof.
  induction l as [|c l IH]; simpl; [constructor|].
  destruct (p c) eqn:Hc; [|constructor].
  destruct (Py.span p l). simpl in *. by constructor.
Qed.

Lemma digits_val_nonneg ds :
  Forall (fun c => Py.isdecimal c = true) ds -> 0 <= Py.digits_val ds.
Proof.
  intros Hds. unfold Py.digits_val.
  assert (forall acc, 0 <= acc ->
            0 <= fold_left (fun acc c => 10 * acc + Py.digit_val c) ds acc) as H;
    [|apply H; lia].
  induction Hds as [|c ds Hc _ IH]; intros acc Hacc; simpl; [done|].
  apply IH. apply isdecimal_digit_val in Hc. lia.
Qed.

Lemma f64_of_decimal_integer z :
  0 <= z -> Py.f64_of_decimal false z 0 = Py.f64_of_Z z.
Proof.
  intros Hz. destruct z as [|m|m]; [done| |lia].
  unfold Py.f64_of_decimal, Py.f64_of_Z. simpl.
  by rewrite Pos.mul_1_r.
Qed.

(** [float] of a non-empty string of digits is the number it denotes. *)
Lemma float_digits ds :
  ds <> [] -> Forall (fun c => Py.isdecimal c = true) ds ->
  Py.float (Py.str ds) = Some (Py.f64_of_Z (Py.digits_val ds)).
Proof.
  intros Hne Hds. unfold Py.float, Py.float_body, Py.chars, Py.str.
  rewrite list_ascii_of_string_of_list_ascii, strip_digits by done.
  rewrite drop_underscores_digits by done. simpl.
  destruct ds as [|c ds]; [done|].
  pose proof Hds as Hc. apply Forall_cons in Hc as [Hc _].
  rewrite (isdecimal_split_sign _ _ Hc).
  assert (Hlow : forall w, String.eqb (string_of_list_ascii (map Py.lower_char (c :: ds)))
                              (String "i" w) = false
                           /\ String.eqb (string_of_list_ascii (map Py.lower_char (c :: ds)))
                                (String "n" w) = false).
  { intros w. simpl. rewrite (isdecimal_lower _ Hc).
    destruct (isdecimal_not_i_n _ Hc) as [-> ->]. done. }
  rewrite (proj1 (Hlow "nf")), (proj1 (Hlow "nfinity")), (proj2 (Hlow "an")). simpl.
  unfold Py.parse_number. rewrite (span_all _ _ Hds). simpl.
  rewrite app_nil_r. simpl.
  change (0 - Z.of_nat 0) with 0.
  f_equal. apply f64_of_decimal_integer. by apply digits_val_nonneg.
Qed.

Lemma first_digit_run_Some l ds :
  Py.first_digit_run l = Some ds ->
  ds <> [] /\ Forall (fun c => Py.isdecimal c = true) ds.
Proof.
  induction l as [|c l IH]; simpl; [discriminate|].
  destruct (Py.isdecimal c) eqn:Hc; [|exact IH].
  intros [= <-]. destruct (Py.span Py.isdecimal l) as [a b] eqn:Hs. simpl.
  split; [discriminate|]. constructor; [done|].
  pose proof (span_Forall Py.isdecimal l) as H. by rewrite Hs in H.
Qed.

(** A string other than ["< 1 year"] is coerced to the number its first
    run of digits denotes, and to a missing value when it has no digit. *)
Lemma employment_length_coercion_other x :
  x <> "< 1 year" ->
  employment_length_coercion (Str x) =
    match Py.first_digit_run (Py.chars x) with
    | Some ds => Ok (float32_cell (Py.f64_of_Z (Py.digits_val ds)))
    | None => Ok NA
    end.
Proof.
  intros Hx. unfold employment_length_coercion, lt1_to_zero. simpl.
  destruct (String.eqb_spec x "< 1 year") as [->|_]; [done|]. simpl.
  unfold extract_digits.
  destruct (Py.first_digit_run (Py.chars x)) as [ds|] eqn:Hds; [|done].
  apply first_digit_run_Some in Hds as [Hne Hdec]. simpl.
  by rewrite float_digits.
Qed.

(** ** Employment length *)

(** C2. On the string ["< 1 year"] the code of [clean_employment_length]
    gives a missing value, not 0.0: the first statement replaces the
    string by the integer 0, and [.str.extract] gives a missing value for
    every entry that is not a string.  In a column that also holds
    ["3 years"] and ["10+ years"] the result is missing, 3.0, 10.0; a
    column in which every entry is ["< 1 year"] has no [.str] accessor
    after the first statement, and the stage raises. *)
Theorem lt_1_year_becomes_missing :
  lt1_to_zero (Str "< 1 year") = Int 0
  /\ str_map extract_digits (Int 0) = NA
  /\ employment_length_coercion (Str "< 1 year") = Ok NA
  /\ employment_length_coercion (Str "3 years") = Ok (Flt (f32_of_Z 3))
  /\ (exists out, clean_employment_length emp_frame = Ok out
        /\ col_values out "emp_length"
           = [NA; Flt (f32_of_Z 3); Flt (f32_of_Z 10); NA])
  /\ clean_employment_length emp_frame_all_lt1 = Raise AttributeError.
Proof.
  do 4 (split; [by vm_compute|]). split; [|by vm_compute].
  eexists. split; by vm_compute.
Qed.

(** On every table on which the stage returns, the rows whose employment
    length was ["< 1 year"] end up without a value. *)
Lemma clean_employment_length_lt1 df out :
  clean_employment_length df = Ok out ->
  Forall2 (fun r r' => cell_at r "emp_length" = Str "< 1 year" ->
                       cell_at r' "emp_length" = NA)
          (rows df) (rows out).
Proof.
  intros H. apply clean_employment_length_rows in H.
  eapply Forall2_impl; [exact H|]. simpl.
  intros r r' (v & Hv & _ & <- & _) Hr. rewrite Hr in Hv.
  by injection Hv.
Qed.

(** ** [float] and the grammar of numerals *)

Ltac ascii_split c :=
  destruct c as [[] [] [] [] [] [] [] []].

(** *** Spans of digits *)

Lemma span_split p l a b :
  Py.span p l = (a, b) ->
  l = a ++ b /\ Forall (fun c => p c = true) a
  /\ match b with [] => True | c :: _ => p c = false end.
Proof.
  revert a b. induction l as [|c l IH]; intros a b; simpl.
  - intros [= <- <-]. repeat split. constructor.
  - destruct (p c) eqn:Hc.
    + destruct (Py.span p l) as [a' b'] eqn:Hs. intros [= <- <-].
      destruct (IH _ _ eq_refl) as (-> & Ha & Hb).
      repeat split; [by constructor | done].
    + intros [= <- <-]. repeat split; [constructor | done].
Qed.

Lemma span_app p a b :
  Forall (fun c => p c = true) a ->
  match b with [] => True | c :: _ => p c = false end ->
  Py.span p (a ++ b) = (a, b).
Proof.
  intros Ha Hb. induction Ha as [|c a Hc _ IH]; simpl.
  - destruct b as [|c b]; simpl; [done|]. by rewrite Hb.
  - by rewrite Hc, IH.
Qed.

(** *** The sign *)

Lemma split_sign_cons c l :
  Py.split_sign (c :: l) =
    if Ascii.eqb c "-" then (true, l)
    else if Ascii.eqb c "+" then (false, l) else (false, c :: l).
Proof. ascii_split c; reflexivity. Qed.

Lemma split_sign_sound l neg r :
  Py.split_sign l = (neg, r) ->
  exists sg, l = sg ++ r /\ sign_text sg neg.
Proof.
  destruct l as [|c l].
  - intros [= <- <-]. exists []. split; [done|constructor].
  - rewrite split_sign_cons.
    destruct (Ascii.eqb_spec c "-") as [->|_].
    { intros [= <- <-]. exists ["-"%char]. split; [done|constructor]. }
    destruct (Ascii.eqb_spec c "+") as [->|_].
    { intros [= <- <-]. exists ["+"%char]. split; [done|constructor]. }
    intros [= <- <-]. exists []. split; [done|constructor].
Qed.

Lemma split_sign_complete sg neg t :
  sign_text sg neg ->
  match t with
  | [] => True
  | c :: _ => Ascii.eqb c "-" = false /\ Ascii.eqb c "+" = false
  end ->
  Py.split_sign (sg ++ t) = (neg, t).
Proof.
  intros [] Ht; simpl; try done.
  destruct t as [|c t]; [done|]. rewrite split_sign_cons.
  destruct Ht as [-> ->]. done.
Qed.

(** *** The exponent *)

Lemma is_e_spec c :
  Ascii.eqb (Py.lower_char c) "e" = true <-> c = "e"%char \/ c = "E"%char.
Proof.
  split.
  - ascii_split c; vm_compute; try discriminate; intros _; auto.
  - intros [->| ->]; reflexivity.
Qed.

Lemma forallb_digits l : forallb Py.isdecimal l = true <-> digits l.
Proof.
  unfold digits. rewrite forallb_forall, Forall_forall.
  split; intros H c Hc; apply H; by apply list_elem_of_In.
Qed.

Lemma digits_head_sign c l :
  digits (c :: l) -> Ascii.eqb c "-" = false /\ Ascii.eqb c "+" = false.
Proof.
  intros H. apply Forall_cons in H as [H _]. revert H. ascii_cases c; auto.
Qed.

Lemma parse_exponent_spec l e :
  Py.parse_exponent l = Some e <-> exponent_text l e.
Proof.
  split.
  - destruct l as [|c l]; simpl.
    + intros [= <-]. constructor.
    + destruct (Ascii.eqb (Py.lower_char c) "e") eqn:Hc; [|discriminate].
      apply is_e_spec in Hc.
      destruct (Py.split_sign l) as [neg ds] eqn:Hs.
      apply split_sign_sound in Hs as (sg & -> & Hsg).
      destruct ds as [|d ds]; [discriminate|].
      destruct (forallb Py.isdecimal (d :: ds)) eqn:Hd; [|discriminate].
      intros [= <-]. constructor; [done|done|done|by apply forallb_digits].
  - intros [|c sg neg ds Hc Hsg Hne Hds]; [done|]. simpl.
    apply is_e_spec in Hc. rewrite Hc.
    destruct ds as [|d ds]; [done|].
    rewrite (split_sign_complete _ _ _ Hsg) by (by eapply digits_head_sign).
    apply forallb_digits in Hds. by rewrite Hds.
Qed.

Lemma exponent_head c ex e :
  exponent_text (c :: ex) e ->
  Py.isdecimal c = false /\ Ascii.eqb c "." = false.
Proof.
  inversion 1 as [|c' sg neg ds [->| ->]]; subst; by vm_compute.
Qed.

(** *** The number *)

Lemma parse_number_unfold neg l :
  Py.parse_number neg l =
    let '(ip, r1) := Py.span Py.isdecimal l in
    let '(fp, r2) :=
      match r1 with
      | c :: r => if Ascii.eqb c "." then Py.span Py.isdecimal r else ([], r1)
      | [] => ([], r1)
      end in
    match ip ++ fp with
    | [] => None
    | ds =>
        e ← Py.parse_exponent r2;
        Some (Py.f64_of_decimal neg (Py.digits_val ds) (e - Z.of_nat (length fp)))
    end.
Proof.
  unfold Py.parse_number. destruct (Py.span Py.isdecimal l) as [ip r1].
  destruct r1 as [|c r]; [reflexivity|]. ascii_split c; reflexivity.
Qed.

Lemma parse_number_spec neg l f :
  Py.parse_number neg l = Some f <->
  exists t ip fp ex e,
    l = t ++ ex /\ number_text t ip fp /\ exponent_text ex e
    /\ f = Py.f64_of_decimal neg (Py.digits_val (ip ++ fp)) (e - Z.of_nat (length fp)).
Proof.
  rewrite parse_number_unfold. split.
  - destruct (Py.span Py.isdecimal l) as [ip r1] eqn:Hs.
    apply span_split in Hs as (-> & Hip & Hr1).
    destruct r1 as [|c r].
    + rewrite app_nil_r. destruct ip as [|d ip]; [discriminate|]. simpl.
      intros [= <-]. exists (d :: ip), (d :: ip), [], [], 0.
      rewrite !app_nil_r. repeat split; [by constructor | constructor].
    + destruct (Ascii.eqb_spec c ".") as [->|Hne].
      * destruct (Py.span Py.isdecimal r) as [fp r2] eqn:Hs2.
        apply span_split in Hs2 as (-> & Hfp & _).
        destruct (ip ++ fp) as [|d ds] eqn:Hds; [discriminate|].
        destruct (Py.parse_exponent r2) as [e|] eqn:He; [|discriminate].
        simpl. intros [= <-]. apply parse_exponent_spec in He.
        exists (ip ++ "."%char :: fp), ip, fp, r2, e.
        rewrite Hds. repeat split; try done.
        -- by rewrite <- app_assoc.
        -- constructor; [by rewrite Hds | done | done].
      * rewrite app_nil_r. destruct ip as [|d ip]; [discriminate|].
        destruct (Py.parse_exponent (c :: r)) as [e|] eqn:He; [|discriminate].
        simpl. intros [= <-]. apply parse_exponent_spec in He.
        exists (d :: ip), (d :: ip), [], (c :: r), e.
        rewrite !app_nil_r. repeat split; try done. by constructor.
  - intros (t & ip & fp & ex & e & -> & Ht & Hex & ->).
    assert (Hhead : match ex with
                    | [] => True
                    | c :: _ => Py.isdecimal c = false /\ Ascii.eqb c "." = false
                    end).
    { destruct ex as [|c ex]; [done|]. by eapply exponent_head. }
    apply parse_exponent_spec in Hex.
    destruct Ht as [ip Hne Hip | ip fp Hne Hip Hfp].
    + rewrite (span_app _ ip ex Hip) by (destruct ex; [done | apply Hhead]).
      destruct ex as [|c ex].
      * rewrite app_nil_r. destruct ip; [done|]. by rewrite Hex.
      * destruct Hhead as [_ ->]. rewrite app_nil_r.
        destruct ip; [done|]. by rewrite Hex.
    + rewrite <- app_assoc. simpl.
      rewrite (span_app _ ip ("."%char :: fp ++ ex) Hip) by done.
      change (Ascii.eqb "." ".") with true. cbv iota.
      rewrite (span_app _ fp ex Hfp) by (destruct ex; [done | apply Hhead]).
      destruct (ip ++ fp) eqn:Hd; [done|]. by rewrite Hex.
Qed.

(** *** Infinity and nan *)

Lemma str_eqb_chars l w :
  String.eqb (Py.str l) w = true <-> l = Py.chars w.
Proof.
  rewrite String.eqb_eq. unfold Py.str, Py.chars. split.
  - intros <-. by rewrite list_ascii_of_string_of_list_ascii.
  - intros ->. by rewrite string_of_list_ascii_of_string.
Qed.

Lemma str_eqb_chars_false l w :
  String.eqb (Py.str l) w = false <-> l <> Py.chars w.
Proof.
  rewrite <- str_eqb_chars. by destruct (String.eqb (Py.str l) w).
Qed.

Lemma number_head t ip fp ex :
  number_text t ip fp ->
  exists c l, t ++ ex = c :: l /\ (Py.isdecimal c = true \/ c = "."%char).
Proof.
  intros [ip' Hne Hip | ip' fp' Hne Hip Hfp].
  - destruct ip' as [|c ip']; [done|]. exists c, (ip' ++ ex). split; [done|].
    left. by apply Forall_cons in Hip as [? _].
  - destruct ip' as [|c ip'].
    + exists "."%char, (fp' ++ ex). split; [done | by right].
    + exists c, ((ip' ++ "."%char :: fp') ++ ex). split; [done|].
      left. by apply Forall_cons in Hip as [? _].
Qed.

Lemma number_char_plain c :
  Py.isdecimal c = true \/ c = "."%char ->
  Ascii.eqb c "-" = false /\ Ascii.eqb c "+" = false
  /\ Py.lower_char c <> "i"%char /\ Py.lower_char c <> "n"%char.
Proof.
  intros [H| ->]; [|by vm_compute].
  revert H. ascii_cases c; intros _; repeat split; discriminate.
Qed.

Lemma letters_head t w c k :
  map Py.lower_char t = c :: k ->
  w = c ->
  exists a l, t = a :: l /\ Py.lower_char a = w.
Proof.
  intros H ->. destruct t as [|a l]; [discriminate|].
  injection H as Ha _. by exists a, l.
Qed.

Lemma lower_not_sign a w :
  Py.lower_char a = w -> (w = "i"%char \/ w = "n"%char) ->
  Ascii.eqb a "-" = false /\ Ascii.eqb a "+" = false.
Proof.
  intros <- H. revert H. ascii_split a; vm_compute; intros [H|H];
    try discriminate H; auto.
Qed.

Lemma float_body_spec l f : Py.float_body l = Some f <-> float_value l f.
Proof.
  unfold Py.float_body. split.
  - destruct (Py.split_sign l) as [neg r] eqn:Hs.
    apply split_sign_sound in Hs as (sg & -> & Hsg).
    destruct (String.eqb (Py.str (map Py.lower_char r)) "inf") eqn:H1.
    { intros [= <-]. apply str_eqb_chars in H1.
      econstructor; [done|]. apply abs_infinity. by left. }
    destruct (String.eqb (Py.str (map Py.lower_char r)) "infinity") eqn:H2.
    { intros [= <-]. apply str_eqb_chars in H2.
      econstructor; [done|]. apply abs_infinity. by right. }
    destruct (String.eqb (Py.str (map Py.lower_char r)) "nan") eqn:H3.
    { intros [= <-]. apply str_eqb_chars in H3.
      econstructor; [done|]. by apply abs_nan. }
    simpl. intros H. apply parse_number_spec in H
      as (t & ip & fp & ex & e & -> & Ht & Hex & ->).
    econstructor; [done|]. by constructor.
  - intros [sg neg t f' Hsg Habs].
    destruct Habs as [t ip fp ex e Ht Hex | t Hinf | t Hnan].
    + destruct (number_head t ip fp ex Ht) as (c & l' & Hcl & Hc).
      destruct (number_char_plain c Hc) as (Hm & Hp & Hi & Hn).
      rewrite (split_sign_complete _ _ _ Hsg) by (by rewrite Hcl).
      assert (Hlow : forall w k, map Py.lower_char (t ++ ex) = w :: k ->
                                 w <> "i"%char /\ w <> "n"%char).
      { intros w k. rewrite Hcl. simpl. by intros [= <- _]. }
      rewrite (proj2 (str_eqb_chars_false _ "inf"))
        by (intros H; by destruct (Hlow _ _ H)).
      rewrite (proj2 (str_eqb_chars_false _ "infinity"))
        by (intros H; by destruct (Hlow _ _ H)).
      rewrite (proj2 (str_eqb_chars_false _ "nan"))
        by (intros H; by destruct (Hlow _ _ H)).
      simpl. apply parse_number_spec. by exists t, ip, fp, ex, e.
    + assert (Hhead : exists a l', t = a :: l' /\ Py.lower_char a = "i"%char).
      { destruct Hinf as [H|H]; by eapply letters_head. }
      destruct Hhead as (a & l' & -> & Ha).
      rewrite (split_sign_complete _ _ _ Hsg)
        by (eapply lower_not_sign; [exact Ha | by left]).
      destruct Hinf as [H|H]; rewrite H; reflexivity.
    + destruct (letters_head t "n"%char _ _ Hnan eq_refl) as (a & l' & -> & Ha).
      rewrite (split_sign_complete _ _ _ Hsg)
        by (eapply lower_not_sign; [exact Ha | by right]).
      rewrite Hnan. reflexivity.
Qed.

(** *** Underscores *)

Lemma underscore_match {X} (prev : option ascii) (A B : X) :
  match prev with Some "_"%char => A | _ => B end
  = if match prev with Some p => Ascii.eqb p "_" | None => false end then A else B.
Proof. destruct prev as [p|]; [|done]. ascii_split p; reflexivity. Qed.

Lemma drop_underscores_cons prev c l :
  Py.drop_underscores prev (c :: l) =
    if Ascii.eqb c "_" then
      match prev with
      | Some p => if Py.isdecimal p then Py.drop_underscores (Some c) l else None
      | None => None
      end
    else if match prev with Some p => Ascii.eqb p "_" | None => false end then
      if Py.isdecimal c then cons c <$> Py.drop_underscores (Some c) l else None
    else cons c <$> Py.drop_underscores (Some c) l.
Proof.
  simpl. destruct (Ascii.eqb c "_"); [done|]. apply underscore_match.
Qed.

Lemma drop_underscores_nil prev :
  Py.drop_underscores prev [] =
    if match prev with Some p => Ascii.eqb p "_" | None => false end
    then None else Some [].
Proof. simpl. apply underscore_match. Qed.

Definition not_underscore (prev : option ascii) : Prop :=
  match prev with Some p => Ascii.eqb p "_" = false | None => True end.

Lemma drop_underscores_complete l k :
  underscored l k ->
  forall prev, not_underscore prev -> Py.drop_underscores prev l = Some k.
Proof.
  induction 1 as [|c l k Hc _ IH|d d' l k Hd Hd' _ IH]; intros prev Hprev.
  - rewrite drop_underscores_nil. destruct prev as [p|]; [|done].
    simpl in Hprev. by rewrite Hprev.
  - rewrite drop_underscores_cons.
    destruct (Ascii.eqb_spec c "_") as [->|_]; [done|].
    assert (Hrec : Py.drop_underscores (Some c) l = Some k).
    { apply IH. simpl. by destruct (Ascii.eqb_spec c "_"). }
    rewrite Hrec. destruct prev as [p|]; [|done].
    simpl in Hprev. by rewrite Hprev.
  - pose proof (IH (Some d) (isdecimal_not_underscore _ Hd)) as H1.
    rewrite drop_underscores_cons, (isdecimal_not_underscore _ Hd') in H1.
    cbn [not_underscore] in H1. rewrite (isdecimal_not_underscore _ Hd) in H1.
    assert (H2 : Py.drop_underscores (Some d) ("_"%char :: d' :: l)
                 = Some (d' :: k)).
    { rewrite drop_underscores_cons. change (Ascii.eqb "_" "_") with true.
      cbv iota. rewrite Hd.
      rewrite drop_underscores_cons, (isdecimal_not_underscore _ Hd').
      change (Ascii.eqb "_" "_") with true. cbv iota. by rewrite Hd'. }
    rewrite drop_underscores_cons, (isdecimal_not_underscore _ Hd), H2.
    destruct prev as [p|]; simpl in *; [by rewrite Hprev | done].
Qed.

Lemma drop_underscores_sound l : forall p k,
  (Ascii.eqb p "_" = false -> Py.drop_underscores (Some p) l = Some k ->
   underscored (p :: l) (p :: k))
  /\ (Py.isdecimal p = true -> Py.drop_underscores (Some "_"%char) l = Some k ->
      underscored (p :: "_"%char :: l) (p :: k)).
Proof.
  induction l as [|c l IH]; intros p k.
  - split.
    + intros Hp. rewrite drop_underscores_nil. simpl. rewrite Hp.
      intros [= <-]. constructor; [|constructor].
      intros ->. discriminate.
    + intros _. rewrite drop_underscores_nil. discriminate.
  - split.
    + intros Hp. rewrite drop_underscores_cons. simpl. rewrite Hp.
      destruct (Ascii.eqb_spec c "_") as [->|Hc].
      * destruct (Py.isdecimal p) eqn:Hd; [|discriminate].
        intros H. by apply (proj2 (IH p k)).
      * destruct (Py.drop_underscores (Some c) l) as [k'|] eqn:Hk; [|discriminate].
        simpl. intros [= <-].
        constructor; [intros ->; discriminate|].
        apply (proj1 (IH c k')); [by destruct (Ascii.eqb_spec c "_") | done].
    + intros Hp. rewrite drop_underscores_cons. simpl.
      destruct (Ascii.eqb_spec c "_") as [->|Hc]; [done|].
      destruct (Py.isdecimal c) eqn:Hd; [|discriminate].
      destruct (Py.drop_underscores (Some c) l) as [k'|] eqn:Hk; [|discriminate].
      simpl. intros [= <-]. constructor; [done|done|].
      apply (proj1 (IH c k')); [by destruct (Ascii.eqb_spec c "_") | done].
Qed.

Lemma drop_underscores_spec l k :
  Py.drop_underscores None l = Some k <-> underscored l k.
Proof.
  split; [|intros H; by apply drop_underscores_complete].
  destruct l as [|c l].
  - simpl. intros [= <-]. constructor.
  - rewrite drop_underscores_cons.
    destruct (Ascii.eqb_spec c "_") as [->|Hc]; [done|].
    destruct (Py.drop_underscores (Some c) l) as [k'|] eqn:Hk; [|discriminate].
    simpl. intros [= <-].
    apply (proj1 (drop_underscores_sound l c k'));
      [by destruct (Ascii.eqb_spec c "_") | done].
Qed.

(** *** Whitespace *)

Definition no_space (l : list ascii) : Prop :=
  Forall (fun c => Py.isspace_float c = false) l.

Lemma lstrip_by_split p l :
  exists w, l = w ++ Py.lstrip_by p l /\ Forall (fun c => p c = true) w.
Proof.
  induction l as [|c l (w & Hw & Hp)]; simpl.
  - exists []. split; [done|constructor].
  - destruct (p c) eqn:Hc.
    + exists (c :: w). split; [by rewrite Hw at 1 | by constructor].
    + exists []. split; [done|constructor].
Qed.

Lemma rstrip_by_split p l :
  exists w, l = Py.rstrip_by p l ++ w /\ Forall (fun c => p c = true) w.
Proof.
  unfold Py.rstrip_by. destruct (lstrip_by_split p (rev l)) as (w & Hw & Hp).
  exists (rev w). split.
  - rewrite <- rev_app_distr, <- Hw. by rewrite rev_involutive.
  - apply Forall_forall. intros c Hc. rewrite Forall_forall in Hp. apply Hp.
    apply list_elem_of_In. apply list_elem_of_In, in_rev in Hc. done.
Qed.

Lemma lstrip_by_app_l p w l :
  Forall (fun c => p c = true) w -> Py.lstrip_by p (w ++ l) = Py.lstrip_by p l.
Proof. induction 1 as [|c w Hc _ IH]; simpl; [done|]. by rewrite Hc. Qed.

Lemma lstrip_by_all p w : Forall (fun c => p c = true) w -> Py.lstrip_by p w = [].
Proof.
  intros H. rewrite <- (app_nil_r w). by rewrite lstrip_by_app_l.
Qed.

Lemma lstrip_by_stop p l :
  match l with [] => True | c :: _ => p c = false end -> Py.lstrip_by p l = l.
Proof. destruct l as [|c l]; simpl; [done|]. by intros ->. Qed.

Lemma strip_text (p : ascii -> bool) ws1 body ws2 :
  Forall (fun c => p c = true) ws1 -> Forall (fun c => p c = true) ws2 ->
  Forall (fun c => p c = false) body ->
  Py.rstrip_by p (Py.lstrip_by p (ws1 ++ body ++ ws2)) = body.
Proof.
  intros H1 H2 Hb. rewrite lstrip_by_app_l by done.
  destruct body as [|c body].
  - simpl. rewrite lstrip_by_all by done. done.
  - rewrite lstrip_by_stop by (by apply Forall_cons in Hb as [? _]).
    unfold Py.rstrip_by. rewrite rev_app_distr.
    rewrite lstrip_by_app_l.
    + rewrite lstrip_by_stop; [apply rev_involutive|].
      destruct (rev (c :: body)) as [|x l] eqn:Hr; [done|].
      rewrite Forall_forall in Hb. apply Hb.
      apply list_elem_of_In, in_rev. rewrite Hr. by left.
    + apply Forall_forall. intros x Hx. rewrite Forall_forall in H2. apply H2.
      apply list_elem_of_In. apply list_elem_of_In, in_rev in Hx. done.
Qed.

Lemma lower_space c : Py.isspace_float (Py.lower_char c) = Py.isspace_float c.
Proof. ascii_cases c. Qed.

Lemma letters_no_space t w :
  map Py.lower_char t = Py.chars w -> no_space (Py.chars w) -> no_space t.
Proof.
  generalize (Py.chars w). intros k. revert k.
  induction t as [|a t IH]; intros k H Hk; [constructor|].
  destruct k as [|b k]; [discriminate|]. injection H as Ha Ht.
  apply Forall_cons in Hk as [Hb Hk]. constructor; [|by eapply IH].
  by rewrite <- lower_space, Ha.
Qed.

Lemma digits_no_space l : digits l -> no_space l.
Proof.
  intros H. eapply Forall_impl; [exact H|]. apply isdecimal_not_space.
Qed.

Lemma sign_no_space sg neg : sign_text sg neg -> no_space sg.
Proof. intros []; repeat constructor. Qed.

Lemma float_value_no_space l f : float_value l f -> no_space l.
Proof.
  intros [sg neg t f' Hsg Habs]. apply Forall_app. split; [by eapply sign_no_space|].
  destruct Habs as [t ip fp ex e Ht Hex | t Hinf | t Hnan].
  - apply Forall_app. split.
    + destruct Ht as [ip Hne Hip | ip fp Hne Hip Hfp]; [by apply digits_no_space|].
      apply Forall_app. split; [by apply digits_no_space|].
      constructor; [done | by apply digits_no_space].
    + destruct Hex as [|c sg' neg' ds Hc Hsg' Hne Hds]; [constructor|].
      constructor; [by destruct Hc as [->| ->]|].
      apply Forall_app. split; [by eapply sign_no_space | by apply digits_no_space].
  - destruct Hinf as [H|H]; (eapply letters_no_space; [exact H|]);
      repeat constructor.
  - eapply letters_no_space; [exact Hnan|]. repeat constructor.
Qed.

Lemma underscored_no_space l k : underscored l k -> no_space k -> no_space l.
Proof.
  induction 1 as [|c l k Hc _ IH|d d' l k Hd Hd' _ IH]; intros Hk.
  - constructor.
  - apply Forall_cons in Hk as [Hc' Hk]. constructor; [done | by apply IH].
  - apply Forall_cons in Hk as [H1 Hk]. constructor; [done|].
    constructor; [done | by apply IH].
Qed.

(** [float] accepts exactly the numerals of the grammar, with their
    values. *)
Lemma float_spec s f : Py.float s = Some f <-> float_text s f.
Proof.
  unfold Py.float, float_text. split.
  - set (body := Py.rstrip_by _ _).
    destruct (Py.drop_underscores None body) as [l|] eqn:Hl; [|discriminate].
    simpl. intros H.
    assert (Hv : float_value l f) by (apply float_body_spec; exact H).
    destruct (lstrip_by_split Py.isspace_float (Py.chars s)) as (w1 & H1 & Hw1).
    destruct (rstrip_by_split Py.isspace_float
                (Py.lstrip_by Py.isspace_float (Py.chars s))) as (w2 & H2 & Hw2).
    exists w1, body, l, w2. split; [|split; [done|split; [done|split; [|done]]]].
    + rewrite H1 at 1. by rewrite H2 at 1.
    + by apply drop_underscores_spec.
  - intros (ws1 & body & text & ws2 & Hs & H1 & H2 & Hu & Hv).
    rewrite Hs. rewrite strip_text; [|done|done|].
    + apply drop_underscores_spec in Hu. rewrite Hu. simpl.
      by apply float_body_spec.
    + eapply underscored_no_space; [exact Hu|]. by eapply float_value_no_space.
Qed.

(** ** Interest rates *)

Lemma rate_coercion_Str x :
  rate_coercion (Str x) =
    match Py.float (Py.rstrip "%" x) with
    | Some f => Ok (float32_cell f)
    | None => Raise ValueError
    end.
Proof. reflexivity. Qed.

Lemma rate_coercion_Raise c e : rate_coercion c = Raise e -> e = ValueError.
Proof.
  unfold rate_coercion. destruct c as [|x| | | |]; simpl; try discriminate.
  destruct (Py.float _); try discriminate. by intros [= <-].
Qed.

(** A numeric rest is parsed: the cell holds the binary32 number of the
    value the numeral denotes. *)
Lemma rate_coercion_numeric x f :
  float_text (Py.rstrip "%" x) f -> rate_coercion (Str x) = Ok (float32_cell f).
Proof. intros H. apply float_spec in H. by rewrite rate_coercion_Str, H. Qed.

Lemma rate_coercion_Ok x v :
  rate_coercion (Str x) = Ok v ->
  exists f, float_text (Py.rstrip "%" x) f /\ v = float32_cell f.
Proof.
  rewrite rate_coercion_Str. destruct (Py.float _) as [f|] eqn:Hf; [|discriminate].
  intros [= <-]. exists f. split; [by apply float_spec | done].
Qed.

Lemma rate_coercion_not_numeric x :
  ~ numeric (Py.rstrip "%" x) -> rate_coercion (Str x) = Raise ValueError.
Proof.
  intros H. rewrite rate_coercion_Str.
  destruct (Py.float _) as [f|] eqn:Hf; [|done].
  exfalso. apply H. exists f. by apply float_spec.
Qed.

(** The stage on one column that has the [.str] accessor. *)
Lemma fix_rate_col_strings df col s :
  getitem df col = Ok s -> dtype_of s = object -> holds_strings (values s) = true ->
  fix_rate_col df col =
    (ws ← mapM rate_coercion (col_values df col);
     setitem df col {| dtype_of := float32; values := ws |}).
Proof.
  intros Hs Hdt Hh. unfold fix_rate_col. rewrite Hs. simpl.
  unfold str_rstrip, str_accessor. rewrite Hdt, Hh. simpl.
  unfold astype_float32. simpl.
  apply getitem_Ok in Hs as [_ ->].
  assert (forall l, mapM to_float32 (map (str_map (fun x => Str (Py.rstrip "%" x))) l)
                    = mapM rate_coercion l) as ->.
  { induction l as [|c l IH]; simpl; [done|]. by rewrite IH. }
  by destruct (mapM rate_coercion (col_values df col)).
Qed.

(** On a column without the accessor nothing is parsed. *)
Lemma fix_rate_col_refused df col s :
  getitem df col = Ok s ->
  dtype_of s <> object \/ holds_strings (values s) = false ->
  fix_rate_col df col = Raise AttributeError.
Proof.
  intros Hs Hno. unfold fix_rate_col. rewrite Hs. simpl.
  unfold str_rstrip, str_accessor.
  destruct (dtype_of s); try done.
  destruct Hno as [Hno| ->]; done.
Qed.

Lemma fix_rate_col_error df col s e :
  getitem df col = Ok s -> dtype_of s = object -> holds_strings (values s) = true ->
  fix_rate_col df col = Raise e -> e = ValueError.
Proof.
  intros Hs Hdt Hh. rewrite (fix_rate_col_strings _ _ _ Hs Hdt Hh).
  destruct (mapM rate_coercion (col_values df col)) as [ws|e'] eqn:Hm; simpl.
  - rewrite setitem_same_length; [discriminate|]. simpl.
    rewrite (mapM_length _ _ _ Hm). unfold col_values. by rewrite length_map.
  - intros [= ->]. apply mapM_Raise in Hm as (c & _ & Hc).
    by eapply rate_coercion_Raise.
Qed.

Lemma fix_rate_col_raises df col s x :
  getitem df col = Ok s -> dtype_of s = object -> holds_strings (values s) = true ->
  Str x ∈ col_values df col -> ~ numeric (Py.rstrip "%" x) ->
  fix_rate_col df col = Raise ValueError.
Proof.
  intros Hs Hdt Hh Hx Hf.
  destruct (fix_rate_col df col) as [out|e] eqn:H.
  - rewrite (fix_rate_col_strings _ _ _ Hs Hdt Hh) in H.
    bind_inv H as ws Hws.
    destruct (mapM_some_Raise rate_coercion _ _ ValueError Hx) as [e' He'].
    + by apply rate_coercion_not_numeric.
    + congruence.
  - f_equal. by eapply fix_rate_col_error.
Qed.

Lemma col_values_zip_with_ne col col' (vs : list cell) : forall rs : list Row,
  col <> col' -> length vs = length rs ->
  map (fun r => cell_at r col') (zip_with (set_cell col) vs rs)
  = map (fun r => cell_at r col') rs.
Proof.
  induction vs as [|v vs IH]; intros [|r rs] Hne Hlen; simpl in *; try done.
  rewrite cell_at_set_cell_ne by done. f_equal. apply IH; [done|]. by injection Hlen.
Qed.

Lemma getitem_setitem_ne df col col' s out t :
  col <> col' -> setitem df col s = Ok out ->
  lookup_col col' (columns df) = Some t ->
  getitem out col' = Ok {| dtype_of := t; values := col_values df col' |}.
Proof.
  intros Hne H Ht. apply setitem_Ok in H as (Hlen & Hc & Hr).
  unfold getitem. rewrite Hc, lookup_col_set_dtype_ne, Ht, Hr by done.
  unfold col_values. by rewrite col_values_zip_with_ne.
Qed.

Lemma fix_rate_cols_raises df col x :
  lookup_col "int_rate" (columns df) = Some object ->
  lookup_col "revol_util" (columns df) = Some object ->
  holds_strings (col_values df "int_rate") = true ->
  holds_strings (col_values df "revol_util") = true ->
  col ∈ rate_cols -> Str x ∈ col_values df col ->
  ~ numeric (Py.rstrip "%" x) ->
  fix_rate_cols df = Raise ValueError.
Proof.
  intros H1 H2 Hh1 Hh2 Hcol Hx Hf.
  assert (Hg1 : getitem df "int_rate"
                = Ok {| dtype_of := object; values := col_values df "int_rate" |})
    by (unfold getitem; by rewrite H1).
  unfold fix_rate_cols, rate_cols. simpl.
  destruct (fix_rate_col df "int_rate") as [df1|e] eqn:Hstep1; simpl.
  - pose proof Hstep1 as Hset.
    rewrite (fix_rate_col_strings _ _ _ Hg1 eq_refl Hh1) in Hset.
    bind_inv Hset as ws Hws.
    assert (Hne : "int_rate" <> "revol_util") by discriminate.
    pose proof (getitem_setitem_ne _ _ _ _ _ _ Hne Hset H2) as Hg2.
    assert (Hx2 : Str x ∈ col_values df "revol_util").
    { unfold rate_cols in Hcol.
      apply elem_of_cons in Hcol as [->|Hcol].
      - exfalso. destruct (mapM_some_Raise rate_coercion _ _ ValueError Hx) as [e' He'];
          [by apply rate_coercion_not_numeric | congruence].
      - apply elem_of_cons in Hcol as [->|Hcol]; [done|]. by apply elem_of_nil in Hcol. }
    assert (Hx3 : Str x ∈ col_values df1 "revol_util").
    { apply getitem_Ok in Hg2 as [_ Hv]. simpl in Hv. by rewrite <- Hv. }
    by rewrite (fix_rate_col_raises _ _ _ _ Hg2 eq_refl Hh2 Hx3 Hf).
  - f_equal. by eapply (fix_rate_col_error _ _ _ _ Hg1).
Qed.

Lemma fix_rate_cols_refused df t :
  lookup_col "int_rate" (columns df) = Some t ->
  t <> object \/ holds_strings (col_values df "int_rate") = false ->
  fix_rate_cols df = Raise AttributeError.
Proof.
  intros Ht Hno.
  assert (Hg : getitem df "int_rate"
               = Ok {| dtype_of := t; values := col_values df "int_rate" |})
    by (unfold getitem; by rewrite Ht).
  unfold fix_rate_cols, rate_cols. cbn [for_each].
  by rewrite (fix_rate_col_refused _ _ _ Hg Hno).
Qed.

(** C8. A rate cell is stripped of its trailing percent signs and the
    rest is parsed as a float and cast to 32 bits.  ["16.37%"] gives the
    binary32 number 8582595 * 2^-19, the one nearest to 16.37.  The rest
    is numeric when it is a numeral of the grammar of [float]: an
    optional sign, digits with an optional point and exponent, or an
    infinity or a nan, with whitespace around it.  A numeric rest gives
    the number the numeral denotes, and a cell that gets a value had a
    numeric rest; when the rest is not numeric no value is produced: the
    cell, and on columns of strings [fix_rate_cols], raise [ValueError].
    On a rate column that pandas gives no [.str] accessor (it is not an
    [object] column, or holds numbers only) nothing is parsed and the
    stage raises [AttributeError].  When [fix_rate_cols] returns, each
    rate cell holds the coercion of the cell it had. *)
Theorem rate_coercion_parses_or_raises :
  rate_coercion (Str "16.37%") = Ok (Flt (S754_finite false 8582595 (-19)))
  /\ f32_nearest (S754_finite false 8582595 (-19)) 1637 100
  /\ Py.rstrip "%" "16.37%" = "16.37"
  /\ (forall x f, float_text (Py.rstrip "%" x) f ->
        rate_coercion (Str x) = Ok (float32_cell f))
  /\ (forall x v, rate_coercion (Str x) = Ok v ->
        exists f, float_text (Py.rstrip "%" x) f /\ v = float32_cell f)
  /\ (forall x, ~ numeric (Py.rstrip "%" x) ->
        rate_coercion (Str x) = Raise ValueError)
  /\ (forall df col x,
        lookup_col "int_rate" (columns df) = Some object ->
        lookup_col "revol_util" (columns df) = Some object ->
        holds_strings (col_values df "int_rate") = true ->
        holds_strings (col_values df "revol_util") = true ->
        col ∈ rate_cols -> Str x ∈ col_values df col ->
        ~ numeric (Py.rstrip "%" x) ->
        fix_rate_cols df = Raise ValueError)
  /\ (forall df t,
        lookup_col "int_rate" (columns df) = Some t ->
        t <> object \/ holds_strings (col_values df "int_rate") = false ->
        fix_rate_cols df = Raise AttributeError)
  /\ (forall df out, fix_rate_cols df = Ok out ->
        Forall2 (fun r r' => forall col, col ∈ rate_cols ->
                   rate_coercion (cell_at r col) = Ok (cell_at r' col))
                (rows df) (rows out)).
Proof.
  split; [by vm_compute|].
  split; [by vm_compute|].
  split; [by vm_compute|].
  split; [exact rate_coercion_numeric|].
  split; [exact rate_coercion_Ok|].
  split; [exact rate_coercion_not_numeric|].
  split; [exact fix_rate_cols_raises|].
  split; [exact fix_rate_cols_refused|].
  intros df out H. apply fix_rate_cols_rows in H.
  eapply Forall2_impl; [exact H|]. simpl. intros r r' (_ & Hr & _). exact Hr.
Qed.

(** A string on which [float] fails is not numeric. *)
Lemma not_numeric s : Py.float s = None -> ~ numeric s.
Proof. intros H [f Hf]. apply float_spec in Hf. congruence. Qed.

Lemma rate_coercion_parses_or_raises_witness :
  rate_coercion (Str "unknown%") = Raise ValueError
  /\ rate_coercion (Str " 7.9e0 %%") = Ok (Flt (S754_finite false 16567501 (-21)))
  /\ fix_rate_cols rate_frame_bad = Raise ValueError
  /\ fix_rate_cols rate_frame_numbers = Raise AttributeError
  /\ exists out, fix_rate_cols rate_frame = Ok out
       /\ col_values out "int_rate"
          = [Flt (S754_finite false 8582595 (-19));
             Flt (S754_finite false 16567501 (-21))].
Proof.
  destruct rate_coercion_parses_or_raises
    as (_ & _ & _ & Hnum & _ & Hcell & Hstage & Hrefused & Hrows).
  split; [apply Hcell, not_numeric; by vm_compute|].
  split.
  { assert (Ht : float_text (Py.rstrip "%" " 7.9e0 %%")
                   (Py.f64_of_decimal false 79 (0 - 1))).
    { exists [" "%char], (Py.chars "7.9e0"), (Py.chars "7.9e0"), [" "%char].
      split; [by vm_compute|]. split; [by repeat constructor|].
      split; [by repeat constructor|]. split; [by repeat constructor|].
      apply (float_value_intro [] false (Py.chars "7.9e0")); [constructor|].
      apply (abs_number false (Py.chars "7.9") (Py.chars "7") (Py.chars "9")
               (Py.chars "e0") 0).
      - apply (number_point (Py.chars "7") (Py.chars "9"));
          [done | by repeat constructor | by repeat constructor].
      - apply (exponent_present "e" [] false (Py.chars "0"));
          [by left | constructor | done | by repeat constructor]. }
    rewrite (Hnum _ _ Ht). by vm_compute. }
  split.
  - apply (Hstage rate_frame_bad "revol_util" "unknown%"); try by vm_compute.
    + vm_compute. right. by left.
    + vm_compute. right. by left.
    + apply not_numeric. by vm_compute.
  - split; [apply (Hrefused rate_frame_numbers object); [by vm_compute | by right]|].
    eexists. split; by vm_compute.
Defined.

(** ** The date stage *)

Lemma Forall2_member_l {A B} (R : A -> B -> Prop) (l : list A) (k : list B) (x : A) :
  Forall2 R l k -> x ∈ l -> exists y, y ∈ k /\ R x y.
Proof.
  induction 1 as [|x' y l k Hxy _ IH]; intros Hx.
  - by apply elem_of_nil in Hx.
  - apply elem_of_cons in Hx as [->|Hx].
    + exists y. split; [by left | done].
    + destruct (IH Hx) as (y' & ? & ?). exists y'. split; [by right | done].
Qed.

Ltac not_in_list :=
  let H := fresh in
  intros H; repeat (apply elem_of_cons in H as [H|H]; [discriminate H|]);
  by apply elem_of_nil in H.

Lemma fix_date_cols_rows df out :
  fix_date_cols df = Ok out ->
  Forall2 dates_coerced (List.filter dates_present (rows df)) (rows out).
Proof.
  unfold fix_date_cols. intros H.
  bind_inv H as d1 H1. bind_inv H as d2 H2. bind_inv H as d3 H3.
  bind_inv H as d4 H4.
  apply dropna_rows in H1 as [_ H1], H4 as [_ H4].
  apply map_col_rows in H2, H3, H.
  pose proof (Forall2_compose _ _ _ _ _ H2 H3) as H23.
  eapply (Forall2_filter _ (fun r => negb (isna (cell_at r "last_pymnt_d")))
            (fun r => negb (isna (cell_at r "last_pymnt_d")))) in H23.
  2:{ simpl. intros r r3 (r2 & (v & _ & ->) & (w & _ & ->)).
      by rewrite !cell_at_set_cell_ne. }
  rewrite <- H4, H1, filter_filter_andb in H23.
  pose proof (Forall2_compose _ _ _ _ _ H23 H) as H5.
  eapply Forall2_impl; [exact H5|]. simpl.
  intros r r' (r3 & (r2 & (v & Hv & ->) & (w & Hw & ->)) & (u & Hu & ->)).
  rewrite cell_at_set_cell_ne in Hw by done.
  rewrite !cell_at_set_cell_ne in Hu by done.
  split; [done|split].
  - intros col Hcol. unfold date_cols in Hcol.
    repeat (apply elem_of_cons in Hcol as [->|Hcol]).
    + rewrite !cell_at_set_cell_ne by done. by rewrite cell_at_set_cell_eq.
    + rewrite cell_at_set_cell_ne by done. by rewrite cell_at_set_cell_eq.
    + by rewrite cell_at_set_cell_eq.
    + by apply elem_of_nil in Hcol.
  - intros col Hcol. unfold date_cols in Hcol.
    apply not_elem_of_cons in Hcol as [Hn1 Hcol].
    apply not_elem_of_cons in Hcol as [Hn2 Hcol].
    apply not_elem_of_cons in Hcol as [Hn3 _].
    by rewrite !cell_at_set_cell_ne.
Qed.

(** The coercion of [earliest_cr_line] runs on every row that has an issue
    date, whatever its last payment date. *)
Lemma fix_date_cols_coerces_credit_line df out :
  fix_date_cols df = Ok out ->
  forall r, r ∈ rows df -> cell_at r "issue_d" <> NA ->
  exists v, convert_date (cell_at r "earliest_cr_line") = Ok v.
Proof.
  unfold fix_date_cols. intros H r Hr Hna.
  bind_inv H as d1 H1. bind_inv H as d2 H2. bind_inv H as d3 H3.
  apply dropna_rows in H1 as [_ H1].
  apply map_col_rows in H2, H3.
  assert (Hr1 : r ∈ rows d1).
  { rewrite H1. apply elem_of_List_filter. split; [done|].
    by destruct (cell_at r "issue_d"). }
  destruct (Forall2_member_l _ _ _ _ H2 Hr1) as (r2 & Hr2 & v & _ & ->).
  destruct (Forall2_member_l _ _ _ _ H3 Hr2) as (r3 & _ & w & Hw & _).
  rewrite cell_at_set_cell_ne in Hw by done. eauto.
Qed.

Lemma dropna_total df col :
  col ∈ col_names df ->
  dropna df col =
    Ok {| columns := columns df;
          rows := List.filter (fun r => negb (isna (cell_at r col))) (rows df) |}.
Proof.
  intros Hcol. destruct (getitem_member _ _ Hcol) as [t Ht].
  unfold dropna. rewrite Ht. simpl. unfold take_rows. do 2 f_equal. simpl.
  unfold col_values. rewrite map_map. apply select_map.
Qed.

Lemma map_col_total df col f :
  col ∈ col_names df ->
  (forall r, r ∈ rows df -> exists v, f (cell_at r col) = Ok v) ->
  exists out, map_col df col f = Ok out /\ col_names out = col_names df.
Proof.
  intros Hcol Hf. destruct (getitem_member _ _ Hcol) as [t Ht].
  unfold map_col. rewrite Ht. simpl. unfold series_map. simpl.
  destruct (mapM_total f (col_values df col)) as [vs Hvs].
  { unfold col_values. apply Forall_fmap, Forall_forall. intros r Hr. by apply Hf. }
  rewrite Hvs. simpl.
  rewrite setitem_same_length.
  - eexists. split; [done|]. unfold col_names. simpl. by apply names_set_dtype.
  - simpl. rewrite (mapM_length _ _ _ Hvs). unfold col_values. by rewrite length_map.
Qed.

(** The date stage returns when the three columns exist and, on every row
    with an issue date, [issue_d] and [earliest_cr_line] can be coerced
    and so can [last_pymnt_d] where it is present. *)
Lemma fix_date_cols_total df :
  (forall col, col ∈ date_cols -> col ∈ col_names df) ->
  (forall r, r ∈ rows df -> cell_at r "issue_d" <> NA ->
     (exists v, convert_date (cell_at r "issue_d") = Ok v)
     /\ (exists v, convert_date (cell_at r "earliest_cr_line") = Ok v)
     /\ (cell_at r "last_pymnt_d" <> NA ->
           exists v, convert_date (cell_at r "last_pymnt_d") = Ok v)) ->
  exists out, fix_date_cols df = Ok out.
Proof.
  intros Hcols Hrows. unfold fix_date_cols.
  assert (Hc1 : "issue_d" ∈ col_names df) by (apply Hcols; by left).
  assert (Hc2 : "earliest_cr_line" ∈ col_names df)
    by (apply Hcols; right; by left).
  assert (Hc3 : "last_pymnt_d" ∈ col_names df)
    by (apply Hcols; right; right; by left).
  rewrite dropna_total by done. simpl.
  set (d1 := {| columns := columns df;
                rows := List.filter (fun r => negb (isna (cell_at r "issue_d")))
                          (rows df) |}).
  assert (Hd1 : forall r, r ∈ rows d1 -> r ∈ rows df /\ cell_at r "issue_d" <> NA).
  { intros r Hr. apply elem_of_List_filter in Hr as [Hr Hna].
    split; [done|]. by destruct (cell_at r "issue_d"). }
  destruct (map_col_total d1 "issue_d" convert_date) as (d2 & H2 & Hn2); [done| |].
  { intros r Hr. destruct (Hd1 r Hr) as [Hin Hna]. by apply Hrows. }
  rewrite H2. simpl. apply map_col_rows in H2.
  destruct (map_col_total d2 "earliest_cr_line" convert_date) as (d3 & H3 & Hn3).
  { by rewrite Hn2. }
  { intros r2 Hr2.
    destruct (Forall2_member_r _ _ _ _ H2 Hr2) as (r & Hr & v & _ & ->).
    rewrite cell_at_set_cell_ne by done.
    destruct (Hd1 r Hr) as [Hin Hna]. by apply Hrows. }
  rewrite H3. simpl. apply map_col_rows in H3.
  rewrite dropna_total by (by rewrite Hn3, Hn2). simpl.
  match goal with
  | |- context [map_col ?d "last_pymnt_d" _] =>
      destruct (map_col_total d "last_pymnt_d" convert_date) as (out & Hout & _)
  end.
  { unfold col_names. simpl. fold (col_names d3). by rewrite Hn3, Hn2. }
  { simpl. intros r4 Hr4. apply elem_of_List_filter in Hr4 as [Hr3 Hna].
    destruct (Forall2_member_r _ _ _ _ H3 Hr3) as (r2 & Hr2 & w & _ & ->).
    destruct (Forall2_member_r _ _ _ _ H2 Hr2) as (r & Hr & v & _ & ->).
    rewrite !cell_at_set_cell_ne in Hna |- * by done.
    destruct (Hd1 r Hr) as [Hin Hna1].
    apply Hrows; [done|done|]. by destruct (cell_at r "last_pymnt_d"). }
  by exists out.
Qed.

(** C3 (as the code has it). When the date stage returns, its rows are
    the rows of the table whose [issue_d] and [last_pymnt_d] are both
    present, in their order, with the three date columns coerced and
    everything else untouched; [earliest_cr_line] plays no part in the
    selection.  Rows without [issue_d] go before any coercion; rows
    without [last_pymnt_d] go after [issue_d] and [earliest_cr_line] have
    been coerced, so the coercion of [earliest_cr_line] has run, and
    succeeded, on every row with an issue date.  The stage returns
    whenever the three columns exist and these coercions succeed. *)
Theorem fix_date_cols_drops_and_coerces (df : DataFrame) :
  (forall out, fix_date_cols df = Ok out ->
     Forall2 dates_coerced (List.filter dates_present (rows df)) (rows out)
     /\ (forall r, r ∈ rows df -> cell_at r "issue_d" <> NA ->
           exists v, convert_date (cell_at r "earliest_cr_line") = Ok v))
  /\ ((forall col, col ∈ date_cols -> col ∈ col_names df) ->
      (forall r, r ∈ rows df -> cell_at r "issue_d" <> NA ->
         (exists v, convert_date (cell_at r "issue_d") = Ok v)
         /\ (exists v, convert_date (cell_at r "earliest_cr_line") = Ok v)
         /\ (cell_at r "last_pymnt_d" <> NA ->
               exists v, convert_date (cell_at r "last_pymnt_d") = Ok v)) ->
      exists out, fix_date_cols df = Ok out).
Proof.
  split.
  - intros out H. split.
    + by apply fix_date_cols_rows.
    + by eapply fix_date_cols_coerces_credit_line.
  - apply fix_date_cols_total.
Qed.

Lemma fix_date_cols_drops_and_coerces_witness :
  exists out, fix_date_cols raw_dates = Ok out
    /\ Forall2 dates_coerced (List.filter dates_present (rows raw_dates)) (rows out)
    /\ map label (rows out) = [Int 0].
Proof.
  assert (exists out, fix_date_cols raw_dates = Ok out /\ map label (rows out) = [Int 0])
    as (out & Hout & Hl) by (eexists; split; by vm_compute).
  exists out. split; [exact Hout|].
  split; [|exact Hl].
  exact (proj1 (proj1 (fix_date_cols_drops_and_coerces raw_dates) out Hout)).
Defined.

(** C3 (as stated) fails: with both row drops ahead of the coercions, a
    loan without payment and without a known earliest credit line is
    dropped; the code coerces [earliest_cr_line] before it drops the rows
    without [last_pymnt_d], and raises on that loan. *)
Lemma fix_date_cols_coerces_before_second_drop :
  fix_date_cols raw_no_payment = Raise TypeError
  /\ (exists out, fix_date_cols_drops_first raw_no_payment = Ok out /\ rows out = [])
  /\ ~ (forall df, fix_date_cols df = fix_date_cols_drops_first df).
Proof.
  split; [by vm_compute|]. split; [eexists; split; by vm_compute|].
  intros H. specialize (H raw_no_payment). revert H. by vm_compute.
Qed.

(** ** The index *)

(** The pipeline is [prepare_table] followed by the indexing statement. *)
Lemma pipeline_prepare_then_index fe df :
  clean_and_prepare_raw_data_for_model fe df
  = (final ← prepare_table fe df; set_index final "id" false).
Proof.
  unfold clean_and_prepare_raw_data_for_model, prepare_table.
  repeat first
    [ reflexivity
    | match goal with |- (?m ≫= _) = _ => destruct m; simpl end ].
Qed.

Lemma set_index_unchecked df key :
  key ∈ col_names df ->
  exists out, set_index df key false = Ok out
    /\ map label (rows out) = col_values df key
    /\ columns out = del_col key (columns df).
Proof.
  intros Hkey. destruct (getitem_member _ _ Hkey) as [t Ht].
  unfold set_index. rewrite Ht. simpl. eexists. split; [done|]. simpl.
  split; [|done]. unfold col_values. by rewrite map_map.
Qed.

Lemma set_index_missing df key vi :
  key ∉ col_names df -> set_index df key vi = Raise KeyError.
Proof.
  intros Hkey. unfold set_index, getitem.
  destruct (lookup_col key (columns df)) eqn:Hl; [|done].
  apply lookup_col_Some in Hl. done.
Qed.

(** C4 (as the code has it). [id] becomes the index without any check for
    duplicates.  Whenever the stages before it return a table with an
    [id] column the pipeline returns; the labels of its result are the
    [id]s of that table, row by row, so they are free of duplicates
    exactly when the [id] column was.  The only error of the indexing
    statement is the [KeyError] of a table without [id] column. *)
Theorem pipeline_indexes_by_id_unchecked (fe : feature_engineering)
  (df final : DataFrame) :
  prepare_table fe df = Ok final ->
  ("id" ∈ col_names final ->
     exists out, clean_and_prepare_raw_data_for_model fe df = Ok out
       /\ map label (rows out) = col_values final "id"
       /\ length (rows out) = length (rows final)
       /\ (NoDup (map label (rows out)) <-> NoDup (col_values final "id")))
  /\ ("id" ∉ col_names final ->
        clean_and_prepare_raw_data_for_model fe df = Raise KeyError).
Proof.
  intros H. rewrite pipeline_prepare_then_index, H. simpl. split.
  - intros Hid. destruct (set_index_unchecked _ _ Hid) as (out & Hout & Hl & _).
    exists out. split; [done|split; [done|split]].
    + apply (f_equal length) in Hl. unfold col_values in Hl.
      by rewrite !length_map in Hl.
    + by rewrite Hl.
  - apply set_index_missing.
Qed.

Lemma pipeline_indexes_by_id_unchecked_witness :
  exists final out,
    prepare_table plain_features raw_five_loans = Ok final
    /\ clean_and_prepare_raw_data_for_model plain_features raw_five_loans = Ok out
    /\ map label (rows out) = [Int 1002; Int 1001]
    /\ NoDup (map label (rows out)).
Proof.
  assert (exists final, prepare_table plain_features raw_five_loans = Ok final
                        /\ col_values final "id" = [Int 1002; Int 1001]
                        /\ "id" ∈ col_names final)
    as (final & Hfinal & Hids & Hcol).
  { eexists. split; [by vm_compute|]. split; [by vm_compute|].
    vm_compute. repeat constructor. }
  destruct (proj1 (pipeline_indexes_by_id_unchecked _ _ _ Hfinal) Hcol)
    as (out & Hout & Hl & _ & Hnd).
  exists final, out. split; [exact Hfinal|]. split; [exact Hout|].
  split; [by rewrite Hl|].
  apply Hnd. rewrite Hids.
  apply NoDup_cons. split.
  - intros Hin. apply elem_of_cons in Hin as [Hin|Hin]; [discriminate Hin|].
    by apply elem_of_nil in Hin.
  - apply NoDup_cons. split; [apply not_elem_of_nil | apply NoDup_nil_2].
Defined.

(** C4 (as stated) fails: two rows with the same [id] do not stop the
    pipeline; both reach the result under the same label. *)
Lemma duplicate_ids_are_not_refused :
  (exists out, clean_and_prepare_raw_data_for_model plain_features raw_same_id = Ok out
     /\ map label (rows out) = [Int 1001; Int 1001])
  /\ ~ raises_on_duplicate_ids plain_features.
Proof.
  split; [eexists; split; by vm_compute|].
  intros H.
  assert (exists final, prepare_table plain_features raw_same_id = Ok final
                        /\ col_values final "id" = [Int 1001; Int 1001])
    as (final & Hfinal & Hids) by (eexists; split; by vm_compute).
  destruct (H _ _ Hfinal) as [e He].
  - rewrite Hids. intros Hnd. apply NoDup_cons in Hnd as [Hnot _].
    apply Hnot. by left.
  - revert He. by vm_compute.
Qed.

(** ** The rows of the pipeline's result *)

Lemma is_36_months_spec r r' v :
  term_coercion (cell_at r "term") = Ok v -> cell_at r' "term" = v ->
  is_36_months r' = true -> term_is_36 r.
Proof.
  intros Hv Hr' H36. apply term_coercion_Ok in Hv as (x & Hx & ->).
  exists x. split; [done|].
  unfold is_36_months in H36. rewrite Hr' in H36. simpl in H36.
  destruct (String.eqb_spec (Py.strip x) "36 months"); [done|discriminate].
Qed.

Lemma kept_from_2010_spec t r r' :
  convert_date (cell_at r "issue_d") = Ok (cell_at r' "issue_d") ->
  kept_from_2010 t r' = true -> issued_from_2010 r.
Proof.
  intros Hc Hk. pose proof (convert_date_Ok _ _ Hc) as Hshape.
  unfold kept_from_2010, from_2010, ge_date in Hk.
  destruct Hshape as [Hna|(y & m & Hd)].
  - rewrite Hna in Hk. by destruct t.
  - rewrite Hd in Hk, Hc. exists y, m, 1. split; [done|]. by destruct t.
Qed.

Lemma drop_loan_status_ignores_status x df :
  drop_loan_status (with_status x df) = drop_loan_status df.
Proof.
  unfold drop_loan_status, drop, with_status. simpl.
  destruct (lookup_col "loan_status" (columns df)); [|done].
  do 2 f_equal. rewrite map_map. apply map_ext. intros r.
  unfold del_cell, set_cell. simpl. f_equal. apply delete_insert_eq.
Qed.

Lemma pipeline_ignores_status fe x df :
  clean_and_prepare_raw_data_for_model fe (with_status x df)
  = clean_and_prepare_raw_data_for_model fe df.
Proof.
  unfold clean_and_prepare_raw_data_for_model.
  by rewrite drop_loan_status_ignores_status.
Qed.

Lemma pipeline_rows fe df out r' :
  all_keep_ids fe ->
  clean_and_prepare_raw_data_for_model fe df = Ok out -> r' ∈ rows out ->
  exists r, r ∈ rows df /\ id_carried r (label r')
            /\ applicant_individual r /\ term_is_36 r /\ issued_from_2010 r.
Proof.
  intros (K1 & K2 & K3 & K4 & K5 & K6) H Hr'.
  unfold clean_and_prepare_raw_data_for_model in H.
  bind_inv H as d1 H1. bind_inv H as d2 H2. bind_inv H as d3 H3.
  bind_inv H as d4 H4. bind_inv H as d5 H5. bind_inv H as d6 H6.
  bind_inv H as d7 H7. bind_inv H as d8 H8. bind_inv H as d9 H9.
  bind_inv H as d10 H10. bind_inv H as d11 H11. bind_inv H as d12 H12.
  bind_inv H as d13 H13. bind_inv H as d14 H14. bind_inv H as d15 H15.
  bind_inv H as d16 H16. bind_inv H as d17 H17. bind_inv H as d18 H18.
  (* the index, the pruned columns and the enrichment stages hand on [id] *)
  apply set_index_rows in H. rewrite H in Hr'.
  apply list_elem_of_fmap in Hr' as (r18 & -> & Hr18). simpl.
  destruct (Forall2_member_r _ _ _ _ (for_each_drop_rows _ _ _ H18) Hr18)
    as (r17 & Hr17 & _ & E18).
  specialize (E18 "id" ltac:(unfold drop_cols; not_in_list)).
  destruct (K6 _ _ H17 _ Hr17) as (r16 & Hr16 & E17).
  destruct (K5 _ _ H16 _ Hr16) as (r15 & Hr15 & E16).
  destruct (K4 _ _ H15 _ Hr15) as (r14 & Hr14 & E15).
  destruct (K3 _ _ H14 _ Hr14) as (r13 & Hr13 & E14).
  destruct (K2 _ _ H13 _ Hr13) as (r12 & Hr12 & E13).
  (* imputation *)
  destruct (fill_nas_spec d11 (Int (-99))) as (o & Ho & _ & Hfill).
  rewrite H12 in Ho. injection Ho as <-.
  destruct (Forall2_member_r _ _ _ _ Hfill Hr12) as (r11 & Hr11 & _ & E12).
  specialize (E12 "id").
  destruct (K1 _ _ H11 _ Hr11) as (r10 & Hr10 & E11).
  (* employment length, term *)
  destruct (Forall2_member_r _ _ _ _ (clean_employment_length_rows _ _ H10) Hr10)
    as (r9 & Hr9 & _ & _ & _ & _ & E10).
  apply only_include_36_month_loans_rows in H9 as [_ H9].
  rewrite H9 in Hr9. apply elem_of_List_filter in Hr9 as [Hr8 T9].
  destruct (Forall2_member_r _ _ _ _ (clean_loan_term_col_rows _ _ H8) Hr8)
    as (r7 & Hr7 & v & Hv & _ & Ev & E8).
  (* the issue date *)
  apply exclude_loans_before_2010_rows in H7 as (_ & t7 & _ & H7).
  rewrite H7 in Hr7. apply elem_of_List_filter in Hr7 as [Hr6 D7].
  apply sort_values_rows in H6 as [_ H6]. rewrite H6 in Hr6.
  destruct (Forall2_member_r _ _ _ _ (fix_date_cols_rows _ _ H5) Hr6)
    as (r4 & Hr4 & _ & Ed & E5).
  apply elem_of_List_filter in Hr4 as [Hr4 _].
  apply dropna_rows in H4 as [_ H4].
  rewrite H4 in Hr4. apply elem_of_List_filter in Hr4 as [Hr3 _].
  (* rates, applicant type, status column *)
  destruct (Forall2_member_r _ _ _ _ (fix_rate_cols_rows _ _ H3) Hr3)
    as (r2 & Hr2 & _ & _ & E3).
  apply drop_joint_applicant_loans_rows in H2 as [_ H2].
  rewrite H2 in Hr2. apply elem_of_List_filter in Hr2 as [Hr1 A2].
  apply drop_rows in H1 as [_ H1]. rewrite H1 in Hr1.
  apply list_elem_of_fmap in Hr1 as (r0 & -> & Hr0).
  exists r0. split; [exact Hr0|].
  assert (Hkeep : forall col, col ∉ rate_cols -> col ∉ date_cols ->
                    col <> "loan_status" ->
                    cell_at r4 col = cell_at r0 col).
  { intros col Hc1 Hc2 Hc3. rewrite E3 by done. by apply cell_at_del_cell_ne. }
  split; [|split; [|split]].
  - (* id *)
    unfold id_carried.
    assert (Hid9 : cell_at r9 "id" = cell_at r0 "id").
    { rewrite E8 by discriminate. rewrite E5 by (unfold date_cols; not_in_list).
      apply Hkeep; [unfold rate_cols; not_in_list
                   |unfold date_cols; not_in_list|discriminate]. }
    rewrite E18, E17, E16, E15, E14, E13, E12, E11, E10, Hid9 by discriminate.
    destruct (bool_decide _ && isna (cell_at r0 "id")) eqn:Hb; [|by left].
    right. apply andb_true_iff in Hb as [_ Hb].
    split; [|done]. by destruct (cell_at r0 "id").
  - (* applicant type *)
    apply is_individual_spec in A2. destruct A2 as (x & Hx & Hu).
    exists x. split; [|done].
    rewrite <- Hx. symmetry. by apply cell_at_del_cell_ne.
  - (* term *)
    apply (is_36_months_spec _ _ _ Hv Ev) in T9.
    destruct T9 as (x & Hx & Hs). exists x. split; [|done].
    rewrite <- Hx. rewrite E5 by (unfold date_cols; not_in_list).
    symmetry. apply Hkeep; [unfold rate_cols; not_in_list
                           |unfold date_cols; not_in_list|discriminate].
  - (* issue date *)
    specialize (Ed "issue_d" ltac:(unfold date_cols; by left)).
    apply (kept_from_2010_spec _ _ _ Ed) in D7.
    destruct D7 as (y & m & d & Hd & Hle). exists y, m, d. split; [|done].
    rewrite <- Hd. f_equal. symmetry.
    rewrite E3 by (unfold rate_cols; not_in_list).
    by apply cell_at_del_cell_ne.
Qed.

Lemma keeps_ids_Ok : keeps_ids Ok.
Proof. intros df out [= <-] r' Hr'. by exists r'. Qed.

Lemma plain_features_keep_ids : all_keep_ids plain_features.
Proof. repeat split; exact keeps_ids_Ok. Qed.

(** Whatever the collaborators, as soon as the pipeline returns a row for
    some table it returns one for a table without any completed loan. *)
Lemma status_is_not_filtered fe df out :
  clean_and_prepare_raw_data_for_model fe df = Ok out -> rows out <> [] ->
  ~ result_rows_stem_from fe complete_individual_36_months_from_2010.
Proof.
  intros H Hne Hclaim. destruct (rows out) as [|r' rs] eqn:Hrows; [done|].
  rewrite <- (pipeline_ignores_status fe "Current") in H.
  destruct (Hclaim _ _ H r') as (r & Hr & _ & [Hs|Hs] & _).
  - rewrite Hrows. by left.
  - simpl in Hr. apply list_elem_of_fmap in Hr as (r0 & -> & _).
    rewrite cell_at_set_cell_eq in Hs. discriminate.
  - simpl in Hr. apply list_elem_of_fmap in Hr as (r0 & -> & _).
    rewrite cell_at_set_cell_eq in Hs. discriminate.
Qed.

(** C1 (as the code has it). The pipeline drops the [loan_status] column
    in its first statement and never calls [drop_loans_not_complete]: its
    result does not depend on the status values of the table.  Every row
    of the result stems from a row of the raw table, with the same [id],
    whose [application_type] in upper case is ["INDIVIDUAL"], whose [term]
    stripped is ["36 months"] and whose [issue_d] is a date from
    2010-01-01 on. *)
Theorem pipeline_keeps_individual_36_month_loans_from_2010
  (fe : feature_engineering) :
  all_keep_ids fe ->
  result_rows_stem_from fe individual_36_months_from_2010
  /\ (forall x df, clean_and_prepare_raw_data_for_model fe (with_status x df)
                   = clean_and_prepare_raw_data_for_model fe df).
Proof.
  intros Hfe. split.
  - intros df out H r' Hr'. by eapply pipeline_rows.
  - intros x df. apply pipeline_ignores_status.
Qed.

Lemma pipeline_keeps_individual_36_month_loans_from_2010_witness :
  all_keep_ids plain_features
  /\ exists out,
       clean_and_prepare_raw_data_for_model plain_features raw_five_loans = Ok out
       /\ map label (rows out) = [Int 1002; Int 1001]
       /\ forall r', r' ∈ rows out ->
            exists r, r ∈ rows raw_five_loans /\ id_carried r (label r')
                      /\ individual_36_months_from_2010 r.
Proof.
  split; [exact plain_features_keep_ids|].
  assert (exists out,
            clean_and_prepare_raw_data_for_model plain_features raw_five_loans = Ok out
            /\ map label (rows out) = [Int 1002; Int 1001])
    as (out & Hout & Hl) by (eexists; split; by vm_compute).
  exists out. split; [exact Hout|]. split; [exact Hl|].
  exact (proj1 (pipeline_keeps_individual_36_month_loans_from_2010
                  plain_features plain_features_keep_ids) _ _ Hout).
Defined.

(** C1 (as stated) fails: a loan whose status is ["Current"] goes through
    the pipeline and is a row of its result. *)
Lemma running_loan_reaches_result :
  col_values raw_current "loan_status" = [Str "Current"]
  /\ (exists out,
        clean_and_prepare_raw_data_for_model plain_features raw_current = Ok out
        /\ map label (rows out) = [Int 1001])
  /\ ~ result_rows_stem_from plain_features complete_individual_36_months_from_2010.
Proof.
  split; [by vm_compute|].
  assert (exists out,
            clean_and_prepare_raw_data_for_model plain_features raw_current = Ok out
            /\ map label (rows out) = [Int 1001])
    as (out & Hout & Hl) by (eexists; split; by vm_compute).
  split; [exists out; split; assumption|].
  apply (status_is_not_filtered _ _ _ Hout).
  intros Hnil. rewrite Hnil in Hl. discriminate Hl.
Qed.

(* ===================================================================== *)
(** * Further properties of the stages *)
(* ===================================================================== *)

(** ** The row filters *)

Lemma lookup_col_None col cols : col ∉ map fst cols -> lookup_col col cols = None.
Proof.
  intros H. destruct (lookup_col col cols) eqn:Hl; [|done].
  by apply lookup_col_Some in Hl.
Qed.

Lemma getitem_missing df col : col ∉ col_names df -> getitem df col = Raise KeyError.
Proof. intros H. unfold getitem. by rewrite lookup_col_None. Qed.

Lemma is_complete_spec r : is_complete r = true <-> status_complete r.
Proof.
  unfold is_complete, status_complete. simpl. rewrite orb_false_r.
  destruct (cell_at r "loan_status") as [|x| | | |]; simpl;
    try (split; [discriminate | intros [?|?]; discriminate]).
  rewrite orb_true_iff, !String.eqb_eq. split.
  - intros [->| ->]; [by left | by right].
  - intros [[= ->]|[= ->]]; [by left | by right].
Qed.

Lemma drop_loans_not_complete_total df :
  "loan_status" ∈ col_names df ->
  DataCleaning.drop_loans_not_complete df
  = Ok {| columns := columns df; rows := List.filter is_complete (rows df) |}.
Proof.
  intros Hcol. destruct (getitem_member _ _ Hcol) as [t Ht].
  unfold DataCleaning.drop_loans_not_complete. rewrite Ht.
  cbn [mbind result_bind].
  rewrite loc_same_length by (by eapply status_mask_length).
  unfold take_rows, isin. simpl. do 2 f_equal.
  unfold col_values. rewrite map_map. apply select_map.
Qed.

(** X1. [drop_loans_not_complete] returns exactly when the table has a
    [loan_status] column and raises [KeyError] otherwise.  It keeps, in
    their order and unchanged, the rows whose status is ["Charged Off"]
    or ["Fully Paid"]; every other row, a row without status included,
    goes; the columns stay. *)
Theorem drop_loans_not_complete_selects (df : DataFrame) :
  ("loan_status" ∈ col_names df ->
     DataCleaning.drop_loans_not_complete df
     = Ok {| columns := columns df; rows := List.filter is_complete (rows df) |})
  /\ ("loan_status" ∉ col_names df ->
        DataCleaning.drop_loans_not_complete df = Raise KeyError)
  /\ (forall r, is_complete r = true <-> status_complete r)
  /\ (forall r, cell_at r "loan_status" = NA -> is_complete r = false).
Proof.
  split; [apply drop_loans_not_complete_total|]. split.
  - intros H. unfold DataCleaning.drop_loans_not_complete.
    by rewrite getitem_missing.
  - split; [apply is_complete_spec|].
    intros r Hr. unfold is_complete. by rewrite Hr.
Qed.

Lemma drop_loans_not_complete_selects_witness :
  exists out, DataCleaning.drop_loans_not_complete raw_current = Ok out
              /\ rows out = []
              /\ DataCleaning.drop_loans_not_complete rate_frame = Raise KeyError.
Proof.
  destruct (drop_loans_not_complete_selects raw_current) as (H1 & _).
  destruct (drop_loans_not_complete_selects rate_frame) as (_ & H2 & _).
  eexists. split; [apply H1; vm_compute; right; by left|].
  split; [by vm_compute|]. apply H2. vm_compute.
  intros H. repeat (apply elem_of_cons in H as [H|H]; [discriminate H|]).
  by apply elem_of_nil in H.
Defined.

Lemma is_individual_iff r : is_individual r = true <-> applicant_individual r.
Proof.
  split; [apply is_individual_spec|].
  intros (x & Hx & Hu). unfold is_individual. rewrite Hx. simpl.
  by apply String.eqb_eq.
Qed.

(** A column of strings, some of them missing, has the [.str]
    accessor. *)
Lemma strings_hold (l : list cell) :
  Forall (fun c => c = NA \/ is_str c = true) l -> holds_strings l = true.
Proof.
  intros H. unfold holds_strings.
  destruct (List.filter (fun c => negb (isna c)) l) as [|c l'] eqn:Hf; [done|].
  assert (Hc : c ∈ List.filter (fun c => negb (isna c)) l) by (rewrite Hf; by left).
  apply elem_of_List_filter in Hc as [Hc Hna].
  rewrite Forall_forall in H. destruct (H c Hc) as [->|Hs]; [done|].
  destruct c; try discriminate. done.
Qed.

Lemma strings_hold_rows col (rs : list Row) :
  Forall (fun r => cell_at r col = NA \/ is_str (cell_at r col) = true) rs ->
  holds_strings (map (fun r => cell_at r col) rs) = true.
Proof. intros H. apply strings_hold. by apply Forall_fmap. Qed.

Lemma drop_joint_applicant_loans_total df :
  lookup_col "application_type" (columns df) = Some object ->
  holds_strings (col_values df "application_type") = true ->
  DataCleaning.drop_joint_applicant_loans df
  = Ok {| columns := columns df; rows := List.filter is_individual (rows df) |}.
Proof.
  intros Hcol Hh. unfold DataCleaning.drop_joint_applicant_loans, getitem.
  rewrite Hcol. cbn [mbind result_bind].
  unfold str_upper, str_accessor. cbn [dtype_of values].
  fold (col_values df "application_type"). rewrite Hh. cbn [mbind result_bind].
  rewrite loc_same_length
    by (unfold eq_scalar; cbn [values]; by rewrite !length_map, length_col_values).
  unfold take_rows, eq_scalar, col_values. cbn [values]. do 2 f_equal.
  rewrite !map_map. apply select_map.
Qed.

Lemma drop_joint_applicant_loans_refused df t :
  lookup_col "application_type" (columns df) = Some t ->
  t <> object \/ holds_strings (col_values df "application_type") = false ->
  DataCleaning.drop_joint_applicant_loans df = Raise AttributeError.
Proof.
  intros Hcol Hno. unfold DataCleaning.drop_joint_applicant_loans, getitem.
  rewrite Hcol. cbn [mbind result_bind].
  unfold str_upper, str_accessor. cbn [dtype_of values].
  fold (col_values df "application_type").
  destruct t; try done. destruct Hno as [Hno| ->]; done.
Qed.

(** X2. [drop_joint_applicant_loans] raises [KeyError] on a table without
    [application_type] column and [AttributeError] when pandas gives that
    column no [.str] accessor: it is not an [object] column, or it holds
    numbers only, timestamps only or booleans only.  Otherwise it
    returns, keeping in their order exactly the rows whose type in upper
    case is ["INDIVIDUAL"], whatever the case it is written in, and
    dropping rows without a type. *)
Theorem drop_joint_applicant_loans_selects (df : DataFrame) :
  (lookup_col "application_type" (columns df) = None ->
     DataCleaning.drop_joint_applicant_loans df = Raise KeyError)
  /\ (forall t, lookup_col "application_type" (columns df) = Some t ->
        t <> object \/ holds_strings (col_values df "application_type") = false ->
        DataCleaning.drop_joint_applicant_loans df = Raise AttributeError)
  /\ (lookup_col "application_type" (columns df) = Some object ->
        holds_strings (col_values df "application_type") = true ->
        DataCleaning.drop_joint_applicant_loans df
        = Ok {| columns := columns df;
                rows := List.filter is_individual (rows df) |})
  /\ (forall r, is_individual r = true <-> applicant_individual r)
  /\ (forall r, cell_at r "application_type" = NA -> is_individual r = false).
Proof.
  split.
  { intros H. unfold DataCleaning.drop_joint_applicant_loans, getitem.
    by rewrite H. }
  split; [apply drop_joint_applicant_loans_refused|].
  split; [apply drop_joint_applicant_loans_total|].
  split; [apply is_individual_iff|].
  intros r Hr. unfold is_individual. by rewrite Hr.
Qed.

Lemma drop_joint_applicant_loans_selects_witness :
  (exists out, DataCleaning.drop_joint_applicant_loans raw_five_loans = Ok out
               /\ col_values out "id" = [Int 1001; Int 1002; Int 1004; Int 1005])
  /\ DataCleaning.drop_joint_applicant_loans sparse_frame = Raise KeyError
  /\ DataCleaning.drop_joint_applicant_loans type_codes = Raise AttributeError.
Proof.
  destruct (drop_joint_applicant_loans_selects raw_five_loans) as (_ & _ & H & _).
  destruct (drop_joint_applicant_loans_selects sparse_frame) as (H' & _).
  destruct (drop_joint_applicant_loans_selects type_codes) as (_ & H'' & _).
  split; [|split].
  - eexists. split; [apply H; by vm_compute|]. by vm_compute.
  - apply H'. by vm_compute.
  - apply (H'' object); [by vm_compute | by right].
Defined.

Lemma filter_comm {A} (p q : A -> bool) (l : list A) :
  List.filter q (List.filter p l) = List.filter p (List.filter q l).
Proof.
  rewrite !filter_filter_andb. apply filter_ext. intros x. apply andb_comm.
Qed.

Lemma Forall_List_filter {A} (P : A -> Prop) (p : A -> bool) (l : list A) :
  Forall P l -> Forall P (List.filter p l).
Proof.
  induction 1 as [|x l Hx _ IH]; simpl; [constructor|].
  destruct (p x); [by constructor | done].
Qed.

(** X3. On a table whose application types are strings, some of them
    missing, the completion-status filter and the applicant-type filter
    can be applied in either order: the two orders return the same
    table, whose rows are the rows that pass both tests.  Applying
    either filter a second time changes nothing.  (With a number among
    the types the order matters: the status filter can leave a column
    of numbers, which has no [.str] accessor.) *)
Theorem status_and_applicant_filters_commute (df : DataFrame) :
  "loan_status" ∈ col_names df ->
  lookup_col "application_type" (columns df) = Some object ->
  Forall (fun r => cell_at r "application_type" = NA
                   \/ is_str (cell_at r "application_type") = true) (rows df) ->
  (d ← DataCleaning.drop_loans_not_complete df;
   DataCleaning.drop_joint_applicant_loans d)
  = (d ← DataCleaning.drop_joint_applicant_loans df;
     DataCleaning.drop_loans_not_complete d)
  /\ (d ← DataCleaning.drop_loans_not_complete df;
      DataCleaning.drop_joint_applicant_loans d)
     = Ok {| columns := columns df;
             rows := List.filter (fun r => is_complete r && is_individual r)
                       (rows df) |}
  /\ (d ← DataCleaning.drop_loans_not_complete df;
      DataCleaning.drop_loans_not_complete d)
     = DataCleaning.drop_loans_not_complete df
  /\ (d ← DataCleaning.drop_joint_applicant_loans df;
      DataCleaning.drop_joint_applicant_loans d)
     = DataCleaning.drop_joint_applicant_loans df.
Proof.
  intros Hs Ha Hstr.
  assert (Hh : forall p : Row -> bool,
            holds_strings (col_values {| columns := columns df;
                                         rows := List.filter p (rows df) |}
                             "application_type") = true).
  { intros p. apply strings_hold_rows. by apply Forall_List_filter. }
  rewrite (drop_loans_not_complete_total df Hs).
  rewrite (drop_joint_applicant_loans_total df Ha)
    by (by apply strings_hold_rows).
  cbn [mbind result_bind].
  rewrite !drop_loans_not_complete_total by done.
  rewrite !drop_joint_applicant_loans_total by (done || apply Hh).
  cbn [rows columns].
  split; [by rewrite filter_comm|].
  split; [by rewrite filter_filter_andb|].
  split; do 2 f_equal; rewrite filter_filter_andb; apply filter_ext;
    intros r; by destruct (_ r).
Qed.

Lemma status_and_applicant_filters_commute_witness :
  (exists out,
     (d ← DataCleaning.drop_loans_not_complete raw_five_loans;
      DataCleaning.drop_joint_applicant_loans d) = Ok out
     /\ (d ← DataCleaning.drop_joint_applicant_loans raw_five_loans;
         DataCleaning.drop_loans_not_complete d) = Ok out
     /\ col_values out "id" = [Int 1001; Int 1002; Int 1004; Int 1005])
  /\ (d ← DataCleaning.drop_loans_not_complete type_codes;
      DataCleaning.drop_joint_applicant_loans d) = Raise AttributeError
  /\ (exists out,
        (d ← DataCleaning.drop_joint_applicant_loans mixed_types;
         DataCleaning.drop_loans_not_complete d) = Ok out /\ rows out = [])
  /\ (d ← DataCleaning.drop_loans_not_complete mixed_types;
      DataCleaning.drop_joint_applicant_loans d) = Raise AttributeError.
Proof.
  split; [|split; [by vm_compute|split; [eexists; split; by vm_compute
                                        |by vm_compute]]].
  destruct (status_and_applicant_filters_commute raw_five_loans) as (H1 & H2 & _).
  - vm_compute. right. by left.
  - by vm_compute.
  - repeat constructor; right; by vm_compute.
  - eexists. split; [exact H2|]. split; [by rewrite <- H1|]. by vm_compute.
Defined.

Lemma lookup_col_del_col col cols : lookup_col col (del_col col cols) = None.
Proof.
  induction cols as [|[c t] cols IH]; simpl; [done|].
  destruct (String.eqb_spec c col) as [->|Hne]; simpl; [done|].
  by destruct (String.eqb_spec c col).
Qed.

Lemma lookup_col_del_col_ne col col' cols :
  col <> col' -> lookup_col col' (del_col col cols) = lookup_col col' cols.
Proof.
  intros Hne. induction cols as [|[c t] cols IH]; simpl; [done|].
  destruct (String.eqb_spec c col) as [->|Hc]; simpl.
  - by destruct (String.eqb_spec col col').
  - by rewrite IH.
Qed.

(** X4. Once [drop_loan_status] has run, the status filter cannot run
    any more: on its result [drop_loans_not_complete] raises [KeyError],
    and so does a second [drop_loan_status].  The stage itself keeps
    every row, with its label and all its other values, and on a table
    without the column it raises [KeyError]. *)
Theorem status_filter_must_precede_drop (df : DataFrame) :
  (forall out, drop_loan_status df = Ok out ->
     DataCleaning.drop_loans_not_complete out = Raise KeyError
     /\ drop_loan_status out = Raise KeyError
     /\ Forall2 (fun r r' => label r' = label r
                   /\ cell_at r' "loan_status" = NA
                   /\ forall col, col <> "loan_status" ->
                        cell_at r' col = cell_at r col)
                (rows df) (rows out))
  /\ ("loan_status" ∉ col_names df -> drop_loan_status df = Raise KeyError).
Proof.
  split.
  - intros out H. apply drop_rows in H as [Hc Hr].
    unfold DataCleaning.drop_loans_not_complete, drop_loan_status, drop, getitem.
    rewrite Hc, lookup_col_del_col. simpl. split; [done|split; [done|]].
    rewrite Hr. apply Forall2_fmap_r, Forall_Forall2_diag, Forall_forall.
    intros r _. split; [done|]. split.
    + unfold cell_at, del_cell. simpl. by rewrite lookup_delete_eq.
    + intros col Hne. by apply cell_at_del_cell_ne.
  - intros H. unfold drop_loan_status, drop. by rewrite lookup_col_None.
Qed.

Lemma status_filter_must_precede_drop_witness :
  exists out, drop_loan_status raw_five_loans = Ok out
              /\ DataCleaning.drop_loans_not_complete out = Raise KeyError
              /\ length (rows out) = 5%nat.
Proof.
  assert (exists out, drop_loan_status raw_five_loans = Ok out
                      /\ length (rows out) = 5%nat)
    as (out & Hout & Hlen) by (eexists; split; by vm_compute).
  exists out. split; [exact Hout|]. split; [|exact Hlen].
  exact (proj1 (proj1 (status_filter_must_precede_drop raw_five_loans) out Hout)).
Defined.

(** ** The term stages *)

Lemma term_of_Raise c e : term_of c = Raise e -> e = AttributeError.
Proof. destruct c; simpl; try discriminate; by intros [= <-]. Qed.

(** X5. [clean_loan_term_col] does not map a missing term to 60: on a
    table whose [term] column holds anything but a string in some row,
    it raises [AttributeError]; without the column it raises
    [KeyError]. *)
Theorem clean_loan_term_col_needs_strings (df : DataFrame) :
  ("term" ∈ col_names df ->
     (exists r, r ∈ rows df /\ is_str (cell_at r "term") = false) ->
     clean_loan_term_col df = Raise AttributeError)
  /\ ("term" ∉ col_names df -> clean_loan_term_col df = Raise KeyError).
Proof.
  split.
  - intros Hcol (r & Hr & Hs). destruct (getitem_member _ _ Hcol) as [t Ht].
    unfold clean_loan_term_col. rewrite Ht. simpl.
    assert (Hin : cell_at r "term" ∈ col_values df "term").
    { unfold col_values. apply list_elem_of_fmap. by exists r. }
    assert (Hbad : term_of (cell_at r "term") = Raise AttributeError)
      by (by destruct (cell_at r "term")).
    destruct (mapM_some_Raise _ _ _ _ Hin Hbad) as [e He]. rewrite He. simpl.
    apply mapM_Raise in He as (c & _ & Hc). by rewrite (term_of_Raise _ _ Hc).
  - intros H. unfold clean_loan_term_col. by rewrite getitem_missing.
Qed.

Lemma clean_loan_term_col_needs_strings_witness :
  clean_loan_term_col sparse_frame = Raise KeyError
  /\ clean_loan_term_col
       {| columns := [("term", object)];
          rows := [mk_row 0 [("term", Str " 36 months")]; mk_row 1 [("term", NA)]] |}
     = Raise AttributeError.
Proof.
  split.
  - apply (proj2 (clean_loan_term_col_needs_strings sparse_frame)).
    vm_compute. intros H.
    repeat (apply elem_of_cons in H as [H|H]; [discriminate H|]).
    by apply elem_of_nil in H.
  - apply (proj1 (clean_loan_term_col_needs_strings _)).
    + vm_compute. by left.
    + eexists. split; [right; by left|]. by vm_compute.
Defined.

Lemma term_filter_agree r r' v :
  term_coercion (cell_at r "term") = Ok v -> cell_at r' "term" = v ->
  is_36_raw r = is_36_months r'.
Proof.
  intros Hv Hr'. apply term_coercion_Ok in Hv as (x & Hx & ->).
  unfold is_36_raw, is_36_months. rewrite Hx, Hr'. simpl.
  by destruct (String.eqb (Py.strip x) "36 months").
Qed.

(** X6. Term coercion followed by the term filter keeps, in their order,
    exactly the rows whose raw [term] stripped is ["36 months"]; in the
    result every [term] is the integer 36 in a [uint8] column, and the
    labels and the other values of the rows are as before. *)
Theorem term_filter_keeps_36_month_rows (df d out : DataFrame) :
  clean_loan_term_col df = Ok d -> only_include_36_month_loans d = Ok out ->
  lookup_col "term" (columns out) = Some uint8
  /\ Forall2 (fun r r' => label r' = label r
                /\ cell_at r' "term" = Int 36
                /\ forall col, col <> "term" -> cell_at r' col = cell_at r col)
             (List.filter is_36_raw (rows df)) (rows out).
Proof.
  intros H1 H2.
  pose proof (clean_loan_term_col_dtype _ _ H1) as Ht.
  apply clean_loan_term_col_rows in H1.
  apply only_include_36_month_loans_rows in H2 as [Hc Hr].
  rewrite Hc, Hr. split; [done|].
  assert (H3 : Forall2 (fun r r' =>
                  (exists v, term_coercion (cell_at r "term") = Ok v
                     /\ label r' = label r /\ cell_at r' "term" = v
                     /\ forall col, col <> "term" -> cell_at r' col = cell_at r col)
                  /\ is_36_months r' = true)
                (List.filter is_36_raw (rows df))
                (List.filter is_36_months (rows d))).
  { clear Ht Hc Hr. induction H1 as [|r r' l k Hrr' _ IH]; simpl; [constructor|].
    destruct Hrr' as (v & Hv & Hl & Hcell & Ho).
    rewrite (term_filter_agree _ _ _ Hv Hcell).
    destruct (is_36_months r') eqn:H36; [|exact IH].
    constructor; [|exact IH]. split; [by exists v|done]. }
  eapply Forall2_impl; [exact H3|]. simpl.
  intros r r' ((v & Hv & Hl & Hcell & Ho) & H36).
  split; [done|split; [|done]].
  apply term_coercion_Ok in Hv as (x & _ & ->).
  unfold is_36_months in H36. rewrite Hcell in H36 |- *. simpl in H36.
  destruct (String.eqb (Py.strip x) "36 months"); [done|discriminate].
Qed.

Lemma term_filter_keeps_36_month_rows_witness :
  exists d out, clean_loan_term_col term_frame = Ok d
    /\ only_include_36_month_loans d = Ok out
    /\ map label (rows out) = [Int 0]
    /\ Forall2 (fun r r' => label r' = label r
                  /\ cell_at r' "term" = Int 36
                  /\ forall col, col <> "term" -> cell_at r' col = cell_at r col)
               (List.filter is_36_raw (rows term_frame)) (rows out).
Proof.
  assert (exists d, clean_loan_term_col term_frame = Ok d) as [d Hd]
    by (eexists; by vm_compute).
  assert (exists out, only_include_36_month_loans d = Ok out
                      /\ map label (rows out) = [Int 0]) as (out & Hout & Hl).
  { revert Hd. vm_compute. intros [= <-]. eexists. split; reflexivity. }
  exists d, out. split; [exact Hd|]. split; [exact Hout|]. split; [exact Hl|].
  exact (proj2 (term_filter_keeps_36_month_rows _ _ _ Hd Hout)).
Defined.

(** ** The date cutoff *)

Lemma date_leb_spec y m d y' m' d' :
  date_leb (y, m, d) (y', m', d') = true
  <-> y < y' \/ (y = y' /\ (m < m' \/ (m = m' /\ d <= d'))).
Proof.
  unfold date_leb.
  rewrite !orb_true_iff, !andb_true_iff, !orb_true_iff, !andb_true_iff,
    !Z.ltb_lt, !Z.eqb_eq, Z.leb_le. tauto.
Qed.

Lemma ge_str_2010_Raise c e :
  ge_str c "2010-01-01" = Raise e -> e = TypeError.
Proof.
  destruct c; simpl; try discriminate; try (by intros [= <-]).
Qed.

(** X7. [exclude_loans_before_2010] goes by the type of the [issue_d]
    column.  On a column of timestamps it keeps, in their order and
    unchanged, exactly the rows dated 2010-01-01 or later: January 2010
    stays, any earlier year goes, and so does a row whose date is
    missing.  On a column of strings it compares text, so that a raw
    date such as ["Dec-15"] stays whatever its year.  A numeric or
    boolean column raises [TypeError] whatever it holds, even nothing;
    so does an [object] column with a number, a boolean or a timestamp
    in it; a table without [issue_d] column raises [KeyError]. *)
Theorem exclude_loans_before_2010_cutoff (df : DataFrame) :
  (lookup_col "issue_d" (columns df) = Some datetime64 ->
     Forall (fun r => match cell_at r "issue_d" with
                      | Date _ _ _ | NA => True
                      | _ => False
                      end) (rows df) ->
     exclude_loans_before_2010 df
     = Ok {| columns := columns df; rows := List.filter from_2010 (rows df) |})
  /\ (forall r y m d, cell_at r "issue_d" = Date y m d -> 1 <= m -> 1 <= d ->
        (from_2010 r = true <-> 2010 <= y))
  /\ (forall r, cell_at r "issue_d" = NA -> from_2010 r = false)
  /\ (lookup_col "issue_d" (columns df) = Some object ->
        Forall (fun r => cell_at r "issue_d" = NA
                         \/ is_str (cell_at r "issue_d") = true) (rows df) ->
        exclude_loans_before_2010 df
        = Ok {| columns := columns df;
                rows := List.filter (kept_from_2010 object) (rows df) |})
  /\ (forall r x, cell_at r "issue_d" = Str x ->
        (kept_from_2010 object r = true <-> String.leb "2010-01-01" x = true))
  /\ (forall t, lookup_col "issue_d" (columns df) = Some t ->
        t ∈ [int64; uint8; float64; float32; bool_] ->
        exclude_loans_before_2010 df = Raise TypeError)
  /\ (lookup_col "issue_d" (columns df) = Some object ->
        (exists r, r ∈ rows df /\ match cell_at r "issue_d" with
                                  | NA | Str _ => False
                                  | _ => True
                                  end) ->
        exclude_loans_before_2010 df = Raise TypeError)
  /\ ("issue_d" ∉ col_names df -> exclude_loans_before_2010 df = Raise KeyError).
Proof.
  split.
  { intros Hcol _. unfold exclude_loans_before_2010, getitem. rewrite Hcol.
    cbn [mbind result_bind]. unfold ge_scalar. cbn [dtype_of values].
    change (parse_iso_date "2010-01-01") with (Some (2010, 1, 1)).
    cbn [mbind result_bind].
    rewrite loc_same_length by (by rewrite !length_map).
    unfold take_rows. do 2 f_equal. rewrite map_map. apply select_map. }
  split.
  { intros r y m d Hr Hm Hd. unfold from_2010, ge_date. rewrite Hr.
    rewrite date_leb_spec. lia. }
  split.
  { intros r Hr. unfold from_2010. by rewrite Hr. }
  split.
  { intros Hcol Hstr. unfold exclude_loans_before_2010, getitem. rewrite Hcol.
    cbn [mbind result_bind]. unfold ge_scalar. cbn [dtype_of values].
    assert (Hm : mapM (fun c => ge_str c "2010-01-01")
                   (map (fun r => cell_at r "issue_d") (rows df))
                 = Ok (map (kept_from_2010 object) (rows df))).
    { induction Hstr as [|r l Hr _ IH]; simpl; [done|].
      rewrite IH. unfold kept_from_2010.
      destruct Hr as [Hr|Hr]; destruct (cell_at r "issue_d"); try done. }
    rewrite Hm. cbn [mbind result_bind].
    rewrite loc_same_length by (by rewrite length_map).
    unfold take_rows. do 2 f_equal. apply select_map. }
  split.
  { intros r x Hr. unfold kept_from_2010. by rewrite Hr. }
  split.
  { intros t Hcol Ht. unfold exclude_loans_before_2010, getitem. rewrite Hcol.
    cbn [mbind result_bind]. unfold ge_scalar. cbn [dtype_of].
    repeat (apply elem_of_cons in Ht as [->|Ht]; [done|]).
    by apply elem_of_nil in Ht. }
  split.
  { intros Hcol (r & Hr & Hn). unfold exclude_loans_before_2010, getitem.
    rewrite Hcol. cbn [mbind result_bind]. unfold ge_scalar. cbn [dtype_of values].
    assert (Hin : cell_at r "issue_d" ∈ map (fun r => cell_at r "issue_d") (rows df)).
    { apply list_elem_of_fmap. by exists r. }
    assert (Hbad : ge_str (cell_at r "issue_d") "2010-01-01" = Raise TypeError)
      by (by destruct (cell_at r "issue_d")).
    destruct (mapM_some_Raise (fun c => ge_str c "2010-01-01") _ _ _ Hin Hbad)
      as [e He].
    rewrite He. cbn [mbind result_bind].
    apply mapM_Raise in He as (c & _ & Hc). by rewrite (ge_str_2010_Raise _ _ Hc). }
  intros H. unfold exclude_loans_before_2010. by rewrite getitem_missing.
Qed.

Lemma exclude_loans_before_2010_cutoff_witness :
  exclude_loans_before_2010
    {| columns := [("issue_d", datetime64)];
       rows := [mk_row 0 [("issue_d", Date 2009 12 1)];
                mk_row 1 [("issue_d", Date 2010 1 1)];
                mk_row 2 [("issue_d", NA)]] |}
  = Ok {| columns := [("issue_d", datetime64)];
          rows := [mk_row 1 [("issue_d", Date 2010 1 1)]] |}
  /\ exclude_loans_before_2010
       {| columns := [("issue_d", float64)];
          rows := [mk_row 0 [("issue_d", NA)]] |}
     = Raise TypeError
  /\ exclude_loans_before_2010
       {| columns := [("issue_d", object)];
          rows := [mk_row 0 [("issue_d", Str "Dec-05")];
                   mk_row 1 [("issue_d", NA)]] |}
     = Ok {| columns := [("issue_d", object)];
             rows := [mk_row 0 [("issue_d", Str "Dec-05")]] |}.
Proof.
  split; [|split].
  - rewrite (proj1 (exclude_loans_before_2010_cutoff _)).
    + by vm_compute.
    + by vm_compute.
    + repeat constructor.
  - apply (proj1 (proj2 (proj2 (proj2 (proj2 (proj2
             (exclude_loans_before_2010_cutoff _)))))) float64).
    + by vm_compute.
    + do 2 right. by left.
  - rewrite (proj1 (proj2 (proj2 (proj2 (exclude_loans_before_2010_cutoff _))))).
    + by vm_compute.
    + by vm_compute.
    + constructor; [right; by vm_compute|].
      constructor; [left; by vm_compute|]. constructor.
Defined.

(** ** Sorting *)

Lemma ascii_compare_refl c : Ascii.compare c c = Eq.
Proof. unfold Ascii.compare. apply N.compare_refl. Qed.

Lemma string_leb_trans s1 : forall s2 s3,
  String.leb s1 s2 = true -> String.leb s2 s3 = true -> String.leb s1 s3 = true.
Proof.
  unfold String.leb.
  induction s1 as [|c1 s1 IH]; intros [|c2 s2] [|c3 s3]; simpl; try done.
  unfold Ascii.compare.
  destruct (N.compare_spec (N_of_ascii c1) (N_of_ascii c2)) as [H12|H12|H12];
    destruct (N.compare_spec (N_of_ascii c2) (N_of_ascii c3)) as [H23|H23|H23];
    try done.
  - rewrite H12, H23, N.compare_refl. apply IH.
  - intros _ _. rewrite H12. by apply N.compare_lt_iff in H23 as ->.
  - intros _ _. rewrite <- H23. by apply N.compare_lt_iff in H12 as ->.
  - intros _ _.
    assert (H13 : (N_of_ascii c1 < N_of_ascii c3)%N) by lia.
    by apply N.compare_lt_iff in H13 as ->.
Qed.

Lemma num_leb_total a b : num_leb a b = true \/ num_leb b a = true.
Proof.
  unfold num_leb. destruct (num_key a) as [i x], (num_key b) as [j y].
  rewrite !orb_true_iff, !andb_true_iff, !Z.ltb_lt, !Z.eqb_eq, !Qle_bool_iff.
  destruct (Z.lt_trichotomy i j) as [H|[H|H]]; [by left; left | |by right; left].
  destruct (Qlt_le_dec x y) as [Hq|Hq].
  - left. right. split; [done | by apply Qlt_le_weak].
  - right. right. done.
Qed.

Lemma num_leb_trans a b c :
  num_leb a b = true -> num_leb b c = true -> num_leb a c = true.
Proof.
  unfold num_leb.
  destruct (num_key a) as [i x], (num_key b) as [j y], (num_key c) as [k z].
  rewrite !orb_true_iff, !andb_true_iff, !Z.ltb_lt, !Z.eqb_eq, !Qle_bool_iff.
  intros [H|[H Hq]] [H'|[H' Hq']]; try (left; lia).
  right. split; [lia | by eapply Qle_trans].
Qed.

Lemma key_leb_total a b : key_leb a b = true \/ key_leb b a = true.
Proof.
  destruct a, b; try (by left); try (by right);
    try apply num_leb_total.
  - apply String.leb_total.
  - unfold key_leb. rewrite !date_leb_spec. lia.
Qed.

Lemma key_leb_trans a b c :
  key_leb a b = true -> key_leb b c = true -> key_leb a c = true.
Proof.
  destruct a, b, c; try done; try apply num_leb_trans.
  - apply string_leb_trans.
  - unfold key_leb. rewrite !date_leb_spec. lia.
Qed.

Lemma by_date_total col : Total (by_date col).
Proof.
  intros r1 r2. unfold by_date.
  destruct (key_leb_total (cell_at r1 col) (cell_at r2 col)) as [H|H];
    rewrite H; [by left | by right].
Qed.

Lemma by_date_trans col : Transitive (by_date col).
Proof.
  intros r1 r2 r3. unfold by_date. rewrite !Is_true_true. apply key_leb_trans.
Qed.

Lemma sort_values_sorted df col out :
  sort_values df col = Ok out -> StronglySorted (by_date col) (rows out).
Proof.
  unfold sort_values. destruct (lookup_col col (columns df)); [|discriminate].
  destruct (sortable _); [|discriminate]. intros [= <-]. cbn [rows].
  apply (stable_sort_sorted
           (fun r1 r2 => key_leb (cell_at r1 col) (cell_at r2 col))).
  - intros a b c. apply key_leb_trans.
  - intros a b. apply key_leb_total.
Qed.

(** Timestamps, some of them missing, can be sorted. *)
Lemma timestamps_sortable (l : list cell) :
  Forall (fun c => match c with Date _ _ _ | NA => True | _ => False end) l ->
  sortable l = true.
Proof.
  intros H. unfold sortable.
  assert (Hd : forallb is_timestamp (List.filter (fun c => negb (isna c)) l) = true).
  { apply forallb_forall. intros c Hc. apply list_elem_of_In in Hc.
    apply elem_of_List_filter in Hc as [Hc Hna].
    rewrite Forall_forall in H. specialize (H c Hc). by destruct c. }
  by rewrite Hd.
Qed.

(** X8. [sort_values] on a column of timestamps, some of them missing,
    returns the same rows in the order of their dates: the result is a
    permutation of the rows, every row comes before all rows dated
    later, and rows without a date come last.  The columns stay; a table
    without the column raises [KeyError]. *)
Theorem sort_values_sorts (df : DataFrame) (col : string) :
  (col ∈ col_names df ->
     Forall (fun r => match cell_at r col with
                      | Date _ _ _ | NA => True
                      | _ => False
                      end) (rows df) ->
     exists out, sort_values df col = Ok out
       /\ columns out = columns df
       /\ rows out ≡ₚ rows df
       /\ StronglySorted (by_date col) (rows out))
  /\ (col ∉ col_names df -> sort_values df col = Raise KeyError)
  /\ (forall r1 r2 y m d y' m' d',
        cell_at r1 col = Date y m d -> cell_at r2 col = Date y' m' d' ->
        (by_date col r1 r2 <->
         y < y' \/ (y = y' /\ (m < m' \/ (m = m' /\ d <= d')))))
  /\ (forall r1 r2 y m d, cell_at r1 col = Date y m d -> cell_at r2 col = NA ->
        by_date col r1 r2 /\ ~ by_date col r2 r1).
Proof.
  split.
  { intros Hcol Hd.
    destruct (sort_values df col) as [out|e] eqn:Hout.
    - exists out. split; [done|].
      destruct (sort_values_rows _ _ _ Hout) as [Hc Hp].
      split; [done|]. split; [done|]. by eapply sort_values_sorted.
    - exfalso. apply lookup_col_member in Hcol as [t Ht].
      unfold sort_values in Hout. rewrite Ht in Hout.
      rewrite timestamps_sortable in Hout; [discriminate|].
      by apply Forall_fmap. }
  split.
  { intros H. unfold sort_values. by rewrite lookup_col_None. }
  split.
  { intros r1 r2 y m d y' m' d' H1 H2. unfold by_date. rewrite H1, H2.
    rewrite Is_true_true. apply date_leb_spec. }
  intros r1 r2 y m d H1 H2. unfold by_date. rewrite H1, H2. simpl. auto.
Qed.

Lemma sort_values_sorts_witness :
  exists out, sort_values dated_loans "issue_d" = Ok out
              /\ col_values out "issue_d"
                 = [Date 2009 6 1; Date 2012 3 1; Date 2014 2 1; Date 2015 12 1]
              /\ col_values out "id" = [Int 1002; Int 1003; Int 1004; Int 1001]
              /\ rows out ≡ₚ rows dated_loans
              /\ StronglySorted (by_date "issue_d") (rows out).
Proof.
  destruct (proj1 (sort_values_sorts dated_loans "issue_d"))
    as (out & Hout & _ & Hp & Hs).
  - vm_compute. right. by left.
  - repeat constructor.
  - exists out. split; [exact Hout|].
    split; [revert Hout; vm_compute; by intros [= <-]|].
    split; [revert Hout; vm_compute; by intros [= <-]|].
    split; [exact Hp | exact Hs].
Defined.

(** ** Pruning the columns *)

Lemma names_del_col col cols :
  map fst (del_col col cols)
  = List.filter (fun c => negb (String.eqb c col)) (map fst cols).
Proof.
  induction cols as [|[c t] cols IH]; simpl; [done|].
  destruct (String.eqb c col); simpl; by rewrite IH.
Qed.

Lemma drop_total df col t :
  lookup_col col (columns df) = Some t ->
  drop df col = Ok {| columns := del_col col (columns df);
                      rows := map (del_cell col) (rows df) |}.
Proof. intros H. unfold drop. by rewrite H. Qed.

Lemma drop_Raise df col e : drop df col = Raise e -> e = KeyError.
Proof.
  unfold drop. destruct (lookup_col col (columns df)); [discriminate|].
  by intros [= <-].
Qed.

Lemma for_each_drop_Raise (l : list string) : forall df e,
  for_each drop df l = Raise e -> e = KeyError.
Proof.
  induction l as [|c l IH]; intros df e; simpl; [discriminate|].
  destruct (drop df c) as [d|e'] eqn:Hd; simpl.
  - apply IH.
  - intros [= <-]. by eapply drop_Raise.
Qed.

(** After a loop of [drop] none of the names is a column. *)
Lemma for_each_drop_names (l : list string) : forall df out,
  for_each drop df l = Ok out ->
  (forall c, c ∈ l -> c ∉ col_names out)
  /\ (forall c, c ∉ col_names df -> c ∉ col_names out)
  /\ (forall c, c ∉ l -> lookup_col c (columns out) = lookup_col c (columns df)).
Proof.
  induction l as [|c l IH]; intros df out H; simpl in H.
  - injection H as <-. split; [intros c Hc; by apply elem_of_nil in Hc|done].
  - bind_inv H as d Hd. apply drop_rows in Hd as [Hc _].
    destruct (IH _ _ H) as (IH1 & IH2 & IH3).
    assert (Hgone : c ∉ col_names d).
    { unfold col_names. rewrite Hc. intros Hin.
      apply lookup_col_member in Hin as [t Ht].
      by rewrite lookup_col_del_col in Ht. }
    split; [|split].
    + intros c' Hc'. apply elem_of_cons in Hc' as [->|Hc']; [by apply IH2 | by apply IH1].
    + intros c' Hc'. apply IH2. unfold col_names. rewrite Hc, names_del_col.
      intros Hin. apply elem_of_List_filter in Hin as [Hin _]. done.
    + intros c' Hc'. apply not_elem_of_cons in Hc' as [Hne Hc'].
      rewrite IH3, Hc by done. by apply lookup_col_del_col_ne.
Qed.

Lemma for_each_drop_cells (l : list string) : forall df out,
  for_each drop df l = Ok out ->
  forall r', r' ∈ rows out -> forall c, c ∈ l -> cell_at r' c = NA.
Proof.
  induction l as [|c l IH]; intros df out H r' Hr' c' Hc'; simpl in H.
  - by apply elem_of_nil in Hc'.
  - bind_inv H as d Hd. apply drop_rows in Hd as [_ Hrows].
    destruct (decide (c' ∈ l)) as [Hin|Hnin]; [by eapply IH|].
    apply elem_of_cons in Hc' as [->|Hc']; [|done].
    destruct (Forall2_member_r _ _ _ _ (for_each_drop_rows _ _ _ H) Hr')
      as (r1 & Hr1 & _ & Hsame).
    rewrite Hsame by done. rewrite Hrows in Hr1.
    apply list_elem_of_fmap in Hr1 as (r0 & -> & _).
    unfold cell_at, del_cell. simpl. by rewrite lookup_delete_eq.
Qed.

Lemma for_each_drop_total (l : list string) : forall df,
  NoDup l -> (forall c, c ∈ l -> c ∈ col_names df) ->
  exists out, for_each drop df l = Ok out.
Proof.
  induction l as [|c l IH]; intros df Hnd Hall; simpl; [by eexists|].
  apply NoDup_cons in Hnd as [Hc Hnd].
  destruct (lookup_col_member c (columns df)) as [t Ht]; [apply Hall; by left|].
  rewrite (drop_total _ _ _ Ht). simpl. apply IH; [done|].
  intros c' Hc'. unfold col_names. simpl.
  destruct (lookup_col_member c' (columns df)) as [t' Ht'];
    [apply Hall; by right|].
  eapply lookup_col_Some. rewrite lookup_col_del_col_ne; [exact Ht'|].
  intros ->. done.
Qed.

Lemma for_each_drop_missing (l : list string) : forall df c,
  c ∈ l -> c ∉ col_names df -> for_each drop df l = Raise KeyError.
Proof.
  intros df c Hc Hmiss.
  destruct (for_each drop df l) as [out|e] eqn:H.
  - exfalso. revert df Hmiss H. induction l as [|c' l IH]; intros df Hmiss H.
    + by apply elem_of_nil in Hc.
    + simpl in H. bind_inv H as d Hd.
      apply elem_of_cons in Hc as [->|Hc].
      * unfold drop in Hd. by rewrite lookup_col_None in Hd.
      * apply (IH Hc d); [|done]. apply drop_rows in Hd as [Hcols _].
        unfold col_names. rewrite Hcols, names_del_col.
        intros Hin. apply elem_of_List_filter in Hin as [Hin _]. done.
  - f_equal. by eapply for_each_drop_Raise.
Qed.

(** X9. [drop_unnecessary_cols] returns exactly when the table has all
    eight columns it prunes, and raises [KeyError] as soon as one is
    missing (so it cannot be applied twice).  In its result none of the
    eight is a column or has a value in any row; every other column
    keeps its type, and every row its label and its other values. *)
Theorem drop_unnecessary_cols_prunes (df : DataFrame) :
  ((forall c, c ∈ drop_cols -> c ∈ col_names df) ->
     exists out, drop_unnecessary_cols df = Ok out)
  /\ (forall c, c ∈ drop_cols -> c ∉ col_names df ->
        drop_unnecessary_cols df = Raise KeyError)
  /\ (forall out, drop_unnecessary_cols df = Ok out ->
        (forall c, c ∈ drop_cols ->
           (c ∉ col_names out) /\ (forall r', r' ∈ rows out -> cell_at r' c = NA))
        /\ (forall c, c ∉ drop_cols ->
              lookup_col c (columns out) = lookup_col c (columns df))
        /\ Forall2 (fun r r' => label r' = label r
                      /\ forall c, c ∉ drop_cols -> cell_at r' c = cell_at r c)
                   (rows df) (rows out)
        /\ drop_unnecessary_cols out = Raise KeyError).
Proof.
  split.
  { apply for_each_drop_total. unfold drop_cols.
    repeat (apply NoDup_cons; split; [not_in_list|]). apply NoDup_nil_2. }
  split; [apply for_each_drop_missing|].
  intros out H. destruct (for_each_drop_names _ _ _ H) as (Hn1 & _ & Hn3).
  split; [|split; [exact Hn3|split; [by apply for_each_drop_rows|]]].
  - intros c Hc. split; [by apply Hn1|].
    intros r' Hr'. by eapply for_each_drop_cells.
  - apply (for_each_drop_missing _ _ "zip_code"); [by left|]. apply Hn1. by left.
Qed.

Lemma drop_unnecessary_cols_prunes_witness :
  exists out, drop_unnecessary_cols raw_five_loans = Ok out
    /\ col_names out = ["id"; "loan_status"; "int_rate"; "revol_util"; "issue_d";
                        "emp_length"]
    /\ drop_unnecessary_cols out = Raise KeyError.
Proof.
  destruct (proj1 (drop_unnecessary_cols_prunes raw_five_loans)) as [out Hout].
  - intros c Hc. unfold drop_cols in Hc.
    repeat (apply elem_of_cons in Hc as [->|Hc];
            [vm_compute; apply list_elem_of_In; simpl; tauto|]).
    by apply elem_of_nil in Hc.
  - exists out. split; [exact Hout|]. split.
    + revert Hout. vm_compute. by intros [= <-].
    + apply (proj2 (proj2 (drop_unnecessary_cols_prunes raw_five_loans)) out Hout).
Defined.

(** X10. Whatever the feature-engineering stages add, the table the
    pipeline returns has none of the eight pruned columns and no [id]
    column, and none of its rows has a value under these names: [id]
    lives on as the label only. *)
Theorem pipeline_result_has_no_pruned_column (fe : feature_engineering)
  (df out : DataFrame) :
  clean_and_prepare_raw_data_for_model fe df = Ok out ->
  forall c, c ∈ ("id" :: drop_cols) ->
    (c ∉ col_names out) /\ (forall r', r' ∈ rows out -> cell_at r' c = NA).
Proof.
  intros H c Hc. rewrite pipeline_prepare_then_index in H.
  bind_inv H as final Hfinal.
  assert (Hprune : exists d, drop_unnecessary_cols d = Ok final).
  { unfold prepare_table in Hfinal.
    do 17 (apply bind_Ok in Hfinal as (? & _ & Hfinal)). by eexists. }
  destruct Hprune as [d Hd].
  assert (Hgone : forall c, c ∈ drop_cols ->
            (c ∉ col_names final)
            /\ (forall r', r' ∈ rows final -> cell_at r' c = NA)).
  { intros c' Hc'. split;
      [exact (proj1 (for_each_drop_names _ _ _ Hd) c' Hc')|].
    intros r' Hr'. by eapply for_each_drop_cells. }
  unfold set_index in H. bind_inv H as s Hs.
  simpl in H. injection H as <-. simpl.
  apply elem_of_cons in Hc as [->|Hc].
  - split.
    + unfold col_names. simpl. intros Hin.
      apply lookup_col_member in Hin as [t Ht].
      by rewrite lookup_col_del_col in Ht.
    + intros r' Hr'. apply list_elem_of_fmap in Hr' as (r & -> & _).
      unfold cell_at. simpl. by rewrite lookup_delete_eq.
  - destruct (Hgone c Hc) as [Hn Hcells]. split.
    + unfold col_names. simpl. rewrite names_del_col.
      intros Hin. apply elem_of_List_filter in Hin as [Hin _]. done.
    + intros r' Hr'. apply list_elem_of_fmap in Hr' as (r & -> & Hr).
      assert (Hne : "id" <> c).
      { intros <-. revert Hc. unfold drop_cols. not_in_list. }
      unfold cell_at. simpl. rewrite lookup_delete_ne by done.
      by apply Hcells.
Qed.

Lemma pipeline_result_has_no_pruned_column_witness :
  exists out,
    clean_and_prepare_raw_data_for_model plain_features raw_five_loans = Ok out
    /\ ("term" ∉ col_names out) /\ ("id" ∉ col_names out).
Proof.
  assert (exists out,
            clean_and_prepare_raw_data_for_model plain_features raw_five_loans = Ok out)
    as [out Hout] by (eexists; by vm_compute).
  exists out. split; [exact Hout|]. split.
  - apply (pipeline_result_has_no_pruned_column _ _ _ Hout).
    unfold drop_cols. do 5 right. by left.
  - apply (pipeline_result_has_no_pruned_column _ _ _ Hout). by left.
Defined.

(** ** Employment length *)

(** What the stage leaves in a cell of [emp_length]. *)
Lemma employment_length_coercion_value c :
  employment_length_coercion c =
    Ok match c with
       | Str x =>
           if String.eqb x "< 1 year" then NA
           else match Py.first_digit_run (Py.chars x) with
                | Some ds => float32_cell (Py.f64_of_Z (Py.digits_val ds))
                | None => NA
                end
       | _ => NA
       end.
Proof.
  destruct c as [|x| | | |]; try done.
  destruct (String.eqb_spec x "< 1 year") as [->|Hne]; [done|].
  rewrite employment_length_coercion_other by done.
  by destruct (Py.first_digit_run (Py.chars x)).
Qed.

(** X11. When [clean_employment_length] returns, every row keeps its
    label and its other values, and its [emp_length] is: for a string
    other than ["< 1 year"], the float of its first run of digits
    (["10+ years"] gives 10) or missing when it has no digit; missing for
    ["< 1 year"] and for whatever is not a string. *)
Theorem clean_employment_length_values (df out : DataFrame) :
  clean_employment_length df = Ok out ->
  Forall2 (fun r r' =>
             label r' = label r
             /\ (forall col, col <> "emp_length" -> cell_at r' col = cell_at r col)
             /\ cell_at r' "emp_length" =
                  match cell_at r "emp_length" with
                  | Str x =>
                      if String.eqb x "< 1 year" then NA
                      else match Py.first_digit_run (Py.chars x) with
                           | Some ds => float32_cell (Py.f64_of_Z (Py.digits_val ds))
                           | None => NA
                           end
                  | _ => NA
                  end)
          (rows df) (rows out).
Proof.
  intros H. apply clean_employment_length_rows in H.
  eapply Forall2_impl; [exact H|]. simpl.
  intros r r' (v & Hv & Hl & Hc & Ho).
  rewrite employment_length_coercion_value in Hv. injection Hv as <-.
  done.
Qed.

Lemma clean_employment_length_values_witness :
  exists out, clean_employment_length emp_frame = Ok out
    /\ col_values out "emp_length"
       = [NA; Flt (f32_of_Z 3); Flt (f32_of_Z 10); NA]
    /\ length (rows out) = length (rows emp_frame).
Proof.
  assert (exists out, clean_employment_length emp_frame = Ok out
            /\ col_values out "emp_length"
               = [NA; Flt (f32_of_Z 3); Flt (f32_of_Z 10); NA])
    as (out & Hout & Hv) by (eexists; split; by vm_compute).
  exists out. split; [exact Hout|]. split; [exact Hv|].
  symmetry. eapply Forall2_length, (clean_employment_length_values _ _ Hout).
Defined.

Lemma infer_dtype_numbers l :
  Forall (fun c => match c with Int _ | Flt _ | NA => True | _ => False end) l ->
  infer_dtype l <> object.
Proof.
  intros H. destruct l as [|c l]; [done|].
  unfold infer_dtype.
  assert (Hs : existsb is_str (c :: l) = false).
  { apply not_true_iff_false. intros Hex. apply existsb_exists in Hex as (x & Hx & Hsx).
    rewrite Forall_forall in H. apply list_elem_of_In in Hx. specialize (H x Hx).
    by destruct x. }
  assert (Hn : forallb (fun c => match c with Int _ | Flt _ | NA => true
                                 | _ => false end) (c :: l) = true).
  { apply forallb_forall. intros x Hx. rewrite Forall_forall in H.
    apply list_elem_of_In in Hx. specialize (H x Hx). by destruct x. }
  rewrite Hs, Hn.
  repeat match goal with |- context [if ?b then _ else _] => destruct b end; done.
Qed.

Lemma clean_employment_length_no_string df :
  "emp_length" ∈ col_names df ->
  Forall (fun r => match cell_at r "emp_length" with
                   | NA | Int _ | Flt _ => True
                   | Str x => x = "< 1 year"
                   | _ => False
                   end) (rows df) ->
  clean_employment_length df = Raise AttributeError.
Proof.
  intros Hcol Hall. destruct (getitem_member _ _ Hcol) as [t Ht].
  unfold clean_employment_length. rewrite Ht. simpl.
  set (l := map lt1_to_zero (col_values df "emp_length")).
  set (df1 := {| columns := set_dtype "emp_length" (infer_dtype l) (columns df);
                 rows := zip_with (set_cell "emp_length") l (rows df) |}).
  assert (Hset : setitem df "emp_length" (series_of_list l) = Ok df1).
  { apply setitem_same_length. simpl. unfold l, col_values.
    by rewrite !length_map. }
  rewrite Hset. simpl.
  rewrite (getitem_setitem _ _ _ _ Hset). simpl.
  unfold str_extract_digits, str_accessor. simpl.
  assert (Hd : infer_dtype l <> object).
  { apply infer_dtype_numbers. unfold l, col_values. rewrite map_map.
    apply Forall_fmap. eapply Forall_impl; [exact Hall|]. simpl.
    intros r Hr. unfold lt1_to_zero.
    destruct (cell_at r "emp_length") as [|x| | | |]; try done.
    subst x. done. }
  by destruct (infer_dtype l).
Qed.

Lemma clean_employment_length_nonempty df out :
  clean_employment_length df = Ok out -> rows out <> [].
Proof.
  intros Hout Hnil.
  pose proof (clean_employment_length_rows _ _ Hout) as Hrows.
  rewrite Hnil in Hrows. apply Forall2_nil_inv_r in Hrows.
  destruct (decide ("emp_length" ∈ col_names df)) as [Hcol|Hcol].
  - rewrite clean_employment_length_no_string in Hout; [discriminate|done|].
    rewrite Hrows. constructor.
  - unfold clean_employment_length in Hout.
    by rewrite getitem_missing in Hout.
Qed.

(** X12. [clean_employment_length] needs a string with more than
    ["< 1 year"] in it.  On a table without rows, and on a table where
    some employment length is ["< 1 year"] and every other one is
    ["< 1 year"] or missing, the column is numeric after the first
    statement and the stage raises [AttributeError]; on a table without
    the column it raises [KeyError].  It never returns a table without
    rows. *)
Theorem clean_employment_length_needs_a_string (df : DataFrame) :
  ("emp_length" ∈ col_names df ->
     rows df = []
     \/ (exists r, r ∈ rows df /\ cell_at r "emp_length" = Str "< 1 year") ->
     Forall (fun r => cell_at r "emp_length" = NA
                      \/ cell_at r "emp_length" = Str "< 1 year") (rows df) ->
     clean_employment_length df = Raise AttributeError)
  /\ ("emp_length" ∉ col_names df -> clean_employment_length df = Raise KeyError)
  /\ (forall out, clean_employment_length df = Ok out -> rows out <> []).
Proof.
  split.
  { intros Hcol _ Hall. apply clean_employment_length_no_string; [done|].
    eapply Forall_impl; [exact Hall|]. simpl. by intros r [->| ->]. }
  split.
  { intros H. unfold clean_employment_length. by rewrite getitem_missing. }
  intros out. apply clean_employment_length_nonempty.
Qed.

Lemma clean_employment_length_needs_a_string_witness :
  clean_employment_length emp_frame_all_lt1 = Raise AttributeError
  /\ clean_employment_length {| columns := [("emp_length", object)]; rows := [] |}
     = Raise AttributeError.
Proof.
  split.
  - apply (proj1 (clean_employment_length_needs_a_string _)).
    + vm_compute. by left.
    + right. eexists. split; [by left | by vm_compute].
    + repeat constructor; right; by vm_compute.
  - apply (proj1 (clean_employment_length_needs_a_string _)).
    + vm_compute. by left.
    + by left.
    + constructor.
Defined.

(** ** When the pipeline returns *)

(** The rows that reach the employment-length stage. *)
Lemma cleaned_rows_pass df d1 d2 d3 d4 d5 d6 d7 d8 d9 r9 :
  drop_loan_status df = Ok d1 ->
  DataCleaning.drop_joint_applicant_loans d1 = Ok d2 ->
  fix_rate_cols d2 = Ok d3 ->
  dropna d3 "issue_d" = Ok d4 ->
  fix_date_cols d4 = Ok d5 ->
  sort_values d5 "issue_d" = Ok d6 ->
  exclude_loans_before_2010 d6 = Ok d7 ->
  clean_loan_term_col d7 = Ok d8 ->
  only_include_36_month_loans d8 = Ok d9 ->
  r9 ∈ rows d9 ->
  exists r, r ∈ rows df /\ individual_36_months_from_2010 r.
Proof.
  intros H1 H2 H3 H4 H5 H6 H7 H8 H9 Hr9.
  apply only_include_36_month_loans_rows in H9 as [_ H9].
  rewrite H9 in Hr9. apply elem_of_List_filter in Hr9 as [Hr8 T9].
  destruct (Forall2_member_r _ _ _ _ (clean_loan_term_col_rows _ _ H8) Hr8)
    as (r7 & Hr7 & v & Hv & _ & Ev & E8).
  apply exclude_loans_before_2010_rows in H7 as (_ & t7 & _ & H7).
  rewrite H7 in Hr7. apply elem_of_List_filter in Hr7 as [Hr6 D7].
  apply sort_values_rows in H6 as [_ H6]. rewrite H6 in Hr6.
  destruct (Forall2_member_r _ _ _ _ (fix_date_cols_rows _ _ H5) Hr6)
    as (r4 & Hr4 & _ & Ed & E5).
  apply elem_of_List_filter in Hr4 as [Hr4 _].
  apply dropna_rows in H4 as [_ H4].
  rewrite H4 in Hr4. apply elem_of_List_filter in Hr4 as [Hr3 _].
  destruct (Forall2_member_r _ _ _ _ (fix_rate_cols_rows _ _ H3) Hr3)
    as (r2 & Hr2 & _ & _ & E3).
  apply drop_joint_applicant_loans_rows in H2 as [_ H2].
  rewrite H2 in Hr2. apply elem_of_List_filter in Hr2 as [Hr1 A2].
  apply drop_rows in H1 as [_ H1]. rewrite H1 in Hr1.
  apply list_elem_of_fmap in Hr1 as (r0 & -> & Hr0).
  exists r0. split; [exact Hr0|]. split; [|split].
  - apply is_individual_spec in A2. destruct A2 as (x & Hx & Hu).
    exists x. split; [|done]. rewrite <- Hx. symmetry. by apply cell_at_del_cell_ne.
  - apply (is_36_months_spec _ _ _ Hv Ev) in T9.
    destruct T9 as (x & Hx & Hs). exists x. split; [|done].
    rewrite <- Hx. rewrite E5 by (unfold date_cols; not_in_list).
    rewrite E3 by (unfold rate_cols; not_in_list).
    symmetry. by apply cell_at_del_cell_ne.
  - specialize (Ed "issue_d" ltac:(unfold date_cols; by left)).
    apply (kept_from_2010_spec _ _ _ Ed) in D7.
    destruct D7 as (y & m & d & Hd & Hle). exists y, m, d. split; [|done].
    rewrite <- Hd. f_equal. symmetry.
    rewrite E3 by (unfold rate_cols; not_in_list).
    by apply cell_at_del_cell_ne.
Qed.

(** X13. The pipeline returns only on a table with a loan for it to
    keep.  Whatever the feature-engineering stages, when it returns,
    some row of the raw table is an individual 36-month loan issued in
    2010 or later; on a table without such a row (all loans before 2010,
    all loans of 60 months, no row at all) it ends in an exception and
    returns no table, not even an empty one. *)
Theorem pipeline_needs_a_passing_row (fe : feature_engineering) (df : DataFrame) :
  (forall out, clean_and_prepare_raw_data_for_model fe df = Ok out ->
     exists r, r ∈ rows df /\ individual_36_months_from_2010 r)
  /\ ((forall r, r ∈ rows df -> ~ individual_36_months_from_2010 r) ->
      exists e, clean_and_prepare_raw_data_for_model fe df = Raise e).
Proof.
  assert (Hret : forall out, clean_and_prepare_raw_data_for_model fe df = Ok out ->
                   exists r, r ∈ rows df /\ individual_36_months_from_2010 r).
  { intros out H. unfold clean_and_prepare_raw_data_for_model in H.
    bind_inv H as d1 H1. bind_inv H as d2 H2. bind_inv H as d3 H3.
    bind_inv H as d4 H4. bind_inv H as d5 H5. bind_inv H as d6 H6.
    bind_inv H as d7 H7. bind_inv H as d8 H8. bind_inv H as d9 H9.
    bind_inv H as d10 H10. clear H.
    pose proof (clean_employment_length_nonempty _ _ H10) as Hne.
    pose proof (clean_employment_length_rows _ _ H10) as Hrows.
    destruct (rows d9) as [|r9 l] eqn:Hd9.
    { apply Forall2_nil_inv_l in Hrows. done. }
    eapply (cleaned_rows_pass df d1 d2 d3 d4 d5 d6 d7 d8 d9 r9); eauto.
    rewrite Hd9. by left. }
  split; [exact Hret|].
  intros Hnone.
  destruct (clean_and_prepare_raw_data_for_model fe df) as [out|e] eqn:H;
    [|by exists e].
  destruct (Hret out eq_refl) as (r & Hr & HP). by destruct (Hnone r Hr).
Qed.

Lemma pipeline_needs_a_passing_row_witness :
  (exists out,
     clean_and_prepare_raw_data_for_model plain_features raw_five_loans = Ok out
     /\ exists r, r ∈ rows raw_five_loans /\ individual_36_months_from_2010 r)
  /\ clean_and_prepare_raw_data_for_model plain_features
       {| columns := raw_columns;
          rows := [raw_row 0 1004 "Fully Paid" "Individual" "11.5%" "9-Jun"
                           " 36 months" "5 years"] |}
     = Raise AttributeError.
Proof.
  split.
  - assert (exists out,
              clean_and_prepare_raw_data_for_model plain_features raw_five_loans
              = Ok out) as [out Hout] by (eexists; by vm_compute).
    exists out. split; [exact Hout|].
    exact (proj1 (pipeline_needs_a_passing_row plain_features raw_five_loans)
             out Hout).
  - by vm_compute.
Defined.

(** ** Dates, in general *)

Lemma Zrange_member lo n x :
  lo <= x < lo + Z.of_nat n -> In x (Zrange lo n).
Proof.
  intros H. unfold Zrange. apply in_map_iff.
  exists (Z.to_nat (x - lo)). split; [lia|]. apply in_seq. lia.
Qed.

Lemma is_date_spec c y m : is_date c y m = true -> c = Ok (Date y m 1).
Proof.
  destruct c as [[| | | |y' m' d'|]|]; simpl; try discriminate.
  rewrite !andb_true_iff, !Z.eqb_eq. by intros [[-> ->] ->].
Qed.

Lemma check_all (check : Z -> Z -> bool) lo n i y :
  forallb (fun i => forallb (check i) (Zrange lo n)) (Zrange 1 12) = true ->
  1 <= i <= 12 -> lo <= y < lo + Z.of_nat n -> check i y = true.
Proof.
  intros Hall Hi Hy. rewrite forallb_forall in Hall.
  specialize (Hall i (Zrange_member 1 12 i ltac:(lia))).
  rewrite forallb_forall in Hall. apply Hall, Zrange_member, Hy.
Qed.

(** X14. [convert_date] reads back every month in the spellings of the
    loan files.  [Mon-YY] and [YY-Mon] give the first day of that month,
    in 2000-2068 for a year up to 68 and in 1969-1999 from 69 on; a
    one-digit year [Y-Mon] is padded and gives 2000-2009; [Mon-YYYY]
    gives the year as written, for every year a [Timestamp] can hold in
    full. *)
Theorem convert_date_round_trip (i : Z) :
  1 <= i <= 12 ->
  (forall yy, 0 <= yy <= 99 ->
     convert_date (Str (mon_yy i yy)) = Ok (Date (pivot yy) i 1)
     /\ convert_date (Str (yy_mon i yy)) = Ok (Date (pivot yy) i 1))
  /\ (forall y, 0 <= y <= 9 ->
        convert_date (Str (y_mon i y)) = Ok (Date (2000 + y) i 1))
  /\ (forall y, 1678 <= y <= 2261 ->
        convert_date (Str (mon_yyyy i y)) = Ok (Date y i 1)).
Proof.
  intros Hi. split; [|split].
  - intros yy Hyy.
    assert (H : check_two_digit i yy = true).
    { apply (check_all check_two_digit 0 100); [by vm_compute|done|lia]. }
    unfold check_two_digit in H. apply andb_true_iff in H as [H1 H2].
    split; by apply is_date_spec.
  - intros y Hy. apply is_date_spec.
    apply (check_all check_one_digit 0 10); [by vm_compute|done|lia].
  - intros y Hy. apply is_date_spec.
    apply (check_all check_four_digit 1678 584); [by vm_compute|done|lia].
Qed.

Lemma convert_date_round_trip_witness :
  convert_date (Str "Jan-65") = Ok (Date 2065 1 1)
  /\ convert_date (Str "99-Dec") = Ok (Date 1999 12 1)
  /\ convert_date (Str "7-Mar") = Ok (Date 2007 3 1)
  /\ convert_date (Str "Oct-1985") = Ok (Date 1985 10 1).
Proof.
  split; [|split; [|split]].
  - apply (proj1 (proj1 (convert_date_round_trip 1 ltac:(lia)) 65 ltac:(lia))).
  - apply (proj2 (proj1 (convert_date_round_trip 12 ltac:(lia)) 99 ltac:(lia))).
  - apply (proj1 (proj2 (convert_date_round_trip 3 ltac:(lia))) 7 ltac:(lia)).
  - apply (proj2 (proj2 (convert_date_round_trip 10 ltac:(lia))) 1985 ltac:(lia)).
Defined.

Lemma index_of_bounds x l : forall i j,
  index_of x l i = Some j -> i <= j < i + Z.of_nat (length l).
Proof.
  induction l as [|y l IH]; intros i j; simpl; [discriminate|].
  destruct (String.eqb x y).
  - intros [= <-]. lia.
  - intros H. apply IH in H. lia.
Qed.

(** A match leaves a month number a month number. *)
Lemma match_directives_month ds : forall l y m y' m',
  match_directives ds l y m = Some (y', m') -> 1 <= m <= 12 -> 1 <= m' <= 12.
Proof.
  induction ds as [|d ds IH]; intros l y m y' m'; cbn [match_directives].
  - destruct l; [|discriminate]. by intros [= _ <-].
  - destruct d as [| | |c].
    + destruct l as [|a [|b r]]; try discriminate.
      match goal with |- context [if ?t then _ else _] => destruct t end;
        [|discriminate]. apply IH.
    + destruct l as [|a [|b [|c [|d r]]]]; try discriminate.
      match goal with |- context [if ?t then _ else _] => destruct t end;
        [|discriminate]. apply IH.
    + destruct l as [|a [|b [|c r]]]; try discriminate.
      match goal with |- context [index_of ?t month_names 1] =>
        destruct (index_of t month_names 1) as [i|] eqn:Hi end; [|discriminate].
      intros H _. apply index_of_bounds in Hi. simpl in Hi.
      eapply IH; [exact H|lia].
    + destruct l as [|a r]; [discriminate|].
      match goal with |- context [if ?t then _ else _] => destruct t end;
        [|discriminate]. apply IH.
Qed.

Lemma in_bounds_years y m : in_bounds y m = true -> 1677 <= y <= 2262.
Proof.
  unfold in_bounds. rewrite andb_true_iff, !date_leb_spec. lia.
Qed.

(** What [to_datetime] returns and raises. *)
Lemma to_datetime_outcome x fmt :
  match to_datetime x fmt with
  | Ok v => (v = NA /\ x ∈ nat_strings)
            \/ (exists y m, v = Date y m 1 /\ 1 <= m <= 12 /\ in_bounds y m = true)
  | Raise e => e = ValueError
  end.
Proof.
  unfold to_datetime. destruct (existsb _ _) eqn:Hn.
  - left. split; [done|]. apply existsb_exists in Hn as (s & Hs & He).
    apply String.eqb_eq in He. subst s. by apply list_elem_of_In.
  - destruct (compile_format _) as [ds|]; [|done].
    destruct (match_directives _ _ _ _) as [[y m]|] eqn:Hm; [|done].
    destruct (in_bounds y m) eqn:Hb; [|done].
    right. exists y, m. split; [done|]. split; [|done].
    eapply match_directives_month; [exact Hm|lia].
Qed.

Lemma length_chars s : length (Py.chars s) = String.length s.
Proof. induction s; simpl; [done|]. by f_equal. Qed.

Lemma length_str l : String.length (Py.str l) = length l.
Proof. induction l; simpl; [done|]. by f_equal. Qed.

Lemma rjust_length w f s : (w <= String.length (Py.rjust w f s))%nat.
Proof.
  unfold Py.rjust. rewrite length_str, length_app, repeat_length, length_chars. lia.
Qed.

Lemma rjust_not_nat x : Py.rjust 6 "0" x ∉ nat_strings.
Proof.
  intros H. pose proof (rjust_length 6 "0" x) as Hl.
  unfold nat_strings in H.
  repeat (apply elem_of_cons in H as [H|H]; [rewrite H in Hl; simpl in Hl; lia|]).
  by apply elem_of_nil in H.
Qed.

Lemma index_of_None x l : forall i,
  existsb (String.eqb x) l = false -> index_of x l i = None.
Proof.
  induction l as [|y l IH]; intros i; simpl; [done|].
  intros H. apply orb_false_iff in H as [-> H]. by apply IH.
Qed.

Lemma not_nat_string x : x ∉ nat_strings -> existsb (String.eqb x) nat_strings = false.
Proof.
  intros H. apply not_true_iff_false. intros Hex.
  apply existsb_exists in Hex as (s & Hs & He). apply String.eqb_eq in He.
  subst s. by apply H, list_elem_of_In.
Qed.

(** A text that does not begin with a month matches neither [%b-%y] nor
    [%b-%Y]. *)
Lemma no_month_no_match l ds y m :
  starts_with_month l = false -> match_directives (D_b :: ds) l y m = None.
Proof.
  intros H. cbn [match_directives].
  destruct l as [|a [|b [|c r]]]; try done.
  unfold starts_with_month in H. by rewrite (index_of_None _ _ _ H).
Qed.

(** A text of more than six characters does not match [%y-%b]. *)
Lemma long_no_match l y m :
  (6 < length l)%nat ->
  match_directives [D_y; D_lit "-"; D_b] l y m = None.
Proof.
  intros Hlen.
  destruct l as [|a [|b [|c [|d [|e [|f [|g r]]]]]]]; simpl in Hlen; try lia.
  cbn [match_directives].
  repeat match goal with
         | |- context [if ?t then _ else _] => destruct t
         | |- context [index_of ?t month_names 1] =>
             destruct (index_of t month_names 1)
         end; done.
Qed.

Lemma rjust_long w f x : (w <= String.length x)%nat -> Py.rjust w f x = x.
Proof.
  intros H. unfold Py.rjust.
  replace (w - String.length x)%nat with 0%nat by lia.
  simpl. unfold Py.str, Py.chars. apply string_of_list_ascii_of_string.
Qed.

(** X15. The outcomes of [convert_date].  It returns on a non-empty
    string only.  The words [now] and [today] apart, what it returns is
    a missing value, for one of the spellings of [NaT], or the first day
    of a month.  A value that is no string (a missing value, a number, a
    timestamp) raises [TypeError] and the empty string [IndexError].  A
    string in none of the three shapes raises [ValueError] and gives no
    missing value: so does one that begins with neither a digit nor a
    month and is neither a spelling of [NaT] nor one of the two words,
    and one that begins with a digit and has more than six characters. *)
Theorem convert_date_outcome (c : cell) :
  (forall v, convert_date c = Ok v -> exists x, c = Str x /\ x <> "")
  /\ (forall x v, c = Str x -> names_the_present x = false ->
        convert_date c = Ok v ->
        (v = NA /\ x ∈ nat_strings)
        \/ (exists y m, v = Date y m 1 /\ 1 <= m <= 12))
  /\ ((forall x, c <> Str x) -> convert_date c = Raise TypeError)
  /\ (c = Str "" -> convert_date c = Raise IndexError)
  /\ (forall x c0 l, c = Str x -> Py.chars x = c0 :: l ->
        Py.isdigit c0 = false -> x ∉ nat_strings ->
        names_the_present x = false ->
        starts_with_month (Py.chars x) = false ->
        convert_date c = Raise ValueError)
  /\ (forall x c0 l, c = Str x -> Py.chars x = c0 :: l ->
        Py.isdigit c0 = true -> (6 < String.length x)%nat ->
        convert_date c = Raise ValueError).
Proof.
  split.
  { intros v Hv. destruct c as [|x| | | |]; try discriminate.
    exists x. split; [done|]. intros ->. discriminate Hv. }
  split.
  { intros x v -> _ Hv.
    assert (Hshape : forall s fmt w, to_datetime s fmt = Ok w ->
              (w = NA /\ s ∈ nat_strings)
              \/ (exists y m, w = Date y m 1 /\ 1 <= m <= 12)).
    { intros s fmt w Hw. pose proof (to_datetime_outcome s fmt) as H.
      rewrite Hw in H. destruct H as [H|(y & m & H1 & H2 & _)]; [by left|].
      right. by exists y, m. }
    unfold convert_date in Hv.
    destruct (Py.chars x) as [|c0 l]; [discriminate|].
    destruct (Py.isdigit c0).
    - destruct (Hshape _ _ _ Hv) as [[_ H]|H];
        [by apply rjust_not_nat in H | by right].
    - destruct (to_datetime x "%b-%y") as [w|e] eqn:H1.
      + injection Hv as <-. by apply (Hshape _ _ _ H1).
      + by apply (Hshape _ _ _ Hv). }
  split.
  { intros H. destruct c as [|x| | | |]; try done. by destruct (H x). }
  split; [by intros ->|].
  split.
  { intros x c0 l -> Hx Hd Hnat _ Hmon. unfold convert_date. rewrite Hx, Hd.
    assert (Hraise : forall fmt ds,
              compile_format (Py.chars fmt) = Some (D_b :: ds) ->
              to_datetime x fmt = Raise ValueError).
    { intros fmt ds Hfmt. unfold to_datetime.
      rewrite (not_nat_string _ Hnat), Hfmt.
      by rewrite (no_month_no_match _ _ _ _ Hmon). }
    rewrite (Hraise "%b-%y" [D_lit "-"; D_y]) by done.
    by rewrite (Hraise "%b-%Y" [D_lit "-"; D_Y]). }
  intros x c0 l -> Hx Hd Hlen. unfold convert_date. rewrite Hx, Hd.
  rewrite rjust_long by lia. unfold to_datetime.
  assert (Hnat : existsb (String.eqb x) nat_strings = false).
  { apply not_nat_string. intros H. unfold nat_strings in H.
    repeat (apply elem_of_cons in H as [H|H];
            [rewrite H in Hlen; simpl in Hlen; lia|]).
    by apply elem_of_nil in H. }
  rewrite Hnat.
  change (compile_format (Py.chars "%y-%b")) with (Some [D_y; D_lit "-"%char; D_b]).
  cbv beta iota. rewrite long_no_match; [done|]. by rewrite length_chars.
Qed.

Lemma convert_date_outcome_witness :
  convert_date (Str "unknown") = Raise ValueError
  /\ convert_date (Str "2015-Dec") = Raise ValueError
  /\ convert_date NA = Raise TypeError
  /\ convert_date (Str "Dec-2015") = Ok (Date 2015 12 1)
  /\ ((Date 2015 12 1 = NA /\ "Dec-2015" ∈ nat_strings)
      \/ (exists y m, Date 2015 12 1 = Date y m 1 /\ 1 <= m <= 12)).
Proof.
  split; [|split; [|split; [|split; [by vm_compute|]]]]; cycle 3.
  - by apply (proj1 (proj2 (convert_date_outcome (Str "Dec-2015")))
                "Dec-2015" (Date 2015 12 1)).
  - apply (proj1 (proj2 (proj2 (proj2 (proj2 (convert_date_outcome (Str "unknown"))))))
             "unknown" "u"%char (Py.chars "nknown")); try done.
    unfold nat_strings. not_in_list.
  - apply (proj2 (proj2 (proj2 (proj2 (proj2 (convert_date_outcome (Str "2015-Dec"))))))
             "2015-Dec" "2"%char (Py.chars "015-Dec")); try done.
    simpl. lia.
  - apply (proj1 (proj2 (proj2 (convert_date_outcome NA)))). by intros x.
Defined.

(** ** Applying a coercion twice *)

Lemma fix_rate_col_columns df col out :
  fix_rate_col df col = Ok out -> columns out = set_dtype col float32 (columns df).
Proof.
  unfold fix_rate_col. intros H.
  bind_inv H as s Hs. bind_inv H as t Ht. bind_inv H as f Hf.
  unfold astype_float32 in Hf. bind_inv Hf as ws Hws. injection Hf as <-.
  by apply setitem_Ok in H as (_ & -> & _).
Qed.

Lemma fix_rate_cols_twice df out :
  fix_rate_cols df = Ok out -> fix_rate_cols out = Raise AttributeError.
Proof.
  unfold fix_rate_cols, rate_cols. cbn [for_each]. intros H.
  bind_inv H as d1 H1. bind_inv H as d2 H2. injection H as <-.
  apply fix_rate_col_columns in H1, H2.
  assert (Hl : lookup_col "int_rate" (columns d2) = Some float32).
  { rewrite H2, lookup_col_set_dtype_ne by done.
    rewrite H1. apply lookup_col_set_dtype_eq. }
  assert (Hf : fix_rate_col d2 "int_rate" = Raise AttributeError)
    by (unfold fix_rate_col, getitem; by rewrite Hl).
  by rewrite Hf.
Qed.

Lemma clean_loan_term_col_twice df out :
  clean_loan_term_col df = Ok out -> rows out <> [] ->
  clean_loan_term_col out = Raise AttributeError.
Proof.
  intros H Hne.
  pose proof (clean_loan_term_col_dtype _ _ H) as Hl.
  pose proof (clean_loan_term_col_rows _ _ H) as Hrows.
  unfold clean_loan_term_col, getitem. rewrite Hl. cbn [mbind result_bind values].
  destruct Hrows as [|r r' l l' (v & Hv & _ & Hc & _) _]; [done|].
  apply term_coercion_Ok in Hv as (x & _ & ->).
  cbn [map mapM]. rewrite Hc. done.
Qed.

Lemma clean_employment_length_columns df out :
  clean_employment_length df = Ok out ->
  lookup_col "emp_length" (columns out) = Some float32.
Proof.
  unfold clean_employment_length. intros H.
  bind_inv H as s Hs. bind_inv H as df1 Hdf1. bind_inv H as s1 Hs1.
  bind_inv H as e He. bind_inv H as f Hf.
  unfold astype_float32 in Hf. bind_inv Hf as ws Hws. injection Hf as <-.
  apply setitem_Ok in H as (_ & -> & _). apply lookup_col_set_dtype_eq.
Qed.

Lemma clean_employment_length_twice df out :
  clean_employment_length df = Ok out ->
  clean_employment_length out = Raise AttributeError.
Proof.
  intros H. apply clean_employment_length_no_string.
  - eapply lookup_col_Some, clean_employment_length_columns, H.
  - apply clean_employment_length_rows in H.
    apply Forall_forall. intros r' Hr'.
    destruct (Forall2_member_r _ _ _ _ H Hr') as (r & _ & v & Hv & _ & Hc & _).
    rewrite employment_length_coercion_value in Hv. injection Hv as <-.
    rewrite Hc. destruct (cell_at r "emp_length") as [|x| | | |]; try done.
    destruct (String.eqb x "< 1 year"); [done|].
    destruct (Py.first_digit_run (Py.chars x)) as [ds|]; [|done].
    unfold float32_cell. by destruct (Py.f64_of_Z (Py.digits_val ds)).
Qed.

Lemma map_col_columns df col f out :
  map_col df col f = Ok out ->
  exists t, columns out = set_dtype col t (columns df).
Proof.
  unfold map_col. intros H. bind_inv H as s Hs. bind_inv H as s' Hs'.
  apply setitem_Ok in H as (_ & -> & _). by eexists.
Qed.

Lemma fix_date_cols_twice df out :
  fix_date_cols df = Ok out ->
  (exists r, r ∈ rows out /\ cell_at r "issue_d" <> NA) ->
  fix_date_cols out = Raise TypeError.
Proof.
  intros H (r0 & Hr0 & Hna).
  pose proof (fix_date_cols_rows _ _ H) as Hrows.
  assert (Hcol : "issue_d" ∈ col_names out).
  { unfold fix_date_cols in H.
    bind_inv H as d1 H1. bind_inv H as d2 H2. bind_inv H as d3 H3.
    bind_inv H as d4 H4.
    apply map_col_columns in H2 as [t2 H2], H3 as [t3 H3], H as [t5 H].
    apply dropna_rows in H4 as [H4 _].
    eapply lookup_col_Some.
    rewrite H, lookup_col_set_dtype_ne, H4, H3, lookup_col_set_dtype_ne, H2 by done.
    apply lookup_col_set_dtype_eq. }
  assert (Hdates : forall r, r ∈ rows out -> cell_at r "issue_d" <> NA ->
                     convert_date (cell_at r "issue_d") = Raise TypeError).
  { intros r Hr Hn.
    destruct (Forall2_member_r _ _ _ _ Hrows Hr) as (r1 & _ & _ & Hd & _).
    specialize (Hd "issue_d" ltac:(unfold date_cols; by left)).
    apply convert_date_Ok in Hd as [Hd|(y & m & Hd)]; [done|]. by rewrite Hd. }
  unfold fix_date_cols. rewrite (dropna_total _ _ Hcol). cbn [mbind result_bind].
  set (d1 := {| columns := columns out;
                rows := List.filter (fun r => negb (isna (cell_at r "issue_d")))
                          (rows out) |}).
  assert (Hm : map_col d1 "issue_d" convert_date = Raise TypeError).
  { destruct (getitem_member d1 "issue_d" Hcol) as [t Ht].
    unfold map_col. rewrite Ht. cbn [mbind result_bind].
    unfold series_map. cbn [values].
    assert (Hin : cell_at r0 "issue_d" ∈ col_values d1 "issue_d").
    { unfold col_values. apply list_elem_of_fmap. exists r0. split; [done|].
      unfold d1. cbn [rows]. apply elem_of_List_filter. split; [done|].
      by destruct (cell_at r0 "issue_d"). }
    destruct (mapM_some_Raise convert_date _ _ _ Hin (Hdates r0 Hr0 Hna)) as [e He].
    rewrite He. cbn [mbind result_bind]. f_equal.
    apply mapM_Raise in He as (c & Hc & Hec).
    unfold col_values in Hc. apply list_elem_of_fmap in Hc as (r & -> & Hr).
    unfold d1 in Hr. cbn [rows] in Hr. apply elem_of_List_filter in Hr as [Hr Hn].
    rewrite Hdates in Hec; [by injection Hec | done |].
    by destruct (cell_at r "issue_d"). }
  by rewrite Hm.
Qed.

(** X16. No coercion stage can be applied to its own result.  After
    [fix_rate_cols], [clean_loan_term_col] or [clean_employment_length]
    the column holds numbers, and the string method of the second call
    raises [AttributeError]; after [fix_date_cols] the column holds
    timestamps, which [convert_date] cannot index: [TypeError].  For the
    term this is shown of a result with at least one row, for the dates
    of a result with at least one issue date. *)
Theorem coercions_cannot_be_repeated (df out : DataFrame) :
  (fix_rate_cols df = Ok out -> fix_rate_cols out = Raise AttributeError)
  /\ (clean_loan_term_col df = Ok out -> rows out <> [] ->
      clean_loan_term_col out = Raise AttributeError)
  /\ (clean_employment_length df = Ok out ->
      clean_employment_length out = Raise AttributeError)
  /\ (fix_date_cols df = Ok out ->
      (exists r, r ∈ rows out /\ cell_at r "issue_d" <> NA) ->
      fix_date_cols out = Raise TypeError).
Proof.
  split; [apply fix_rate_cols_twice|].
  split; [apply clean_loan_term_col_twice|].
  split; [apply clean_employment_length_twice|].
  apply fix_date_cols_twice.
Qed.

Lemma coercions_cannot_be_repeated_witness :
  (exists out, fix_rate_cols rate_frame = Ok out
     /\ fix_rate_cols out = Raise AttributeError)
  /\ (exists out, clean_loan_term_col term_frame = Ok out
        /\ clean_loan_term_col out = Raise AttributeError)
  /\ (exists out, clean_employment_length emp_frame = Ok out
        /\ clean_employment_length out = Raise AttributeError)
  /\ (exists out, fix_date_cols raw_dates = Ok out
        /\ fix_date_cols out = Raise TypeError).
Proof.
  split; [|split; [|split]].
  - assert (exists out, fix_rate_cols rate_frame = Ok out) as [out Hout]
      by (eexists; by vm_compute).
    exists out. split; [exact Hout|].
    exact (proj1 (coercions_cannot_be_repeated rate_frame out) Hout).
  - assert (exists out, clean_loan_term_col term_frame = Ok out
              /\ length (rows out) = 3%nat) as (out & Hout & Hlen)
      by (eexists; split; by vm_compute).
    exists out. split; [exact Hout|].
    apply (proj1 (proj2 (coercions_cannot_be_repeated term_frame out)) Hout).
    intros Hnil. rewrite Hnil in Hlen. discriminate Hlen.
  - assert (exists out, clean_employment_length emp_frame = Ok out) as [out Hout]
      by (eexists; by vm_compute).
    exists out. split; [exact Hout|].
    exact (proj1 (proj2 (proj2 (coercions_cannot_be_repeated emp_frame out))) Hout).
  - assert (exists out, fix_date_cols raw_dates = Ok out
              /\ exists r l, rows out = r :: l
                   /\ cell_at r "issue_d" = Date 2015 12 1)
      as (out & Hout & r & l & Hrows & Hd).
    { eexists. split; [by vm_compute|].
      do 2 eexists. split; by vm_compute. }
    exists out. split; [exact Hout|].
    apply (proj2 (proj2 (proj2 (coercions_cannot_be_repeated raw_dates out))) Hout).
    exists r. split; [rewrite Hrows; by left | by rewrite Hd].
Defined.

(** ** Imputation, again *)

Lemma set_dtype_id col t cols :
  lookup_col col cols = Some t -> set_dtype col t cols = cols.
Proof.
  induction cols as [|[c t'] cols IH]; simpl; [discriminate|].
  destruct (String.eqb_spec c col) as [->|Hne].
  - by intros [= ->].
  - intros H. by rewrite IH.
Qed.

Lemma set_cell_id col r :
  cell_at r col <> NA -> set_cell col (cell_at r col) r = r.
Proof.
  unfold cell_at, set_cell. destruct r as [l m]. simpl.
  destruct (m !! col) as [c|] eqn:Hc; simpl; [|done].
  intros _. f_equal. by apply insert_id.
Qed.


(** One round of the loop of [fill_nas]. *)
Lemma fill_na_col_Ok value df col out :
  fill_na_col value df col = Ok out ->
  exists t, lookup_col col (columns df) = Some t
    /\ columns out =
         set_dtype col (if existsb isna (col_values df col) && negb (can_hold t value)
                        then object else t) (columns df)
    /\ rows out = zip_with (set_cell col) (map (fill_cell value) (col_values df col))
                    (rows df).
Proof.
  unfold fill_na_col. intros H. bind_inv H as s Hs.
  apply getitem_Ok in Hs as [Hl Hv]. exists (dtype_of s). split; [done|].
  apply setitem_Ok in H as (_ & Hc & Hr). simpl in Hc, Hr.
  rewrite Hv in Hc, Hr. by split.
Qed.

Lemma fill_na_col_id value df col :
  col ∈ col_names df ->
  (forall r, r ∈ rows df -> cell_at r col <> NA) ->
  fill_na_col value df col = Ok df.
Proof.
  intros Hcol Hna.
  destruct (fill_na_col_spec value df col Hcol) as (cols' & _ & Hout).
  rewrite Hout. apply fill_na_col_Ok in Hout as (t & Ht & Hc & _).
  simpl in Hc. rewrite Hc. clear Hc.
  assert (Hno : existsb isna (col_values df col) = false).
  { apply not_true_iff_false. intros H.
    apply existsb_exists in H as (c & Hc & Hn).
    apply list_elem_of_In in Hc. unfold col_values in Hc.
    apply list_elem_of_fmap in Hc as (r & -> & Hr).
    specialize (Hna r Hr). by destruct (cell_at r col). }
  rewrite Hno. simpl. rewrite (set_dtype_id _ _ _ Ht).
  assert (Hrows : map (fun r => set_cell col (fill_cell value (cell_at r col)) r)
                    (rows df) = rows df).
  { transitivity (map id (rows df)); [|apply map_id].
    apply map_ext_in. intros r Hr. apply list_elem_of_In in Hr.
    specialize (Hna r Hr). unfold fill_cell, id.
    destruct (cell_at r col) eqn:Hc; try done;
      simpl; rewrite <- Hc; apply set_cell_id; by rewrite Hc. }
  rewrite Hrows. by destruct df.
Qed.

Lemma for_each_fill_id value df (cols : list string) :
  (forall c, c ∈ cols -> c ∈ col_names df) ->
  (forall c r, c ∈ cols -> r ∈ rows df -> cell_at r c <> NA) ->
  for_each (fill_na_col value) df cols = Ok df.
Proof.
  induction cols as [|col cols IH]; intros Hcols Hna; simpl; [done|].
  rewrite fill_na_col_id.
  - simpl. apply IH.
    + intros c Hc. apply Hcols. by right.
    + intros c r Hc. apply Hna. by right.
  - apply Hcols. by left.
  - intros r. apply Hna. by left.
Qed.

(** X17. Imputation is idempotent: applied to its own result, with the
    same value, [fill_nas] returns that table unchanged, rows, labels,
    columns and types. *)
Theorem fill_nas_idempotent (df out : DataFrame) (value : cell) :
  value <> NA -> fill_nas df value = Ok out -> fill_nas out value = Ok out.
Proof.
  intros Hv H.
  destruct (fill_nas_spec df value) as (o & Ho & Hcols & Hrows).
  rewrite H in Ho. injection Ho as <-.
  unfold fill_nas. apply for_each_fill_id; [done|].
  intros c r' Hc Hr'.
  destruct (Forall2_member_r _ _ _ _ Hrows Hr') as (r & _ & Hf).
  eapply filled_not_missing; [exact Hf|done|].
  by rewrite <- Hcols.
Qed.

Lemma fill_nas_idempotent_witness :
  exists out, fill_nas sparse_frame (Int (-99)) = Ok out
              /\ fill_nas out (Int (-99)) = Ok out.
Proof.
  destruct (fill_nas_spec sparse_frame (Int (-99))) as (out & Hout & _).
  exists out. split; [exact Hout|].
  exact (fill_nas_idempotent sparse_frame out (Int (-99)) ltac:(discriminate) Hout).
Defined.






(** ** The order of the rows *)

Lemma StronglySorted_List_filter {A} (R : A -> A -> Prop) (p : A -> bool) l :
  StronglySorted R l -> StronglySorted R (List.filter p l).
Proof.
  induction 1 as [|x l _ IH Hx]; simpl; [constructor|].
  destruct (p x); [|done]. constructor; [done|]. by apply Forall_List_filter.
Qed.

(** A stage that leaves the dates alone leaves the rows in their order. *)
Lemma StronglySorted_same_dates col (l l' : list Row) :
  Forall2 (fun r r' => cell_at r' col = cell_at r col) l l' ->
  StronglySorted (by_date col) l -> StronglySorted (by_date col) l'.
Proof.
  induction 1 as [|r r' l l' Hr Hl IH]; intros Hs; [constructor|].
  apply StronglySorted_inv in Hs as [Hs Hall]. constructor; [by apply IH|].
  clear IH Hs. induction Hl as [|x x' l l' Hx _ IH]; [constructor|].
  apply Forall_cons in Hall as [Hrx Hall]. constructor; [|by apply IH].
  unfold by_date in *. by rewrite Hr, Hx.
Qed.

(** After the date stage an issue date is a first of a month, or
    missing. *)
Lemma fix_date_cols_issue_dates d4 d5 r :
  fix_date_cols d4 = Ok d5 -> r ∈ rows d5 ->
  cell_at r "issue_d" = NA \/ exists y m, cell_at r "issue_d" = Date y m 1.
Proof.
  intros H Hr.
  destruct (Forall2_member_r _ _ _ _ (fix_date_cols_rows _ _ H) Hr)
    as (r0 & _ & _ & Hd & _).
  eapply convert_date_Ok, (Hd "issue_d"). unfold date_cols. by left.
Qed.

Lemma kept_from_2010_date t r :
  kept_from_2010 t r = true ->
  cell_at r "issue_d" = NA \/ (exists y m, cell_at r "issue_d" = Date y m 1) ->
  exists y m, cell_at r "issue_d" = Date y m 1 /\ 2010 <= y.
Proof.
  unfold kept_from_2010, from_2010, ge_date.
  intros Hk [Hna|(y & m & Hd)].
  - rewrite Hna in Hk. by destruct t.
  - rewrite Hd in Hk. exists y, m. split; [done|].
    destruct t; try done. apply date_leb_spec in Hk. lia.
Qed.

(** X19. The pipeline sorts by issue date after the date stage and
    before it filters and coerces, and these stages keep the order: from
    [fix_date_cols] and [sort_values] through
    [exclude_loans_before_2010], [clean_loan_term_col],
    [only_include_36_month_loans] and [clean_employment_length] the rows
    are in ascending order of their issue dates, and each issue date is
    the first day of a month of 2010 or a later year. *)
Theorem cleaning_keeps_date_order (d4 d5 d6 d7 d8 d9 d10 : DataFrame) :
  fix_date_cols d4 = Ok d5 ->
  sort_values d5 "issue_d" = Ok d6 ->
  exclude_loans_before_2010 d6 = Ok d7 ->
  clean_loan_term_col d7 = Ok d8 ->
  only_include_36_month_loans d8 = Ok d9 ->
  clean_employment_length d9 = Ok d10 ->
  StronglySorted (by_date "issue_d") (rows d10)
  /\ Forall (fun r => exists y m, cell_at r "issue_d" = Date y m 1 /\ 2010 <= y)
            (rows d10).
Proof.
  intros H5 H6 H7 H8 H9 H10.
  pose proof (sort_values_sorted _ _ _ H6) as S6.
  apply sort_values_rows in H6 as [_ P6].
  apply exclude_loans_before_2010_rows in H7 as (_ & t & _ & H7).
  apply only_include_36_month_loans_rows in H9 as [_ H9].
  apply clean_loan_term_col_rows in H8.
  apply clean_employment_length_rows in H10.
  assert (E8 : Forall2 (fun r r' => cell_at r' "issue_d" = cell_at r "issue_d")
                 (rows d7) (rows d8)).
  { eapply Forall2_impl; [exact H8|]. simpl.
    intros r r' (v & _ & _ & _ & Hsame). by apply Hsame. }
  assert (E10 : Forall2 (fun r r' => cell_at r' "issue_d" = cell_at r "issue_d")
                  (rows d9) (rows d10)).
  { eapply Forall2_impl; [exact H10|]. simpl.
    intros r r' (v & _ & _ & _ & Hsame). by apply Hsame. }
  split.
  - eapply StronglySorted_same_dates; [exact E10|]. rewrite H9.
    apply StronglySorted_List_filter.
    eapply StronglySorted_same_dates; [exact E8|]. rewrite H7.
    by apply StronglySorted_List_filter.
  - apply Forall_forall. intros r10 Hr10.
    destruct (Forall2_member_r _ _ _ _ E10 Hr10) as (r9 & Hr9 & Hd10).
    rewrite H9 in Hr9. apply elem_of_List_filter in Hr9 as [Hr8 _].
    destruct (Forall2_member_r _ _ _ _ E8 Hr8) as (r7 & Hr7 & Hd8).
    rewrite H7 in Hr7. apply elem_of_List_filter in Hr7 as [Hr6 Hk].
    rewrite P6 in Hr6.
    rewrite Hd10, Hd8.
    apply (kept_from_2010_date t r7 Hk).
    by eapply fix_date_cols_issue_dates.
Qed.

Lemma cleaning_keeps_date_order_witness :
  exists d10,
    col_values d10 "id" = [Int 1002; Int 1001; Int 1003]
    /\ col_values d10 "issue_d" = [Date 2012 3 1; Date 2015 12 1; Date 2016 1 1]
    /\ StronglySorted (by_date "issue_d") (rows d10).
Proof.
  assert (exists d5 d6 d7 d8 d9 d10,
            fix_date_cols raw_five_loans = Ok d5
            /\ sort_values d5 "issue_d" = Ok d6
            /\ exclude_loans_before_2010 d6 = Ok d7
            /\ clean_loan_term_col d7 = Ok d8
            /\ only_include_36_month_loans d8 = Ok d9
            /\ clean_employment_length d9 = Ok d10
            /\ col_values d10 "id" = [Int 1002; Int 1001; Int 1003]
            /\ col_values d10 "issue_d"
               = [Date 2012 3 1; Date 2015 12 1; Date 2016 1 1])
    as (d5 & d6 & d7 & d8 & d9 & d10 & H5 & H6 & H7 & H8 & H9 & H10 & Hid & Hd).
  { do 6 eexists.
    split; [by vm_compute|]. split; [by vm_compute|]. split; [by vm_compute|].
    split; [by vm_compute|]. split; [by vm_compute|]. split; [by vm_compute|].
    split; by vm_compute. }
  exists d10. split; [exact Hid|]. split; [exact Hd|].
  exact (proj1 (cleaning_keeps_date_order raw_five_loans d5 d6 d7 d8 d9 d10
                  H5 H6 H7 H8 H9 H10)).
Defined.

(** ** [exclude_recent_loans] *)

(** X20. [exclude_recent_loans] excludes no loan.  Whatever the minimum
    age asked for, it returns every row of the table, in order and with
    its label and values, and removes the [issue_d] column instead; the
    date filter of the same file then raises [KeyError].  A table without
    [issue_d] raises [KeyError]. *)
Theorem exclude_recent_loans_excludes_nothing (df : DataFrame) (min_age_months : Z) :
  ("issue_d" ∈ col_names df ->
     exists out, DataCleaningOld.exclude_recent_loans df min_age_months = Ok out
       /\ Forall2 (fun r r' => label r' = label r
                     /\ forall c, c <> "issue_d" -> cell_at r' c = cell_at r c)
                  (rows df) (rows out)
       /\ ("issue_d" ∉ col_names out)
       /\ (forall c, c <> "issue_d" ->
             lookup_col c (columns out) = lookup_col c (columns df))
       /\ DataCleaningOld.exclude_loans_before_2010 out = Raise KeyError)
  /\ ("issue_d" ∉ col_names df ->
        DataCleaningOld.exclude_recent_loans df min_age_months = Raise KeyError)
  /\ (forall n, DataCleaningOld.exclude_recent_loans df n
                = DataCleaningOld.exclude_recent_loans df min_age_months).
Proof.
  split; [|split; [|done]].
  - intros Hcol. apply lookup_col_member in Hcol as [t Ht].
    unfold DataCleaningOld.exclude_recent_loans.
    rewrite (drop_total _ _ _ Ht). eexists. split; [done|]. simpl.
    assert (Hgone : "issue_d" ∉ map fst (del_col "issue_d" (columns df))).
    { intros Hin. apply lookup_col_member in Hin as [t' Ht'].
      by rewrite lookup_col_del_col in Ht'. }
    split; [|split; [exact Hgone|split]].
    + induction (rows df) as [|r l IH]; simpl; constructor; [|exact IH].
      split; [done|]. intros c Hc. by apply cell_at_del_cell_ne.
    + intros c Hc. by apply lookup_col_del_col_ne.
    + unfold DataCleaningOld.exclude_loans_before_2010.
      rewrite getitem_missing; done.
  - intros H. unfold DataCleaningOld.exclude_recent_loans, drop.
    by rewrite lookup_col_None.
Qed.

Lemma exclude_recent_loans_excludes_nothing_witness :
  exists out, DataCleaningOld.exclude_recent_loans dated_loans 12 = Ok out
    /\ length (rows out) = length (rows dated_loans)
    /\ DataCleaningOld.exclude_loans_before_2010 out = Raise KeyError.
Proof.
  destruct (proj1 (exclude_recent_loans_excludes_nothing dated_loans 12))
    as (out & Hout & Hrows & _ & _ & Hraise).
  - vm_compute. right. by left.
  - exists out. split; [exact Hout|]. split; [|exact Hraise].
    symmetry. by eapply Forall2_length.
Defined.
